(* ===== verification/_CoqProject ===== *)
-Q . S2P
Prelude.v
JsString.v
Catalog.v
Search.v
Bookmarks.v
JsObject.v
Reviews.v
Session.v
JsNumber.v
JsDate.v
Details.v
Json.v
Storage.v
Components.v
App.v
AppSpec.v
Featured.v
