(* ===== verification/Prelude.v ===== *)
(** * NomNom: a verification development of the client-side state model

    The program (repository nomnom-beta) is a React single-page app for
    discovering restaurants in Dhaka.  Two source files:

    - src/src/App.jsx: the application.  [App] holds the whole state in
      React hooks: the active [tab], the search [query], [filtersOpen],
      the [active] restaurant id, and three persisted stores ([user],
      [reviews], [bookmarks]) hydrated from localStorage by [loadLocal]
      and written back by [saveLocal] in one [useEffect] per store.  The
      catalog is the constant [MOCK_RESTAURANTS]; [restaurants] (a
      [useMemo]) filters it by the query; [openDetails] selects a
      restaurant; the child components [Header], [Hero],
      [RestaurantCard], [RestaurantDetails], [Login], [Modal] and
      [TabBar] call back into [App] through the setters they receive.
      [RestaurantDetails] and [Login] keep local form state of their own
      ([text]/[stars], [name]/[email]) that React discards when they
      unmount.
    - src/src/NomNomApp.jsx: an unused "v1.1" homepage with a constant
      list of featured reviewers and a [StarRating] widget.

    ** Layout of the development (one file per component)

    - [Prelude] (this file): notations ([nomnom_scope]), the hint
      database [nomnom], tactics, and lemmas on strings, lists and
      options shared by every component.
    - [JsString]: the JavaScript string builtins the code calls
      ([toLowerCase], [trim], [includes], [Array.prototype.join],
      [length]) over strings of Latin-1 code units, with an executable
      [includes] proved equivalent to the substring relation.
    - [Catalog]: the [Restaurant] record, the [PriceTier] enum and the
      three [MOCK_RESTAURANTS]; [find] on the catalog.
    - [Search]: the [restaurants] memo (App.jsx lines 81-92) and its
      contract: a stable sub-list of the catalog, identity on a blank
      query, every match and only matches kept.
    - [Bookmarks]: the bookmark array and its toggle (lines 110-111,
      128-129), a list-as-set equivalence with [Proper] instances, an
      abstract [gset] store and the refinement of the array by it.
    - [JsObject]: JavaScript objects used as dictionaries (insertion
      ordered association lists) with [get]/[set]; refinement by gmap.
    - [Reviews]: the [Review] record and the review map of [App]:
      [reviews[active] || []] and the [onAddReview] updater (line 142).
    - [Session]: the [user] record, the [Login] form and the author name
      [user?.name || "Guest"].
    - [Details]: the local form of [RestaurantDetails] (stars, text),
      its submit guard (line 298) and the [Post review] handler.
    - [JsNumber]: the number grammar of [JSON.parse] and
      Number::toString (the number case of [JSON.stringify]) on exact
      decimals, and their round trip.
    - [JsDate]: the ECMAScript Date operations behind [Date.now()],
      [new Date().toISOString()] (line 300) and [new Date(rv.date)]
      (line 316): the calendar of time values, [toISOString] and
      [Date.parse] on the Date Time String Format.
    - [Json]: JSON values, [JSON.stringify] and [JSON.parse] over
      strings, and the round trip [parse (stringify v) = v].
    - [Storage]: localStorage as a gmap from keys to strings,
      [loadLocal]/[saveLocal] (lines 63-66) and the codecs of the three
      stores.
    - [Components]: the whole [App] state, one event per handler of
      the JSX, each component ([Header], [Hero], [RestaurantCard],
      [RestaurantDetails], [Login], [Modal], the filters panel,
      [TabBar]) as a definition
      taking its props (the callbacks [App] passes down), [App]'s render
      as the list of mounted elements ([elements], [page], [overlay]),
      and event delivery ([handle]); [handle_eq] states what the
      composition does event by event.
    - [App]: the step function with the persistence effects, mounting
      (hydration), the reachability relation, the invariant of
      reachable states proved by rule induction, and the properties of
      the whole application.
    - [AppSpec]: the specification of the application as a state
      machine ([aop]) on abstract stores (a gmap of reviews, a gset of
      bookmarks, the session), the abstraction [abs] of [App]'s state,
      and the refinement of every run by the specification.
    - [Featured]: [featuredReviewers] and [StarRating] of NomNomApp.jsx.

    Components interact through interfaces: [Bookmarks] states the
    store it promises as the class [BookmarkStore] with its laws (the
    array and a [gset] are instances); [Storage] states what a persisted
    store needs as the class [Persisted] (key, fallback, encoder,
    decoder) with [PersistedLaws], and [App] saves and hydrates its three
    stores only through it.  The built-ins are separate components used through
    their round-trip theorems: [Json] prints and reads numbers only
    through [JsNumber] ([parse_number_to_string]), and [Details] dates a
    review through [JsDate] ([Date_parse_toISOString]).

    ** What the theorems show (by group; C<n> are the claim ids)

    - App (state machine): in every reachable state, a step changes the
      reviews only by a post of a logged-in user, with 1..5 stars and a
      body of at least 5 characters once trimmed, prepended to the active
      restaurant's list (C1); a restart on the stored localStorage
      hydrates the same session, reviews and bookmarks (C2); the details
      view always has a restaurant of the catalog (C3); every review
      held after a run from a fresh start has the type of the data model,
      its date a valid instant (C5); absent or unparseable storage mounts
      with the defaults (C6); a complete draft can always be posted, with
      the click's [Date.now()] as its id and a date that reads back as
      the click's instant (C7); the login form always installs the
      session it was given and persists it (C8); Save flips the card's
      label (C13); a session is never cleared (C14); hydration takes any
      stored review object of the right shape unchecked, whatever its
      stars (C18, a finding); after "View details", the Review tab shows
      that restaurant again whatever events that open no other one come
      between (C26, a finding: [active] is never cleared); "View
      details" on every listed card opens that restaurant with an empty
      draft (C30); the filters modal's four buttons are live exactly
      while it is open and only close it (C32); on the details view the
      star buttons set the stars and typing works exactly with a session
      (C33).  The
      invariant [App.inv] is proved for every reachable state by rule
      induction ([reachable_inv]).  The scenarios of the spec are
      evaluated by [vm_compute] as examples ([scenario_no_session],
      [scenario_login_post]).
    - Json: [JSON.parse (JSON.stringify v) = v] for every value without
      duplicate keys whose numbers are normalised (C4), through
      [parse_stringify], which holds for any fuel at least the size of
      the value and any text after it that cannot continue a number
      ([JSON_parse_fuel]: the fuel [JSON_parse] gives never stops it).
    - JsNumber: the number parser reads back every number the printer
      writes, in each of the five forms of Number::toString (C10); the
      printer uses the exponent form exactly when the decimal point is
      more than 21 digits right or 6 or more left of the first digit
      (C31); [number_to_string_cases] evaluates these boundaries.
      [parse_number_wf]: the parser builds only normalised numbers, so
      equal values are equal terms.
    - Search: the memo refines a filter specification and keeps the
      catalog order (C11); any part of a name, in any case and with any
      blanks around it, finds its restaurant (C12, through [trim_pad]).
    - Bookmarks: the array refines a [gset] (C19); toggling twice gives
      the array without the id, then the id if it was saved: the array
      itself when it was not, otherwise the id moved to the end (C20, a
      finding); duplicates never appear (C21).
    - Reviews: a post prepends to its restaurant's list (C16), leaves the
      others alone (C22), refines a gmap insert (C23), keeps the old list
      as a suffix (C24).
    - AppSpec: every run of the application from a reachable state
      refines the specification machine: each step is a navigation, a
      search, a filter-panel toggle, a bookmark toggle on the set, a login,
      or a review added by a session holder with 1..5 stars and a trimmed
      body of 5 characters, at the head of its restaurant's list (C25).
    - Storage: [loadLocal] reads back every JSON value [saveLocal]
      stored, of any shape, with the fallback only for [null] (C15, a
      finding: wrong-shaped data reaches the state); absent and
      unparseable entries give the fallback ([loadLocal_unreadable],
      used by C6).  [load_save] gives the round trip of each store.
    - JsDate: [Date.parse] reads back the instant [toISOString] writes,
      for every time value and time zone (C27); [toISOString] throws
      exactly beyond the time range and otherwise writes 24 characters,
      27 for an expanded year (C9); [YearFromTime], computed from a
      400-year estimate, is the largest year whose start is not after
      [t], as ECMA-262 defines it (C17); [toISOString_cases] evaluates
      the calendar's boundaries.
    - JsString, Featured: [includes] reflects the substring relation
      (C28); [trim] removes exactly the white space at both ends
      (C34); the star widget draws five stars, [min rating 5] filled
      (C29).

    ** Modelling choices, bounds and what is not modelled

    - Strings are [String.string], one [ascii] per UTF-16 code unit below
      256 (Latin-1).  [toLowerCase] and [trim] are exact on that range;
      code units above 255 are not modelled (the em dash of NomNomApp.jsx
      line 19 is written as two hyphens).
    - JSON numbers are exact decimals ([JsNumber.number]: an integer,
      or [m * 10^e] in lowest terms), read by the whole JSON number
      grammar and printed by Number::toString in all its forms.  The
      shortest-digits search of Number::toString is the identity on an
      exact decimal; [strip_zeros] is given as fuel the digit count of
      the integer, one step per trailing zero at most, which is enough
      (the round trip C10 holds for every integer).  The catalog's
      ratings are kept in tenths.
    - The parser runs on fuel, the length of the text.  Every parser
      consumes a character before it recurses ([parse_length]), so any
      two fuels at least the length of the text give the same result
      ([parse_fuel], [JSON_parse_fuel]): the fuel never rejects a text.
    - A JavaScript object used as a dictionary is an association list in
      insertion order ([JsObject]); its abstraction is a gmap.
    - Rendering (CSS classes, images, icons, the map placeholder, the
      static markup of [TabButton], [Section] and the filter chips,
      which have no handlers) is not modelled; what a component
      renders is the list of handlers it mounts, with the conditions
      of the JSX.  The filters modal is modelled by its handlers
      (backdrop, Cancel, Apply, all closing it, lines 150-161); its
      overlay is not modelled as blocking the page: the model offers
      every rendered handler, a superset.  [Card]/[CardContent] of
      components/ui/card (imported by NomNomApp.jsx, not in the
      repository) are presentational containers and not modelled.
    - The two clock readings of a post, [Date.now()] for the id and
      [new Date()] for the date, are inputs of the post event; the date
      string is computed from the second by [JsDate.toISOString].  Time
      values are exact integers: every time value ([|t| <= 8.64e15]) is
      a safe integer, so the binary64 arithmetic of the Date operations
      is exact on them.
    - A stored value of the wrong shape is outside [App.hydrate] (it
      returns [None]); the code would put it into the state as is.  A
      value of the right shape is hydrated unchecked, as the code does
      (C18).

    ** Partly modelled, and why

    - JavaScript strings: only Latin-1 code units; the app's data and
      queries are Latin-1 apart from one em dash in a constant.
    - JSON numbers: binary64 rounding, Infinity and -0 are not
      modelled (a literal is kept exact); the app stores only integers
      below 2^53 (Date.now(), star counts), on which the two agree.
    - The review form: the formatting of the review dates
      ([toLocaleString], which depends on the host's locale) and the
      static restaurant header (image, menu, map placeholder) are
      presentation and not modelled; the list of reviews, the instant
      each date row shows, the star highlights and the login hint are.
    - Date: [Date.parse] is modelled on the Date Time String Format,
      which is all the app writes; other strings are left by ECMAScript
      to implementation heuristics.

    ** Left for later

    - Binary64 arithmetic behind JSON numbers (rounding to 17
      significant digits and the shortest round-trip digits).
    - [toLocaleString] for a fixed locale and time zone.
    - Liveness of the remaining rendered handlers (the Hero button, the
      header's search field and tabs) as theorems, beyond posting (C7),
      login (C8), opening a card (C30), the filters modal (C32) and the
      review form (C33).
*)

From stdpp Require Export base list gmap strings.
From Stdlib Require Export Ascii.

Declare Scope nomnom_scope.
Delimit Scope nomnom_scope with nn.
Open Scope nomnom_scope.

Create HintDb nomnom.
Create Rewrite HintDb nomnom_rw.

(** ** Strings *)

(** [q] occurs in [s] at some position: the relation the builtin
    [includes] decides. *)
Definition is_infix (q s : string) : Prop :=
  ∃ pre suf, s = pre +:+ q +:+ suf.

Notation "q ⊑ s" := (is_infix q s) (at level 70) : nomnom_scope.

Lemma string_app_nil_l (s : string) : "" +:+ s = s.
Proof. reflexivity. Qed.

Lemma string_app_cons (c : ascii) (a b : string) :
  String c a +:+ b = String c (a +:+ b).
Proof. reflexivity. Qed.

Lemma string_app_nil_r (s : string) : s +:+ "" = s.
Proof. induction s as [|c s IH]; [done | by rewrite string_app_cons, IH]. Qed.

Lemma string_app_assoc (a b c : string) : a +:+ (b +:+ c) = (a +:+ b) +:+ c.
Proof. induction a as [|x a IH]; [done | by rewrite !string_app_cons, IH]. Qed.

Lemma string_length_app (a b : string) :
  String.length (a +:+ b) = String.length a + String.length b.
Proof. induction a as [|x a IH]; [done | rewrite string_app_cons; simpl; lia]. Qed.

#[export] Hint Rewrite string_app_nil_r string_app_cons string_length_app : nomnom_rw.

Lemma is_infix_refl (s : string) : s ⊑ s.
Proof. exists "", "". simpl. by rewrite string_app_nil_r. Qed.

Lemma is_infix_app_l (q a b : string) : q ⊑ a → q ⊑ a +:+ b.
Proof.
  intros (pre & suf & ->). exists pre, (suf +:+ b).
  by rewrite !string_app_assoc.
Qed.

Lemma is_infix_app_r (q a b : string) : q ⊑ b → q ⊑ a +:+ b.
Proof.
  intros (pre & suf & ->). exists (a +:+ pre), suf.
  by rewrite !string_app_assoc.
Qed.

Lemma is_infix_empty (s : string) : "" ⊑ s.
Proof. by exists "", s. Qed.

Lemma is_infix_trans (a b c : string) : a ⊑ b → b ⊑ c → a ⊑ c.
Proof.
  intros (p1 & s1 & ->) (p2 & s2 & ->).
  exists (p2 +:+ p1), (s1 +:+ s2). rewrite !string_app_assoc. done.
Qed.

#[export] Instance is_infix_preorder : PreOrder is_infix.
Proof. split; [intros s; apply is_infix_refl | intros a b c; apply is_infix_trans]. Qed.

#[export] Hint Resolve is_infix_refl is_infix_app_l is_infix_app_r is_infix_empty : nomnom.

(** ** Lists *)

Lemma filter_sublist {A} (P : A → Prop) `{∀ x, Decision (P x)} (l : list A) :
  filter P l `sublist_of` l.
Proof.
  induction l as [|x l IH]; simpl; [constructor|].
  rewrite filter_cons. case_decide; by constructor.
Qed.

(** The Standard Library's boolean [List.filter] (JavaScript's
    [Array.prototype.filter]) is stdpp's propositional [filter] by the
    predicate the boolean decides. *)
Lemma List_filter_filter {A} (f : A → bool) (P : A → Prop) `{∀ x, Decision (P x)}
    (l : list A) :
  (∀ x, f x = true ↔ P x) → List.filter f l = filter P l.
Proof.
  intros Hf. induction l as [|x l IH]; [done|].
  simpl. rewrite filter_cons, IH.
  destruct (f x) eqn:E; case_decide as HP;
    [done | exfalso; by apply HP, Hf | exfalso; apply Hf in HP; congruence | done].
Qed.

Lemma filter_all {A} (P : A → Prop) `{∀ x, Decision (P x)} (l : list A) :
  (∀ x, P x) → filter P l = l.
Proof.
  intros HP. induction l as [|x l IH]; [done|].
  by rewrite filter_cons_True, IH.
Qed.

Lemma filter_all' {A} (P : A → Prop) `{∀ x, Decision (P x)} (l : list A) :
  (∀ x, x ∈ l → P x) → filter P l = l.
Proof.
  intros HP. induction l as [|x l IH]; [done|].
  rewrite filter_cons_True; [|apply HP; left].
  rewrite IH; [done|]. intros y Hy. apply HP. by right.
Qed.

Lemma filter_none' {A} (P : A → Prop) `{∀ x, Decision (P x)} (l : list A) :
  (∀ x, x ∈ l → ¬ P x) → filter P l = [].
Proof.
  intros HP. induction l as [|x l IH]; [done|].
  rewrite filter_cons_False; [|apply HP; left].
  apply IH. intros y Hy. apply HP. by right.
Qed.

(** A map that is duplicate free on a list is injective on its elements. *)
Lemma NoDup_fmap_inj_on {A B} (f : A → B) (l : list A) (x y : A) :
  NoDup (f <$> l) → x ∈ l → y ∈ l → f x = f y → x = y.
Proof.
  induction l as [|z l IH]; [by intros _ ?%elem_of_nil|].
  rewrite fmap_cons, NoDup_cons. intros [Hz Hnd].
  intros [-> | Hx]%elem_of_cons [-> | Hy]%elem_of_cons Hf; auto.
  - destruct Hz. rewrite Hf. by apply list_elem_of_fmap_2.
  - destruct Hz. rewrite <- Hf. by apply list_elem_of_fmap_2.
Qed.

#[export] Hint Resolve filter_sublist : nomnom.

(** ** Tactics *)

(** Turn a boolean test in a hypothesis into its propositional form. *)
Ltac bool_to_prop :=
  repeat match goal with
  | H : bool_decide _ = true |- _ => apply bool_decide_eq_true in H
  | H : bool_decide _ = false |- _ => apply bool_decide_eq_false in H
  | H : (_ && _)%bool = true |- _ => apply andb_true_iff in H as [? ?]
  | H : (_ || _)%bool = false |- _ => apply orb_false_iff in H as [? ?]
  end.

(** Case on every [if] of the goal, with the equation. *)
Ltac case_ifs :=
  repeat match goal with
  | |- context [if ?b then _ else _] => destruct b eqn:?
  end.
