(* ===== verification/JsString.v ===== *)
(** * JavaScript string builtins used by the search

    [String.prototype.toLowerCase], [trim], [includes], the [length] of a
    string and [Array.prototype.join] as App.jsx calls them (lines 82 and
    86-88, 298).  Strings are sequences of UTF-16 code units; the model
    keeps the code units below 256 (Latin-1), one [ascii] each, on which
    [toLowerCase] and [trim] are exact.  These are platform functions:
    they are modelled from the ECMAScript definitions, and the lemmas
    here are what the search and the review guard use of them. *)

From S2P Require Import Prelude.

Module JsString.

(** ** toLowerCase on Latin-1: A-Z and U+00C0..U+00DE except U+00D7. *)
Definition lower_char (c : ascii) : ascii :=
  let n := nat_of_ascii c in
  if ((65 <=? n) && (n <=? 90)) || ((192 <=? n) && (n <=? 222) && negb (n =? 215))
  then ascii_of_nat (n + 32) else c.

Fixpoint toLowerCase (s : string) : string :=
  match s with
  | EmptyString => EmptyString
  | String c s' => String (lower_char c) (toLowerCase s')
  end.

(** ** trim: WhiteSpace and LineTerminator code units below 256. *)
Definition is_js_space (c : ascii) : bool :=
  match nat_of_ascii c with
  | 9 | 10 | 11 | 12 | 13 | 32 | 160 => true
  | _ => false
  end.

Fixpoint trimStart (s : string) : string :=
  match s with
  | EmptyString => EmptyString
  | String c s' => if is_js_space c then trimStart s' else s
  end.

(** Drop the trailing white space: a code unit is kept when it is not
    white space or when something is kept after it. *)
Fixpoint trimEnd (s : string) : string :=
  match s with
  | EmptyString => EmptyString
  | String c s' =>
      let r := trimEnd s' in
      if is_js_space c && String.eqb r "" then "" else String c r
  end.

Definition trim (s : string) : string := trimEnd (trimStart s).

(** ** includes: [s.includes(q)] searches [q] from position 0. *)
Fixpoint startsWith (s q : string) : bool :=
  match q, s with
  | EmptyString, _ => true
  | String a q', String b s' => Ascii.eqb a b && startsWith s' q'
  | String _ _, EmptyString => false
  end.

Fixpoint includes (s q : string) : bool :=
  startsWith s q ||
  match s with
  | EmptyString => false
  | String _ s' => includes s' q
  end.

(** ** Array.prototype.join *)
Fixpoint join (sep : string) (l : list string) : string :=
  match l with
  | [] => ""
  | [x] => x
  | x :: l' => x +:+ sep +:+ join sep l'
  end.

(** ** Lemmas *)

Lemma toLowerCase_app (a b : string) :
  toLowerCase (a +:+ b) = toLowerCase a +:+ toLowerCase b.
Proof.
  induction a as [|c a IH]; [done|].
  rewrite string_app_cons. simpl. by rewrite IH.
Qed.

Lemma lower_char_idem (c : ascii) : lower_char (lower_char c) = lower_char c.
Proof. destruct c as [[] [] [] [] [] [] [] []]; reflexivity. Qed.

Lemma toLowerCase_idem (s : string) : toLowerCase (toLowerCase s) = toLowerCase s.
Proof. induction s as [|c s IH]; simpl; [done|]. by rewrite lower_char_idem, IH. Qed.

Lemma is_infix_toLowerCase (q s : string) :
  q ⊑ s → toLowerCase q ⊑ toLowerCase s.
Proof.
  intros (pre & suf & ->). exists (toLowerCase pre), (toLowerCase suf).
  by rewrite !toLowerCase_app.
Qed.

Lemma startsWith_spec (s q : string) :
  startsWith s q = true ↔ ∃ suf, s = q +:+ suf.
Proof.
  revert s. induction q as [|a q IH]; intros [|b s]; simpl.
  - split; [by exists "" | done].
  - split; [by eexists | done].
  - split; [done | by intros [? ?]].
  - rewrite andb_true_iff, IH.
    split.
    + intros [->%Ascii.eqb_eq [suf ->]]. by exists suf.
    + intros [suf Hs]. rewrite string_app_cons in Hs. injection Hs as -> ->.
      split; [apply Ascii.eqb_refl | by exists suf].
Qed.

(** [includes] decides the substring relation. *)
Lemma includes_spec (s q : string) : includes s q = true ↔ q ⊑ s.
Proof.
  induction s as [|c s IH].
  all: match goal with |- includes ?s0 ?q0 = true ↔ _ =>
         change (includes s0 q0) with
           (startsWith s0 q0 || match s0 with "" => false | String _ s' => includes s' q0 end)%bool
       end.
  all: rewrite orb_true_iff, startsWith_spec.
  - split.
    + intros [[suf Hs] | ?]; [exists "", suf; exact Hs | done].
    + intros (pre & suf & Hs). destruct pre; [|done].
      left. by exists suf.
  - rewrite IH. split.
    + intros [[suf Hs] | (pre & suf & ->)].
      * exists "", suf. exact Hs.
      * exists (String c pre), suf. by rewrite string_app_cons.
    + intros (pre & suf & Hs). destruct pre as [|d pre].
      * left. by exists suf.
      * rewrite string_app_cons in Hs. injection Hs as -> ->.
        right. by exists pre, suf.
Qed.

(** C28. The executable search and the substring relation agree on every
    input, in [reflect] form. *)
Lemma includes_reflect (s q : string) : reflect (q ⊑ s) (includes s q).
Proof. apply iff_reflect. symmetry. apply includes_spec. Qed.

Lemma trimStart_suffix (s : string) : ∃ pre, s = pre +:+ trimStart s.
Proof.
  induction s as [|c s [pre IH]]; simpl; [by exists ""|].
  destruct (is_js_space c).
  - exists (String c pre). rewrite string_app_cons. congruence.
  - by exists "".
Qed.

Lemma trimEnd_prefix (s : string) : ∃ suf, s = trimEnd s +:+ suf.
Proof.
  induction s as [|c s [suf IH]]; simpl; [by exists ""|].
  destruct (is_js_space c && String.eqb (trimEnd s) "")%bool eqn:E.
  - bool_to_prop. apply String.eqb_eq in H0. rewrite H0 in IH.
    exists (String c suf). simpl in IH. by rewrite IH.
  - exists suf. rewrite string_app_cons. congruence.
Qed.

(** The trimmed string occurs in the original. *)
Lemma trim_infix (s : string) : trim s ⊑ s.
Proof.
  unfold trim. destruct (trimStart_suffix s) as [pre Hpre].
  destruct (trimEnd_prefix (trimStart s)) as [suf Hsuf].
  exists pre, suf. rewrite Hpre at 1. by rewrite Hsuf at 1.
Qed.

(** ** trim on concatenations *)

Lemma trimStart_app (a b : string) :
  trimStart (a +:+ b) = if String.eqb (trimStart a) "" then trimStart b else trimStart a +:+ b.
Proof.
  induction a as [|c a IH]; [done|]. rewrite string_app_cons. simpl.
  destruct (is_js_space c); [done|]. done.
Qed.

Lemma trimEnd_app (a b : string) :
  trimEnd (a +:+ b) = if String.eqb (trimEnd b) "" then trimEnd a else a +:+ trimEnd b.
Proof.
  induction a as [|c a IH].
  { rewrite string_app_nil_l. by destruct (String.eqb_spec (trimEnd b) "") as [->|]. }
  rewrite string_app_cons. cbn [trimEnd]. rewrite IH. destruct (String.eqb_spec (trimEnd b) "") as [E|E]; [done|].
  destruct (String.eqb_spec (a +:+ trimEnd b) "") as [E'|E'].
  - destruct a; [done | discriminate].
  - rewrite andb_false_r. done.
Qed.

(** A string that starts with white space only is white space only. *)
Lemma trimStart_blank (s : string) : trimStart s = "" → trimEnd s = "".
Proof.
  induction s as [|c s IH]; simpl; [done|].
  destruct (is_js_space c) eqn:E; [|discriminate]. intros H. by rewrite IH.
Qed.

(** [s.trim() === ""] exactly when [s] is white space only. *)
Lemma trim_blank (s : string) : trim s = "" ↔ trimStart s = "".
Proof.
  unfold trim. split; [|by intros ->].
  destruct (trimStart s) as [|c r] eqn:E; [done|]. simpl.
  assert (is_js_space c = false) as Hc.
  { clear -E. induction s as [|c' s IH]; simpl in E; [done|].
    destruct (is_js_space c') eqn:?; [auto | by injection E as -> _]. }
  by rewrite Hc.
Qed.

(** Blanks around a string do not change its trim. *)
Lemma trim_pad (pre q post : string) :
  trim pre = "" → trim post = "" → trim (pre +:+ q +:+ post) = trim q.
Proof.
  rewrite !trim_blank. intros Hpre Hpost. unfold trim.
  rewrite trimStart_app, Hpre, trimStart_app. simpl.
  destruct (String.eqb_spec (trimStart q) "") as [->|_]; [by rewrite Hpost|].
  by rewrite trimEnd_app, (trimStart_blank post Hpost).
Qed.

(** ** What trim removes *)

(** White space only (a specification predicate). *)
Fixpoint blank (s : string) : bool :=
  match s with EmptyString => true | String c s' => is_js_space c && blank s' end.

Lemma trimStart_spec (s : string) :
  ∃ pre, s = pre +:+ trimStart s ∧ blank pre = true ∧
    (trimStart s = "" ∨ ∃ c r, trimStart s = String c r ∧ is_js_space c = false).
Proof.
  induction s as [|c s (pre & Hs & Hb & Ht)]; [exists ""; naive_solver|]. simpl.
  destruct (is_js_space c) eqn:Ec.
  - exists (String c pre). rewrite string_app_cons, <- Hs. simpl. rewrite Ec. naive_solver.
  - exists "". split_and!; [done | done | right; by eexists _, _].
Qed.

Lemma trimEnd_spec (s : string) :
  ∃ post, s = trimEnd s +:+ post ∧ blank post = true ∧
    (trimEnd s = "" ∨ ∃ r c, trimEnd s = r +:+ String c "" ∧ is_js_space c = false).
Proof.
  induction s as [|c s (post & Hs & Hb & Ht)]; [exists ""; naive_solver|]. cbn [trimEnd].
  destruct (is_js_space c) eqn:Ec; destruct (String.eqb_spec (trimEnd s) "") as [E|E]; cbn [andb].
  - exists (String c post). rewrite E, string_app_nil_l in Hs. subst post. simpl. rewrite Ec, Hb. naive_solver.
  - exists post. rewrite string_app_cons, <- Hs. split_and!; [done | done |].
    destruct Ht as [|(r & c' & Hr & Hc')]; [done|]. right. exists (String c r), c'. by rewrite Hr.
  - exists post. rewrite string_app_cons, <- Hs. split_and!; [done | done |].
    right. exists "", c. by rewrite E.
  - exists post. rewrite string_app_cons, <- Hs. split_and!; [done | done |].
    destruct Ht as [|(r & c' & Hr & Hc')]; [done|]. right. exists (String c r), c'. by rewrite Hr.
Qed.

Lemma trimEnd_head (c : ascii) (r : string) :
  is_js_space c = false → trimEnd (String c r) = String c (trimEnd r).
Proof. intros Hc. simpl. by rewrite Hc. Qed.

(** C34. [String.prototype.trim] removes exactly the white space at both
    ends: the string is the trimmed string with white space only before
    and after it, and the trimmed string is empty or starts and ends with
    a code unit that is not white space. *)
Theorem trim_spec (s : string) :
  ∃ pre post, s = pre +:+ trim s +:+ post ∧ blank pre = true ∧ blank post = true ∧
    (trim s = "" ∨
     (∃ c r, trim s = String c r ∧ is_js_space c = false) ∧
     (∃ r c, trim s = r +:+ String c "" ∧ is_js_space c = false)).
Proof.
  destruct (trimStart_spec s) as (pre & Hs & Hpre & Hst).
  destruct (trimEnd_spec (trimStart s)) as (post & He & Hpost & Hend).
  exists pre, post. unfold trim. split_and!; [by rewrite <- He | done | done |].
  destruct Hend as [-> | Hend]; [by left | right]. split; [|done].
  destruct Hst as [Hst | (c & r & Hst & Hc)]; [destruct Hend as (? & ? & Hx & _); rewrite Hst in Hx; destruct x; discriminate|].
  rewrite Hst, trimEnd_head by done. by eexists _, _.
Qed.

(** Each element of a joined list occurs in the join. *)
Lemma join_infix (sep x : string) (l : list string) :
  x ∈ l → x ⊑ join sep l.
Proof.
  induction l as [|y l IH]; [by intros ?%elem_of_nil|].
  intros [-> | Hx]%elem_of_cons.
  - destruct l; simpl; [apply is_infix_refl | auto with nomnom].
  - destruct l as [|z l]; [by apply elem_of_nil in Hx|].
    apply is_infix_app_r, is_infix_app_r. auto.
Qed.

End JsString.
