(* ===== verification/Catalog.v ===== *)
(** * The catalog: [MOCK_RESTAURANTS] of App.jsx (lines 5-60)

    The restaurant record with the source's field names, the price tier
    as an enum with its display label, and the three mock restaurants.
    The catalog is read-only: the app never changes it.  The average
    rating, a JavaScript number with one decimal, is kept in tenths
    ([rating_tenths] 46 for 4.6): no code computes with it. *)

From S2P Require Import Prelude.

Module Catalog.

Record MenuItem := mkMenuItem { item_name : string; item_price : nat }.

(** The [price] field holds one of three labels. *)
Inductive PriceTier := Cheap | Moderate | Expensive.

Definition price_label (p : PriceTier) : string :=
  match p with Cheap => "$" | Moderate => "$$" | Expensive => "$$$" end.

Record Restaurant := mkRestaurant {
  id : string;
  name : string;
  area : string;
  cuisine : list string;
  price : PriceTier;
  rating_tenths : nat;
  reviews : nat;
  tags : list string;
  img : string;
  menu : list MenuItem;
  description : string
}.

Definition bunbun_banh_mi : Restaurant :=
  {| id := "r1"; name := "BunBun Banh Mi"; area := "Banani";
     cuisine := ["Vietnamese"; "Sandwich"]; price := Moderate;
     rating_tenths := 46; reviews := 142; tags := ["Kid friendly"; "Non smoking"];
     img := "https://images.unsplash.com/photo-1544025162-d76694265947?q=80&w=1200&auto=format&fit=crop";
     menu := [mkMenuItem "Classic Banh Mi" 380; mkMenuItem "Grilled Chicken Banh Mi" 420;
              mkMenuItem "Iced Coffee" 220];
     description := "Crisp baguettes with bold fillings. Cosy spot for a quick bite and coffee." |}.

Definition chaa_club : Restaurant :=
  {| id := "r2"; name := "Chaa Club"; area := "Dhanmondi";
     cuisine := ["Cafe"; "Dessert"]; price := Cheap;
     rating_tenths := 42; reviews := 89; tags := ["Work friendly"; "WiFi"];
     img := "https://images.unsplash.com/photo-1504754524776-8f4f37790ca0?q=80&w=1200&auto=format&fit=crop";
     menu := [mkMenuItem "Masala Chai" 180; mkMenuItem "Cheesecake Slice" 320;
              mkMenuItem "Chicken Sandwich" 350];
     description := "Tea focused cafe with calm vibes and power sockets at every table." |}.

Definition kacchi_stories : Restaurant :=
  {| id := "r3"; name := "Kacchi Stories"; area := "Uttara";
     cuisine := ["Bangladeshi"]; price := Expensive;
     rating_tenths := 48; reviews := 512; tags := ["Family"; "Parking"];
     img := "https://images.unsplash.com/photo-1617195737496-87df82d906b6?q=80&w=1200&auto=format&fit=crop";
     menu := [mkMenuItem "Kacchi Platter" 780; mkMenuItem "Borhani" 120;
              mkMenuItem "Firni" 160];
     description := "Rich kacchi with generous portions, perfect for gatherings." |}.

Definition MOCK_RESTAURANTS : list Restaurant := [bunbun_banh_mi; chaa_club; kacchi_stories].

(** [MOCK_RESTAURANTS.find(x => x.id === active)] (line 138). *)
Definition find_restaurant (catalog : list Restaurant) (rid : string) : option Restaurant :=
  List.find (λ x, String.eqb (id x) rid) catalog.

(** The identifiers of the catalog, and the identifier invariant. *)
Definition catalog_ids (catalog : list Restaurant) : list string := id <$> catalog.

Definition ids_unique (catalog : list Restaurant) : Prop := NoDup (catalog_ids catalog).

Lemma find_restaurant_some (catalog : list Restaurant) (rid : string) (r : Restaurant) :
  find_restaurant catalog rid = Some r → r ∈ catalog ∧ id r = rid.
Proof.
  unfold find_restaurant. intros [Hin Hid]%List.find_some.
  split; [by apply list_elem_of_In | by apply String.eqb_eq].
Qed.

(** [find] succeeds exactly on the identifiers of the catalog. *)
Lemma find_restaurant_is_Some (catalog : list Restaurant) (rid : string) :
  is_Some (find_restaurant catalog rid) ↔ rid ∈ catalog_ids catalog.
Proof.
  unfold find_restaurant, catalog_ids. rewrite list_elem_of_fmap. split.
  - intros [r (Hin & Hid)%List.find_some].
    exists r. split; [symmetry; by apply String.eqb_eq | by apply list_elem_of_In].
  - intros (r & -> & Hin).
    destruct (List.find _ _) eqn:E; [done|].
    exfalso. eapply List.find_none in E; [|by apply list_elem_of_In].
    by rewrite String.eqb_refl in E.
Qed.

(** In a catalog with unique ids, [find] by the id of one of its restaurants returns that restaurant. *)
Lemma find_restaurant_in (catalog : list Restaurant) (r : Restaurant) :
  ids_unique catalog → r ∈ catalog → find_restaurant catalog (id r) = Some r.
Proof.
  intros Hnd Hin.
  destruct (proj2 (find_restaurant_is_Some catalog (id r))) as [r' Hr'].
  { apply list_elem_of_fmap. by exists r. }
  rewrite Hr'. apply find_restaurant_some in Hr' as [Hin' Hid].
  f_equal. by eapply NoDup_fmap_inj_on.
Qed.

(** The mock catalog satisfies the identifier invariant of the spec. *)
Lemma MOCK_RESTAURANTS_ids_unique : ids_unique MOCK_RESTAURANTS.
Proof. apply (bool_decide_unpack _). vm_compute. reflexivity. Qed.

Lemma find_restaurant_in_witness :
  ids_unique MOCK_RESTAURANTS ∧ kacchi_stories ∈ MOCK_RESTAURANTS ∧
  find_restaurant MOCK_RESTAURANTS (id kacchi_stories) = Some kacchi_stories.
Proof.
  assert (H1 : ids_unique MOCK_RESTAURANTS) by (apply (bool_decide_unpack _); vm_compute; reflexivity).
  assert (H2 : kacchi_stories ∈ MOCK_RESTAURANTS) by (apply list_elem_of_In; simpl; auto).
  split; [exact H1|]. split; [exact H2|]. exact (find_restaurant_in _ _ H1 H2).
Defined.

End Catalog.
