(* ===== verification/Search.v ===== *)
(** * Search: the [restaurants] memo of App.jsx (lines 81-92)

    [search catalog query] is the body of the [useMemo]: normalize the
    query with [trim] then [toLowerCase], keep the whole catalog when the
    result is empty (JavaScript's [if (q)]), otherwise keep the
    restaurants whose lower-cased name, area or space-joined cuisine
    tags include it.  [restaurants] applies it to [MOCK_RESTAURANTS].

    The abstract contract [search_spec] is a stdpp [filter] by a
    propositional predicate (substring relation [⊑]); [search_refines]
    proves the code computes exactly it, from which the sub-list,
    blank-query and found-by-name properties follow. *)

From S2P Require Import Prelude JsString Catalog.
Import JsString Catalog.

Module Search.

(** The filter callback of lines 85-89, on the normalized query [q]. *)
Definition matches (q : string) (r : Restaurant) : bool :=
  includes (toLowerCase (name r)) q ||
  includes (toLowerCase (area r)) q ||
  includes (toLowerCase (join " " (cuisine r))) q.

(** [query.trim().toLowerCase()] (line 82). *)
Definition normalize (query : string) : string := toLowerCase (trim query).

(** Lines 82-91, over a given catalog. *)
Definition search (catalog : list Restaurant) (query : string) : list Restaurant :=
  let q := normalize query in
  let list := catalog in
  if String.eqb q "" then list else List.filter (matches q) list.

(** The memo itself: the catalog is the constant [MOCK_RESTAURANTS]. *)
Definition restaurants (query : string) : list Restaurant :=
  search MOCK_RESTAURANTS query.

(** ** Abstract specification *)

#[export] Instance is_infix_dec (q s : string) : Decision (q ⊑ s).
Proof.
  destruct (includes s q) eqn:E.
  - left. by apply includes_spec.
  - right. intros ?%includes_spec. congruence.
Defined.

Definition matches_spec (q : string) (r : Restaurant) : Prop :=
  q ⊑ toLowerCase (name r) ∨ q ⊑ toLowerCase (area r) ∨
  q ⊑ toLowerCase (join " " (cuisine r)).

Definition search_spec (catalog : list Restaurant) (query : string) : list Restaurant :=
  filter (λ r, normalize query = "" ∨ matches_spec (normalize query) r) catalog.

Lemma matches_true (q : string) (r : Restaurant) :
  matches q r = true ↔ matches_spec q r.
Proof. unfold matches, matches_spec. rewrite !orb_true_iff, !includes_spec. tauto. Qed.

Lemma toLowerCase_empty (s : string) : toLowerCase s = "" ↔ s = "".
Proof. destruct s; simpl; split; congruence. Qed.

(** ** Properties *)

Lemma search_filter (catalog : list Restaurant) (query : string) :
  search catalog query = search_spec catalog query.
Proof.
  unfold search, search_spec. destruct (String.eqb_spec (normalize query) "") as [E|E].
  - symmetry. apply filter_all. by left.
  - apply List_filter_filter. intros r. rewrite matches_true. naive_solver.
Qed.

(** The result is a sub-list of the catalog: no restaurant is added,
    repeated or moved (the order of the catalog is kept). *)
Lemma search_sublist (catalog : list Restaurant) (query : string) :
  search catalog query `sublist_of` catalog.
Proof. rewrite search_filter. apply filter_sublist. Qed.

(** A query that is blank after [trim] returns the catalog unchanged, in its order. *)
Lemma search_blank (catalog : list Restaurant) (query : string) :
  trim query = "" → search catalog query = catalog.
Proof.
  intros H. unfold search, normalize. by rewrite H.
Qed.

Lemma search_elem (catalog : list Restaurant) (query : string) (r : Restaurant) :
  r ∈ search catalog query ↔
  r ∈ catalog ∧ (normalize query = "" ∨ matches_spec (normalize query) r).
Proof. rewrite search_filter. unfold search_spec. rewrite list_elem_of_filter. tauto. Qed.

(** C12. Any part of a restaurant's name, typed in any case and with any
    blanks around it, finds that restaurant: [trim] removes the blanks
    and [toLowerCase] the case before the match. *)
Lemma search_finds_name (catalog : list Restaurant) (pre q post : string) (r : Restaurant) :
  r ∈ catalog → trim pre = "" → trim post = "" → toLowerCase q ⊑ toLowerCase (name r) →
  r ∈ search catalog (pre +:+ q +:+ post).
Proof.
  intros Hin Hpre Hpost Hq. apply search_elem. split; [done|]. right. left.
  unfold normalize. rewrite trim_pad by done.
  etrans; [apply is_infix_toLowerCase, trim_infix | exact Hq].
Qed.

(** C11. Refinement: the code computes the specification, a filter of the
    catalog by "blank query, or the query occurs in the name, area or
    tags", which keeps the catalog order. *)
Theorem search_refines (catalog : list Restaurant) (query : string) :
  search catalog query = search_spec catalog query ∧
  search_spec catalog query `sublist_of` catalog.
Proof. split; [apply search_filter | apply filter_sublist]. Qed.

(** The scenario of the spec on the mock catalog, and a query with
    surrounding blanks and capitals. *)
Example restaurants_scenario :
  name <$> restaurants "dhanmondi" = ["Chaa Club"] ∧
  name <$> restaurants "vietnamese" = ["BunBun Banh Mi"] ∧
  restaurants "zzz" = [] ∧
  name <$> restaurants "  KACCHI stories " = ["Kacchi Stories"].
Proof. vm_compute. auto. Qed.

(** ** Witnesses *)

Lemma search_blank_witness :
  trim "   " = "" ∧ search MOCK_RESTAURANTS "   " = MOCK_RESTAURANTS.
Proof.
  assert (H : trim "   " = "") by reflexivity.
  split; [exact H | exact (search_blank _ _ H)].
Defined.

Lemma search_finds_name_witness :
  kacchi_stories ∈ MOCK_RESTAURANTS ∧ trim "  " = "" ∧ trim " " = "" ∧
  toLowerCase "STORIES" ⊑ toLowerCase (name kacchi_stories) ∧
  kacchi_stories ∈ search MOCK_RESTAURANTS ("  " +:+ "STORIES" +:+ " ").
Proof.
  assert (H1 : kacchi_stories ∈ MOCK_RESTAURANTS) by (apply list_elem_of_In; simpl; auto).
  assert (H2 : trim "  " = "") by reflexivity.
  assert (H3 : trim " " = "") by reflexivity.
  assert (H4 : toLowerCase "STORIES" ⊑ toLowerCase (name kacchi_stories))
    by (apply includes_spec; reflexivity).
  split_and!; [exact H1 | exact H2 | exact H3 | exact H4 |].
  exact (search_finds_name _ _ _ _ _ H1 H2 H3 H4).
Defined.

End Search.
