(* ===== verification/Bookmarks.v ===== *)
(** * Bookmarks: the [bookmarks] array of App.jsx

    The state is an array of restaurant ids ([useState] of line 75).  A
    card shows "Saved" when [bookmarks.includes(r.id)] (lines 110, 128)
    and its button runs the updater of lines 111 and 129: remove every
    copy of the id when it is present, append it otherwise.

    [BookmarkStore] is the interface the rest of the app relies on
    (membership and toggle) with its laws [BookmarkStoreLaws]; the array
    of the code and an abstract [gset] both implement it, and the array
    refines the set through [list_to_set].  Arrays with the same members
    are related by [same_set], which toggle and membership respect
    ([Proper] instances). *)

From S2P Require Import Prelude.

Module Bookmarks.

(** ** The code *)

(** [bookmarks.includes(id)]. *)
Definition bookmarked (bookmarks : list string) (rid : string) : bool :=
  existsb (String.eqb rid) bookmarks.

(** [prev => prev.includes(r.id) ? prev.filter(i => i !== r.id) : [...prev, r.id]] *)
Definition toggleBookmark (rid : string) (prev : list string) : list string :=
  if bookmarked prev rid
  then List.filter (λ i, negb (String.eqb i rid)) prev
  else prev ++ [rid].

(** The label of a card's button: [{bookmarked ? "Saved" : "Save"}] (line 231). *)
Definition card_label (bookmarked : bool) : string := if bookmarked then "Saved" else "Save".

(** ** The interface of a bookmark store *)

Class BookmarkStore (S : Type) := {
  bs_empty : S;
  bs_mem : string → S → bool;
  bs_toggle : string → S → S
}.

Class BookmarkStoreLaws (S : Type) `{BookmarkStore S} := {
  bs_mem_empty k : bs_mem k bs_empty = false;
  bs_mem_toggle_eq k s : bs_mem k (bs_toggle k s) = negb (bs_mem k s);
  bs_mem_toggle_ne k k' s : k ≠ k' → bs_mem k' (bs_toggle k s) = bs_mem k' s
}.

#[export] Instance list_store : BookmarkStore (list string) := {|
  bs_empty := [];
  bs_mem k l := bookmarked l k;
  bs_toggle := toggleBookmark
|}.

(** The abstract store: a finite set, toggled by symmetric difference. *)
Definition gset_toggle (rid : string) (s : gset string) : gset string :=
  if decide (rid ∈ s) then s ∖ {[rid]} else s ∪ {[rid]}.

#[export] Instance gset_store : BookmarkStore (gset string) := {|
  bs_empty := ∅;
  bs_mem k s := bool_decide (k ∈ s);
  bs_toggle := gset_toggle
|}.

(** Two stores with the same members. *)
Definition store_equiv {S} `{BookmarkStore S} (s1 s2 : S) : Prop :=
  ∀ k, bs_mem k s1 = bs_mem k s2.

(** ** Lemmas on the array *)

Lemma bookmarked_spec (l : list string) (rid : string) :
  bookmarked l rid = true ↔ rid ∈ l.
Proof.
  unfold bookmarked. rewrite existsb_exists, list_elem_of_In. split.
  - intros (x & Hx & ->%String.eqb_eq). done.
  - intros Hin. exists rid. split; [done | apply String.eqb_refl].
Qed.

Lemma bookmarked_false (l : list string) (rid : string) :
  bookmarked l rid = false ↔ rid ∉ l.
Proof. rewrite <- bookmarked_spec. destruct (bookmarked l rid); naive_solver. Qed.

Lemma elem_of_toggleBookmark (rid k : string) (l : list string) :
  k ∈ toggleBookmark rid l ↔ (k = rid ∧ rid ∉ l) ∨ (k ≠ rid ∧ k ∈ l).
Proof.
  unfold toggleBookmark. destruct (bookmarked l rid) eqn:E.
  - apply bookmarked_spec in E. rewrite list_elem_of_In, filter_In, <- list_elem_of_In.
    rewrite negb_true_iff, String.eqb_neq. naive_solver.
  - apply bookmarked_false in E. rewrite elem_of_app, list_elem_of_singleton.
    destruct (decide (k = rid)); naive_solver.
Qed.

#[export] Instance list_store_laws : BookmarkStoreLaws (list string).
Proof.
  split; simpl.
  - done.
  - intros k l. destruct (bookmarked l k) eqn:E; simpl.
    all: apply bookmarked_false || apply bookmarked_spec.
    all: rewrite elem_of_toggleBookmark.
    + apply bookmarked_spec in E. naive_solver.
    + apply bookmarked_false in E. naive_solver.
  - intros k k' l Hne. apply eq_bool_prop_intro.
    rewrite !Is_true_true, !bookmarked_spec, elem_of_toggleBookmark. naive_solver.
Qed.

#[export] Instance gset_store_laws : BookmarkStoreLaws (gset string).
Proof.
  split; simpl.
  - intros k. by apply bool_decide_eq_false.
  - intros k s. unfold gset_toggle. case_decide.
    + rewrite bool_decide_eq_false_2, bool_decide_eq_true_2; [done | done | set_solver].
    + rewrite bool_decide_eq_true_2, bool_decide_eq_false_2; [done | done | set_solver].
  - intros k k' s Hne. unfold gset_toggle. case_decide; apply bool_decide_ext; set_solver.
Qed.

(** ** The list-as-set equivalence and its morphisms *)

Definition same_set (l1 l2 : list string) : Prop := ∀ x, x ∈ l1 ↔ x ∈ l2.

#[export] Instance same_set_equiv : Equivalence same_set.
Proof.
  split.
  - by intros l x.
  - intros l1 l2 H x. symmetry. apply H.
  - intros l1 l2 l3 H1 H2 x. etrans; [apply H1 | apply H2].
Qed.

#[export] Instance toggleBookmark_proper : Proper (eq ==> same_set ==> same_set) toggleBookmark.
Proof.
  intros rid ? <- l1 l2 Hl x. rewrite !elem_of_toggleBookmark.
  pose proof (Hl x). pose proof (Hl rid). naive_solver.
Qed.

#[export] Instance bookmarked_proper : Proper (same_set ==> eq ==> eq) bookmarked.
Proof.
  intros l1 l2 Hl rid ? <-. apply eq_bool_prop_intro.
  rewrite !Is_true_true, !bookmarked_spec. apply Hl.
Qed.

Lemma same_set_store_equiv (l1 l2 : list string) : same_set l1 l2 ↔ store_equiv l1 l2.
Proof.
  unfold store_equiv. simpl. split.
  - intros H k. by apply bookmarked_proper.
  - intros H k. by rewrite <- !bookmarked_spec, H.
Qed.

(** ** Generic consequences of the laws *)
Section Laws.
Context {S : Type} `{BookmarkStoreLaws S}.

Lemma bs_toggle_toggle (k : string) (s : S) : store_equiv (bs_toggle k (bs_toggle k s)) s.
Proof.
  intros k'. destruct (decide (k = k')) as [<-|Hne].
  - by rewrite !bs_mem_toggle_eq, negb_involutive.
  - by rewrite !bs_mem_toggle_ne.
Qed.
End Laws.

(** The abstraction of an array: the set of its members. *)
Definition abs (l : list string) : gset string := list_to_set l.

(** ** Properties of the toggle *)

(** The toggled id flips its membership; the others keep theirs. *)
Lemma toggleBookmark_flips (rid : string) (l : list string) :
  bookmarked (toggleBookmark rid l) rid = negb (bookmarked l rid).
Proof. exact (bs_mem_toggle_eq (S := list string) rid l). Qed.

(** Removing every copy of the id from an array, as the first branch does. *)
Definition remove_all (rid : string) (l : list string) : list string :=
  List.filter (λ i, negb (String.eqb i rid)) l.

Lemma remove_all_absent (rid : string) (l : list string) : rid ∉ l → remove_all rid l = l.
Proof.
  intros Hnot. unfold remove_all. rewrite (List_filter_filter _ (λ i, i ≠ rid)), filter_all'; [done| |].
  - intros i Hi ->. done.
  - intros i. rewrite negb_true_iff, String.eqb_neq. done.
Qed.

Lemma remove_all_not_elem (rid : string) (l : list string) : rid ∉ remove_all rid l.
Proof.
  unfold remove_all. rewrite list_elem_of_In, filter_In, String.eqb_refl. naive_solver.
Qed.

(** When the id was not saved, the second toggle restores the array itself. *)
Lemma toggleBookmark_twice_fresh (rid : string) (l : list string) :
  rid ∉ l → toggleBookmark rid (toggleBookmark rid l) = l.
Proof.
  intros Hnot. unfold toggleBookmark at 2.
  rewrite (proj2 (bookmarked_false l rid) Hnot).
  unfold toggleBookmark. rewrite (proj2 (bookmarked_spec _ rid)) by set_solver.
  rewrite List.filter_app. simpl. rewrite String.eqb_refl, app_nil_r.
  exact (remove_all_absent rid l Hnot).
Qed.

(** C20. Toggling the same id twice gives back the array without the id,
    followed by the id when it was saved: the array is restored when the
    id was not saved, and otherwise the id moves to the end (and loses
    its duplicates). *)
Lemma toggleBookmark_twice (rid : string) (l : list string) :
  toggleBookmark rid (toggleBookmark rid l) =
  remove_all rid l ++ (if bookmarked l rid then [rid] else []).
Proof.
  destruct (bookmarked l rid) eqn:E.
  - unfold toggleBookmark at 2. rewrite E. fold (remove_all rid l).
    unfold toggleBookmark. by rewrite (proj2 (bookmarked_false _ rid) (remove_all_not_elem rid l)).
  - apply bookmarked_false in E. rewrite app_nil_r, remove_all_absent by done.
    by apply toggleBookmark_twice_fresh.
Qed.

(** C21. The toggle keeps the array free of duplicates. *)
Lemma toggleBookmark_NoDup (rid : string) (l : list string) :
  NoDup l → NoDup (toggleBookmark rid l).
Proof.
  intros Hnd. unfold toggleBookmark. destruct (bookmarked l rid) eqn:E.
  - rewrite (List_filter_filter _ (λ i, i ≠ rid)).
    + by apply NoDup_filter.
    + intros i. rewrite negb_true_iff, String.eqb_neq. done.
  - apply bookmarked_false in E. apply NoDup_app. repeat split; [done| |].
    + intros x Hx ->%list_elem_of_singleton. done.
    + apply NoDup_singleton.
Qed.

(** The set of ids after a toggle. *)
Lemma abs_toggle (rid : string) (l : list string) :
  abs (toggleBookmark rid l) = gset_toggle rid (abs l).
Proof.
  unfold abs. apply set_eq. intros x. rewrite elem_of_list_to_set, elem_of_toggleBookmark.
  unfold gset_toggle. case_decide as Hin; rewrite elem_of_list_to_set in Hin; set_solver.
Qed.

(** C19. Refinement: the array implements the abstract set store. *)
Lemma abs_toggleBookmark (rid : string) (l : list string) :
  abs (toggleBookmark rid l) = gset_toggle rid (abs l) ∧
  ∀ k, bookmarked l k = bool_decide (k ∈ abs l).
Proof.
  split; [apply abs_toggle|]. unfold abs.
  intros k. apply eq_bool_prop_intro.
    rewrite Is_true_true, bookmarked_spec, bool_decide_spec, elem_of_list_to_set. done.
Qed.

(** ** Witnesses *)

Lemma toggleBookmark_NoDup_witness :
  NoDup ["r1"; "r2"] ∧ NoDup (toggleBookmark "r1" ["r1"; "r2"]).
Proof.
  assert (H : NoDup ["r1"; "r2"]) by (apply (bool_decide_unpack _); vm_compute; reflexivity).
  split; [exact H | exact (toggleBookmark_NoDup _ _ H)].
Defined.

End Bookmarks.
