(* ===== verification/JsObject.v ===== *)
(** * JavaScript objects used as dictionaries

    The review store of App.jsx is a plain object [{ [rid]: [review] }]
    read with [obj[k]] and updated with [{ ...prev, [k]: v }].  Such an
    object is an association list in insertion order (the order
    [JSON.stringify] writes it in) whose keys are distinct.  Spreading
    then setting a key keeps the position of an existing key and appends
    a new one.  (Keys that are array indices, which JavaScript orders
    first, do not occur: the app's keys are restaurant ids.)

    [to_map] forgets the order; [get] and [set] refine gmap's lookup and
    insert. *)

From S2P Require Import Prelude.

Module JsObject.

Definition obj (V : Type) : Type := list (string * V).

Section Obj.
Context {V : Type}.

(** [o[k]], [undefined] being [None]. *)
Fixpoint get (o : obj V) (k : string) : option V :=
  match o with
  | [] => None
  | (k', v) :: o' => if String.eqb k' k then Some v else get o' k
  end.

(** [{ ...o, [k]: v }]. *)
Fixpoint set (o : obj V) (k : string) (v : V) : obj V :=
  match o with
  | [] => [(k, v)]
  | (k', v') :: o' => if String.eqb k' k then (k, v) :: o' else (k', v') :: set o' k v
  end.

(** Keys of an object are distinct. *)
Definition wf (o : obj V) : Prop := NoDup o.*1.

Definition to_map (o : obj V) : gmap string V :=
  foldr (λ kv m, <[kv.1 := kv.2]> m) ∅ o.

Lemma get_to_map (o : obj V) (k : string) : get o k = to_map o !! k.
Proof.
  induction o as [|[k' v] o IH]; simpl; [by rewrite lookup_empty|].
  destruct (String.eqb_spec k' k) as [->|Hne].
  - by rewrite lookup_insert_eq.
  - by rewrite lookup_insert_ne.
Qed.

Lemma set_to_map (o : obj V) (k : string) (v : V) :
  wf o → to_map (set o k v) = <[k := v]> (to_map o).
Proof.
  unfold wf. induction o as [|[k' v'] o IH]; simpl; [done|].
  rewrite NoDup_cons. intros [Hk' Hnd].
  destruct (String.eqb_spec k' k) as [->|Hne]; simpl.
  - by rewrite insert_insert_eq.
  - rewrite IH by done. by rewrite insert_insert_ne.
Qed.

Lemma keys_set (o : obj V) (k : string) (v : V) :
  (set o k v).*1 = if decide (k ∈ o.*1) then o.*1 else o.*1 ++ [k].
Proof.
  induction o as [|[k' v'] o IH]; [done|].
  cbn [set]. destruct (String.eqb_spec k' k) as [->|Hne]; rewrite !fmap_cons; simpl fst.
  - rewrite decide_True; [done | by left].
  - rewrite IH. case_decide as Hin; case_decide as Hin'.
    + done.
    + exfalso. apply Hin'. by right.
    + apply elem_of_cons in Hin' as [?|?]; [congruence | done].
    + done.
Qed.

Lemma set_wf (o : obj V) (k : string) (v : V) : wf o → wf (set o k v).
Proof.
  unfold wf. rewrite keys_set. case_decide as Hin; [done|].
  intros Hnd. apply NoDup_app. repeat split; [done | | apply NoDup_singleton].
  intros x Hx ->%list_elem_of_singleton. done.
Qed.

Lemma get_set_eq (o : obj V) (k : string) (v : V) : wf o → get (set o k v) k = Some v.
Proof. intros Hwf. by rewrite get_to_map, set_to_map, lookup_insert_eq. Qed.

Lemma get_set_ne (o : obj V) (k k' : string) (v : V) :
  wf o → k ≠ k' → get (set o k v) k' = get o k'.
Proof. intros Hwf Hne. by rewrite !get_to_map, set_to_map, lookup_insert_ne. Qed.

(** Setting a fresh key appends it. *)
Lemma set_fresh (o : obj V) (k : string) (v : V) : k ∉ o.*1 → set o k v = o ++ [(k, v)].
Proof.
  induction o as [|[k' v'] o IH]; [done|].
  rewrite fmap_cons, not_elem_of_cons. intros [Hne Hk]. simpl.
  destruct (String.eqb_spec k' k) as [->|_]; [done|]. by rewrite IH.
Qed.

Lemma set_Forall (P : string * V → Prop) (o : obj V) (k : string) (v : V) :
  Forall P o → P (k, v) → Forall P (set o k v).
Proof.
  induction o as [|[k' v'] o IH]; intros Ho Hkv; [by constructor|].
  apply Forall_cons in Ho as [Hk' Ho]. simpl.
  destruct (String.eqb k' k); constructor; auto.
Qed.

Lemma get_Forall (P : string * V → Prop) (o : obj V) (k : string) (v : V) :
  Forall P o → get o k = Some v → P (k, v).
Proof.
  induction o as [|[k' v'] o IH]; intros Ho; [done|].
  apply Forall_cons in Ho as [Hk' Ho]. simpl.
  destruct (String.eqb_spec k' k) as [->|_]; [by intros [= <-] | auto].
Qed.

Lemma empty_wf : wf [].
Proof. constructor. Qed.
End Obj.

End JsObject.
