(* ===== verification/Reviews.v ===== *)
(** * Reviews: the review map of App.jsx

    A review is the object built at line 300: [{ id: Date.now(), user,
    stars, text, date }].  The store ([useState] of line 74) is an
    object from restaurant id to the list of its reviews, newest first.
    [reviews_for] is [reviews[active] || []] (line 141) and [addReview]
    the updater of [onAddReview] (line 142),
    [prev => ({ ...prev, [active]: [rev, ...(prev[active] || [])] })].

    The abstract store is a gmap from restaurant id to list of reviews;
    [addReview_refines] shows the object implements "prepend to the
    restaurant's list". *)

From S2P Require Import Prelude JsObject.

Module Reviews.

Record Review := mkReview {
  id : Z;          (** [Date.now()] when posted *)
  user : string;   (** author name *)
  stars : nat;
  text : string;
  date : string    (** [new Date().toISOString()] when posted *)
}.

Definition ReviewMap : Type := JsObject.obj (list Review).

(** [reviews[active] || []]: an array is truthy, [undefined] is not. *)
Definition reviews_for (reviews : ReviewMap) (rid : string) : list Review :=
  default [] (JsObject.get reviews rid).

(** The updater passed to [setReviews] by [onAddReview]. *)
Definition addReview (active : string) (rev : Review) (prev : ReviewMap) : ReviewMap :=
  JsObject.set prev active (rev :: reviews_for prev active).

(** Number of reviews in the whole store. *)
Definition total_reviews (reviews : ReviewMap) : nat :=
  sum_list ((λ kv : string * list Review, length kv.2) <$> reviews).

(** ** Properties *)

Lemma reviews_for_addReview (active rid : string) (rev : Review) (m : ReviewMap) :
  JsObject.wf m →
  reviews_for (addReview active rev m) rid =
  if String.eqb active rid then rev :: reviews_for m rid else reviews_for m rid.
Proof.
  intros Hwf. unfold reviews_for at 1, addReview.
  destruct (String.eqb_spec active rid) as [<-|Hne].
  - by rewrite JsObject.get_set_eq.
  - by rewrite JsObject.get_set_ne.
Qed.

(** C16. A post puts the new review first in the restaurant's list, in front
    of the old ones: the count grows by exactly one. *)
Lemma addReview_prepends (active : string) (rev : Review) (m : ReviewMap) :
  JsObject.wf m →
  reviews_for (addReview active rev m) active = rev :: reviews_for m active ∧
  length (reviews_for (addReview active rev m) active) = S (length (reviews_for m active)).
Proof.
  intros Hwf. rewrite reviews_for_addReview, String.eqb_refl by done. done.
Qed.

(** C22. Other restaurants' lists are untouched. *)
Lemma addReview_other (active rid : string) (rev : Review) (m : ReviewMap) :
  JsObject.wf m → active ≠ rid →
  reviews_for (addReview active rev m) rid = reviews_for m rid.
Proof.
  intros Hwf Hne. rewrite reviews_for_addReview by done.
  by destruct (String.eqb_spec active rid).
Qed.

Lemma addReview_wf (active : string) (rev : Review) (m : ReviewMap) :
  JsObject.wf m → JsObject.wf (addReview active rev m).
Proof. apply JsObject.set_wf. Qed.

(** C24. Append-only: every list of the old store is a suffix of the list of
    the same restaurant after a post. *)
Lemma addReview_suffix (active rid : string) (rev : Review) (m : ReviewMap) :
  JsObject.wf m → reviews_for m rid `suffix_of` reviews_for (addReview active rev m) rid.
Proof.
  intros Hwf. rewrite reviews_for_addReview by done.
  destruct (String.eqb active rid); [apply suffix_cons_r|]; done.
Qed.

(** C23. Refinement: on the abstract gmap, a post inserts the prepended list. *)
Lemma addReview_refines (active : string) (rev : Review) (m : ReviewMap) :
  JsObject.wf m →
  JsObject.to_map (addReview active rev m) =
  <[active := rev :: default [] (JsObject.to_map m !! active)]> (JsObject.to_map m).
Proof.
  intros Hwf. unfold addReview, reviews_for.
  by rewrite JsObject.set_to_map, JsObject.get_to_map.
Qed.

Lemma total_reviews_set (m : ReviewMap) (k : string) (l : list Review) :
  total_reviews (JsObject.set m k l) + length (reviews_for m k) =
  total_reviews m + length l.
Proof.
  unfold reviews_for, total_reviews.
  induction m as [|[k' l'] m IH]; [simpl; lia|].
  cbn [JsObject.set JsObject.get]. rewrite fmap_cons.
  destruct (String.eqb_spec k' k) as [->|Hne]; rewrite !fmap_cons; simpl; lia.
Qed.

(** The whole store gains exactly one review per post. *)
Lemma addReview_total (active : string) (rev : Review) (m : ReviewMap) :
  total_reviews (addReview active rev m) = S (total_reviews m).
Proof.
  pose proof (total_reviews_set m active (rev :: reviews_for m active)) as H.
  unfold addReview. simpl in H. lia.
Qed.

(** ** Witnesses *)

Definition demo_map : ReviewMap := [("r2", [mkReview 1 "Rafi" 5 "Great chai" "d1"])].
Definition demo_review : Review := mkReview 2 "Asha" 4 "Loved it here" "d2".

Lemma demo_map_wf : JsObject.wf demo_map.
Proof. apply (bool_decide_unpack _). vm_compute. reflexivity. Qed.

Lemma addReview_prepends_witness :
  JsObject.wf demo_map ∧
  reviews_for (addReview "r1" demo_review demo_map) "r1" = demo_review :: reviews_for demo_map "r1" ∧
  length (reviews_for (addReview "r1" demo_review demo_map) "r1") =
    S (length (reviews_for demo_map "r1")).
Proof. split; [exact demo_map_wf | exact (addReview_prepends _ _ _ demo_map_wf)]. Defined.

Lemma addReview_other_witness :
  JsObject.wf demo_map ∧ "r1" ≠ "r2" ∧
  reviews_for (addReview "r1" demo_review demo_map) "r2" = reviews_for demo_map "r2".
Proof.
  assert (Hne : "r1" ≠ "r2") by discriminate.
  split; [exact demo_map_wf|]. split; [exact Hne|].
  exact (addReview_other _ _ _ _ demo_map_wf Hne).
Defined.

Lemma addReview_suffix_witness :
  JsObject.wf demo_map ∧
  reviews_for demo_map "r2" `suffix_of` reviews_for (addReview "r2" demo_review demo_map) "r2".
Proof. split; [exact demo_map_wf | exact (addReview_suffix _ _ _ _ demo_map_wf)]. Defined.

Lemma addReview_refines_witness :
  JsObject.wf demo_map ∧
  JsObject.to_map (addReview "r2" demo_review demo_map) =
  <["r2" := demo_review :: default [] (JsObject.to_map demo_map !! "r2")]> (JsObject.to_map demo_map).
Proof. split; [exact demo_map_wf | exact (addReview_refines _ _ _ demo_map_wf)]. Defined.

End Reviews.
