(* ===== verification/Session.v ===== *)
(** * Session: the [user] of App.jsx and the [Login] component

    The session is [null] or the object [{ name, email }] built by the
    [Login] component (lines 332-348) from its two text fields, with no
    validation; [App] stores it with [setUser] (line 147).  A review is
    signed [user?.name || "Guest"] (line 300): the empty name is falsy. *)

From S2P Require Import Prelude.

Module Session.

Record User := mkUser { name : string; email : string }.

(** Local state of [Login]: [useState("")] twice (lines 333-334). *)
Record LoginForm := mkLoginForm { form_name : string; form_email : string }.

Definition login_init : LoginForm := mkLoginForm "" "".

(** [onChange={e => setName(e.target.value)}] and the email field. *)
Definition setName (s : string) (f : LoginForm) : LoginForm := mkLoginForm s (form_email f).
Definition setEmail (s : string) (f : LoginForm) : LoginForm := mkLoginForm (form_name f) s.

(** [onLogin({ name, email })] of the Continue button. *)
Definition login_user (f : LoginForm) : User := mkUser (form_name f) (form_email f).

(** [user?.name || "Guest"]. *)
Definition author_name (user : option User) : string :=
  match user with
  | Some u => if String.eqb (name u) "" then "Guest" else name u
  | None => "Guest"
  end.

(** The author is the session's name unless that name is empty. *)
Lemma author_name_spec (user : option User) :
  author_name user = "Guest" ∨ (∃ u, user = Some u ∧ author_name user = name u ∧ name u ≠ "").
Proof.
  destruct user as [u|]; simpl; [|by left].
  destruct (String.eqb_spec (name u) "") as [E|E]; [by left | right; by exists u].
Qed.

(** Continue submits exactly what was typed, whatever it is. *)
Lemma login_user_fields (n e : string) :
  login_user (setEmail e (setName n login_init)) = mkUser n e.
Proof. reflexivity. Qed.

End Session.
