(* ===== verification/JsNumber.v ===== *)
(** * JsNumber: the numbers of JSON text

    [loadLocal] reads stored text with [JSON.parse] and [saveLocal]
    writes it with [JSON.stringify] (App.jsx lines 63-66).  A number in
    that text is read by the JSON number grammar
    [-? (0 | [1-9][0-9]* ) (. [0-9]+)? ([eE] [+-]? [0-9]+)?] and written
    by ECMAScript's Number::toString.  This file models both on exact
    decimal values:

    - [number]: [NInt z] is the integer [z]; [NDec m e] is [m * 10^e]
      with [e < 0] and [m] not a multiple of 10 ([number_wf]), so every
      value has one representation.
    - [parse_number] follows the grammar: [parse_sign], [parse_N] (no
      leading zero), [parse_frac], [parse_exp]; [mk_number] reduces the
      mantissa and exponent read to the representation.
    - [number_to_string] is Number::toString, steps 6 to 10, on the
      digits [l] of the mantissa (no trailing zero) and the decimal
      point position [n] ([digits_to_string]): integer digits with
      zeros when [k <= n <= 21], a point inside the digits when
      [0 < n <= 21], [0.] and zeros when [-6 < n <= 0], otherwise the
      exponent form [d.ddde+x] / [de-x].  [strip_zeros] removes the
      trailing zeros of a large integer, with fuel its digit count.

    The main theorem [parse_number_to_string] is the round trip: the
    parser reads back what the printer writes, whatever text follows
    that cannot continue a number.  [parse_number_length] and
    [parse_number_wf] are what the JSON parser needs: the number parser
    consumes its input and builds normalised values.

    Not modelled: binary64 rounding (a literal with more than 17
    significant digits, or one whose value is not a double, is kept
    exact here), infinities (a literal beyond 1.8e308 gives Infinity in
    JavaScript and [null] in [JSON.stringify]) and the sign of [-0],
    which [JSON.stringify] prints as [0].  The app stores only integers
    that are doubles (review ids from [Date.now()], star counts), on
    which the model and JavaScript agree. *)

From Stdlib Require Import DecimalString DecimalN.
From Stdlib Require DecimalFacts.
From S2P Require Import Prelude.

Module JsNumber.

Inductive number := NInt (z : Z) | NDec (m : Z) (e : Z).

Definition is_digit (c : ascii) : bool :=
  (48 <=? nat_of_ascii c) && (nat_of_ascii c <=? 57).

(** The maximal run of decimal digits at the head of [s]. *)
Fixpoint digits (s : string) : Decimal.uint * string :=
  match s with
  | EmptyString => (Decimal.Nil, EmptyString)
  | String c s' =>
      if is_digit c then
        let '(d, r) := digits s' in
        (match nat_of_ascii c - 48 with
         | 0 => Decimal.D0 d | 1 => Decimal.D1 d | 2 => Decimal.D2 d | 3 => Decimal.D3 d
         | 4 => Decimal.D4 d | 5 => Decimal.D5 d | 6 => Decimal.D6 d | 7 => Decimal.D7 d
         | 8 => Decimal.D8 d | _ => Decimal.D9 d
         end, r)
      else (Decimal.Nil, s)
  end.

(** A non-negative integer: digits, none leading unless it is 0. *)
Definition parse_N (s : string) : option (N * string) :=
  let '(d, r) := digits s in
  match d with
  | Decimal.Nil => None
  | _ => if Decimal.uint_eq_dec (Decimal.unorm d) d then Some (N.of_uint d, r) else None
  end.

Definition string_of_N (n : N) : string := NilEmpty.string_of_uint (N.to_uint n).

Definition string_of_Z (z : Z) : string :=
  if (z <? 0)%Z then String "-" (string_of_N (Z.abs_N z)) else string_of_N (Z.to_N z).

(** The value of the digits [l] written after the digits of [acc]. *)
Definition digit_val (x : DecimalFacts.digits) : N :=
  match x with
  | DecimalFacts.d0 => 0 | DecimalFacts.d1 => 1 | DecimalFacts.d2 => 2 | DecimalFacts.d3 => 3
  | DecimalFacts.d4 => 4 | DecimalFacts.d5 => 5 | DecimalFacts.d6 => 6 | DecimalFacts.d7 => 7
  | DecimalFacts.d8 => 8 | DecimalFacts.d9 => 9
  end.

Definition lval (l : list DecimalFacts.digits) (acc : N) : N :=
  foldl (λ a x, 10 * a + digit_val x)%N acc l.

(** The value [m * 10^e] as JSON.parse builds it: an integer when it is
    one, otherwise a fraction whose mantissa has no trailing zero. *)
Fixpoint norm_dec (fuel : nat) (m e : Z) : number :=
  match fuel with
  | O => NInt m
  | S f => if (m mod 10 =? 0)%Z then norm_dec f (m / 10) (e + 1) else NDec m e
  end.

Definition mk_number (m e : Z) : number :=
  if (0 <=? e)%Z then NInt (m * 10 ^ e) else norm_dec (Z.to_nat (- e)) m e.

(** The fraction [. digits], if any. *)
Definition parse_frac (s : string) : option (Decimal.uint * string) :=
  match s with
  | String c r =>
      if Ascii.eqb c "." then
        match digits r with (Decimal.Nil, _) => None | (d, r') => Some (d, r') end
      else Some (Decimal.Nil, s)
  | EmptyString => Some (Decimal.Nil, EmptyString)
  end.

(** The exponent [e] or [E], a sign, digits, if any. *)
Definition parse_exp (s : string) : option (Z * string) :=
  match s with
  | String c r =>
      if Ascii.eqb c "e" || Ascii.eqb c "E" then
        let '(neg, r1) :=
          match r with
          | String c' r' =>
              if Ascii.eqb c' "-" then (true, r') else if Ascii.eqb c' "+" then (false, r')
              else (false, r)
          | EmptyString => (false, r)
          end in
        match digits r1 with
        | (Decimal.Nil, _) => None
        | (d, r2) =>
            let x := Z.of_N (N.of_uint d) in Some ((if neg then - x else x)%Z, r2)
        end
      else Some (0%Z, s)
  | EmptyString => Some (0%Z, EmptyString)
  end.

(** The optional minus sign. *)
Definition parse_sign (s : string) : bool * string :=
  match s with
  | String c r => if Ascii.eqb c "-" then (true, r) else (false, s)
  | EmptyString => (false, s)
  end.

(** [int frac? exp?]: the digits of the mantissa (the integer part then
    the fraction) and the power of ten. *)
Definition parse_unsigned (s : string) : option (N * Z * string) :=
  match parse_N s with
  | None => None
  | Some (i, r1) =>
      match parse_frac r1 with
      | None => None
      | Some (f, r2) =>
          match parse_exp r2 with
          | None => None
          | Some (x, r3) =>
              Some (lval (DecimalFacts.to_list f) i, (x - Z.of_nat (Decimal.nb_digits f))%Z, r3)
          end
      end
  end.

(** A JSON number: [-? int frac? exp?]. *)
Definition parse_number (s : string) : option (number * string) :=
  let '(neg, s1) := parse_sign s in
  match parse_unsigned s1 with
  | Some (m, e, r) => Some (mk_number (if neg then - Z.of_N m else Z.of_N m)%Z e, r)
  | None => None
  end.

(** ** Number::toString *)

Definition lstr (l : list DecimalFacts.digits) : string :=
  NilEmpty.string_of_uint (DecimalFacts.of_list l).

Definition exp_string (x : Z) : string :=
  String "e" (if (x <? 0)%Z then String "-" (string_of_N (Z.abs_N x))
              else String "+" (string_of_N (Z.to_N x))).

(** The positive value [s * 10^(n-k)], [s] given by its [k] digits [l]
    (ECMAScript Number::toString, steps 6 to 10). *)
Definition digits_to_string (l : list DecimalFacts.digits) (n : Z) : string :=
  let k := Z.of_nat (length l) in
  if (k <=? n)%Z && (n <=? 21)%Z then lstr (l ++ replicate (Z.to_nat (n - k)) DecimalFacts.d0)
  else if (0 <? n)%Z && (n <=? 21)%Z then
    lstr (take (Z.to_nat n) l) +:+ String "." (lstr (drop (Z.to_nat n) l))
  else if (-6 <? n)%Z && (n <=? 0)%Z then
    String "0" (String "." (lstr (replicate (Z.to_nat (- n)) DecimalFacts.d0 ++ l)))
  else if (k =? 1)%Z then lstr l +:+ exp_string (n - 1)
  else lstr (take 1 l) +:+ String "." (lstr (drop 1 l) +:+ exp_string (n - 1)).

(** Trailing zeros: [a = s * 10^t] with [s] not a multiple of 10. *)
Fixpoint strip_zeros (fuel : nat) (a : N) : N * nat :=
  match fuel with
  | O => (a, 0)
  | S f =>
      if (a =? 0)%N || negb (a mod 10 =? 0)%N then (a, 0)
      else let '(s, t) := strip_zeros f (a / 10) in (s, S t)
  end.

Definition number_to_string (x : number) : string :=
  match x with
  | NInt z =>
      if (Z.abs z <? 10 ^ 21)%Z then string_of_Z z
      else
        let '(s, t) := strip_zeros (Decimal.nb_digits (N.to_uint (Z.abs_N z))) (Z.abs_N z) in
        let l := DecimalFacts.to_list (N.to_uint s) in
        (if (z <? 0)%Z then String "-" else id)
          (digits_to_string l (Z.of_nat (length l) + Z.of_nat t))
  | NDec m e =>
      let l := DecimalFacts.to_list (N.to_uint (Z.abs_N m)) in
      (if (m <? 0)%Z then String "-" else id) (digits_to_string l (Z.of_nat (length l) + e))
  end.

Lemma of_uint_acc_lval (d : Decimal.uint) (p : positive) :
  Npos (Pos.of_uint_acc d p) = lval (DecimalFacts.to_list d) (Npos p).
Proof. revert p. induction d; intros p; simpl; rewrite ?IHd; try reflexivity; f_equal; lia. Qed.

Lemma of_uint_lval (d : Decimal.uint) : N.of_uint d = lval (DecimalFacts.to_list d) 0.
Proof.
  unfold N.of_uint. induction d; simpl; rewrite ?of_uint_acc_lval; try done.
Qed.

Lemma lval_app (l1 l2 : list DecimalFacts.digits) (acc : N) :
  lval (l1 ++ l2) acc = lval l2 (lval l1 acc).
Proof. unfold lval. by rewrite foldl_app. Qed.

Lemma lval_cons (x : DecimalFacts.digits) (l : list DecimalFacts.digits) (acc : N) :
  lval (x :: l) acc = lval l (10 * acc + digit_val x)%N.
Proof. reflexivity. Qed.

Lemma lval_acc (l : list DecimalFacts.digits) (acc : N) :
  lval l acc = (acc * 10 ^ N.of_nat (length l) + lval l 0)%N.
Proof.
  revert acc. induction l as [|x l IH]; intros acc; [simpl; lia|].
  rewrite !lval_cons, IH, (IH (10 * 0 + digit_val x)%N). cbn [length].
  rewrite Nat2N.inj_succ, N.pow_succ_r'. lia.
Qed.

(** No digit may follow a number, nor a point or an exponent mark. *)
Definition no_digit_head (s : string) : Prop :=
  match s with String c _ => is_digit c = false | EmptyString => True end.

Definition number_char (c : ascii) : bool :=
  is_digit c || Ascii.eqb c "." || Ascii.eqb c "e" || Ascii.eqb c "E".

Definition no_number_head (s : string) : Prop :=
  match s with String c _ => number_char c = false | EmptyString => True end.

Lemma no_number_head_digit (t : string) : no_number_head t → no_digit_head t.
Proof. destruct t as [|c t]; simpl; [done|]. unfold number_char. by destruct (is_digit c). Qed.

Definition digit_char (x : DecimalFacts.digits) : ascii :=
  match x with
  | DecimalFacts.d0 => "0" | DecimalFacts.d1 => "1" | DecimalFacts.d2 => "2"
  | DecimalFacts.d3 => "3" | DecimalFacts.d4 => "4" | DecimalFacts.d5 => "5"
  | DecimalFacts.d6 => "6" | DecimalFacts.d7 => "7" | DecimalFacts.d8 => "8"
  | DecimalFacts.d9 => "9"
  end.

Lemma lstr_cons (x : DecimalFacts.digits) (l : list DecimalFacts.digits) :
  lstr (x :: l) = String (digit_char x) (lstr l).
Proof. by destruct x. Qed.

Lemma digit_char_digit (x : DecimalFacts.digits) : is_digit (digit_char x) = true.
Proof. by destruct x. Qed.

Lemma lstr_app (l1 l2 : list DecimalFacts.digits) : lstr (l1 ++ l2) = lstr l1 +:+ lstr l2.
Proof.
  induction l1 as [|x l1 IH]; [done|]. rewrite <- app_comm_cons, !lstr_cons, IH.
  by rewrite string_app_cons.
Qed.

Lemma digits_of_uint (d : Decimal.uint) (t : string) :
  no_digit_head t → digits (NilEmpty.string_of_uint d +:+ t) = (d, t).
Proof.
  intros Ht. induction d; simpl; try rewrite IHd; try reflexivity.
  destruct t as [|c t]; simpl in *; [done|]. by rewrite Ht.
Qed.

Lemma digits_lstr (l : list DecimalFacts.digits) (t : string) :
  no_digit_head t → digits (lstr l +:+ t) = (DecimalFacts.of_list l, t).
Proof. apply digits_of_uint. Qed.

Lemma lval_of_list (l : list DecimalFacts.digits) (acc : N) :
  lval (DecimalFacts.to_list (DecimalFacts.of_list l)) acc = lval l acc.
Proof. by rewrite DecimalFacts.to_list_of_list. Qed.

Lemma unorm_head (x : DecimalFacts.digits) (l : list DecimalFacts.digits) :
  x ≠ DecimalFacts.d0 ∨ l = [] →
  Decimal.unorm (DecimalFacts.of_list (x :: l)) = DecimalFacts.of_list (x :: l).
Proof. intros [Hx | ->]; destruct x; done. Qed.

(** An integer part: a digit other than 0 and more digits, or 0 alone. *)
Lemma parse_N_lstr (x : DecimalFacts.digits) (l : list DecimalFacts.digits) (t : string) :
  x ≠ DecimalFacts.d0 ∨ l = [] → no_digit_head t →
  parse_N (lstr (x :: l) +:+ t) = Some (lval (x :: l) 0, t).
Proof.
  intros Hx Ht. unfold parse_N. rewrite digits_lstr by done.
  pose proof (unorm_head x l Hx) as Hn.
  destruct (DecimalFacts.of_list (x :: l)) eqn:E;
    [by destruct x | ..];
    (destruct (Decimal.uint_eq_dec _ _); [|done]);
    by rewrite <- E, of_uint_lval, lval_of_list.
Qed.

Lemma of_list_not_nil (y : DecimalFacts.digits) (l : list DecimalFacts.digits) :
  DecimalFacts.of_list (y :: l) ≠ Decimal.Nil.
Proof. by destruct y. Qed.

Lemma parse_frac_lstr (y : DecimalFacts.digits) (l : list DecimalFacts.digits) (t : string) :
  no_digit_head t →
  parse_frac (String "." (lstr (y :: l) +:+ t)) = Some (DecimalFacts.of_list (y :: l), t).
Proof.
  intros Ht. simpl. rewrite digits_lstr by done. by destruct y.
Qed.

Lemma to_uint_not_nil (n : N) : N.to_uint n ≠ Decimal.Nil.
Proof.
  assert (Decimal.unorm (N.to_uint n) = N.to_uint n) as H
    by (by rewrite <- Unsigned.to_of, Unsigned.of_to).
  rewrite <- H. unfold Decimal.unorm. by destruct (Decimal.nzhead _).
Qed.

Lemma parse_exp_string (x : Z) (t : string) :
  no_digit_head t → parse_exp (exp_string x +:+ t) = Some (x, t).
Proof.
  intros Ht. unfold exp_string. destruct (Z.ltb_spec x 0); rewrite !string_app_cons; simpl;
    unfold string_of_N; rewrite digits_of_uint by done;
    pose proof (to_uint_not_nil (Z.abs_N x)); pose proof (to_uint_not_nil (Z.to_N x)).
  - destruct (N.to_uint (Z.abs_N x)) eqn:E; try done;
      rewrite <- E, Unsigned.of_to; do 2 f_equal; lia.
  - destruct (N.to_uint (Z.to_N x)) eqn:E; try done;
      rewrite <- E, Unsigned.of_to; do 2 f_equal; lia.
Qed.

(** The pieces of a printed number: a fraction and an exponent, either
    possibly absent. *)
Definition frac_str (fr : list DecimalFacts.digits) : string :=
  match fr with [] => "" | _ => String "." (lstr fr) end.

Definition exp_str (ex : option Z) : string :=
  match ex with None => "" | Some x => exp_string x end.

Lemma frac_exp_head (fr : list DecimalFacts.digits) (ex : option Z) (t : string) :
  no_number_head t → no_digit_head (frac_str fr +:+ exp_str ex +:+ t).
Proof.
  intros Ht. destruct fr; [|done]. destruct ex; [done|]. by apply no_number_head_digit.
Qed.

Lemma parse_unsigned_gen (x : DecimalFacts.digits) (l fr : list DecimalFacts.digits)
    (ex : option Z) (t : string) :
  x ≠ DecimalFacts.d0 ∨ l = [] → no_number_head t →
  parse_unsigned (lstr (x :: l) +:+ frac_str fr +:+ exp_str ex +:+ t) =
  Some (lval ((x :: l) ++ fr) 0, (default 0 ex - Z.of_nat (length fr))%Z, t).
Proof.
  intros Hx Ht. unfold parse_unsigned.
  rewrite parse_N_lstr; [| done | by apply frac_exp_head].
  assert (parse_frac (frac_str fr +:+ exp_str ex +:+ t) =
          Some (DecimalFacts.of_list fr, exp_str ex +:+ t)) as ->.
  { destruct fr as [|y fr]; cbn [frac_str].
    - rewrite string_app_nil_l. destruct ex as [z|]; [done|]. destruct t as [|c t]; [done|]. simpl in *.
      unfold number_char in Ht. destruct (Ascii.eqb c "."); [|done]. by rewrite orb_true_r in Ht.
    - rewrite string_app_cons. apply parse_frac_lstr.
      destruct ex; [done | by apply no_number_head_digit]. }
  assert (parse_exp (exp_str ex +:+ t) = Some (default 0 ex, t))%Z as ->.
  { destruct ex as [z|]; simpl.
    - by apply parse_exp_string, no_number_head_digit.
    - destruct t as [|c t]; [done|]. simpl in *. unfold number_char in Ht.
      destruct (Ascii.eqb c "e"), (Ascii.eqb c "E"); rewrite ?orb_true_r in Ht; done. }
  rewrite lval_of_list, <- lval_app, DecimalFacts.nb_digits_spec, DecimalFacts.to_list_of_list.
  done.
Qed.

Lemma lval_zeros (j : nat) (acc : N) :
  lval (replicate j DecimalFacts.d0) acc = (acc * 10 ^ N.of_nat j)%N.
Proof.
  rewrite lval_acc. enough (lval (replicate j DecimalFacts.d0) 0 = 0)%N as -> by
    (rewrite length_replicate; lia).
  induction j as [|j IH]; [done|]. simpl replicate. rewrite lval_cons. simpl. done.
Qed.

Lemma frac_none (t : string) : frac_str [] +:+ exp_str None +:+ t = t.
Proof. done. Qed.

(** Every form [Number::toString] writes reads back as the mantissa and
    the power of ten it was written from. *)
Lemma parse_unsigned_digits (x : DecimalFacts.digits) (l : list DecimalFacts.digits)
    (n : Z) (t : string) :
  x ≠ DecimalFacts.d0 → no_number_head t →
  ∃ m e, parse_unsigned (digits_to_string (x :: l) n +:+ t) = Some (m, e, t) ∧
    ∀ neg : bool,
      mk_number (if neg then - Z.of_N m else Z.of_N m)%Z e =
      mk_number (if neg then - Z.of_N (lval (x :: l) 0) else Z.of_N (lval (x :: l) 0))%Z
        (n - Z.of_nat (length (x :: l)))%Z.
Proof.
  intros Hx Ht. unfold digits_to_string.
  set (k := Z.of_nat (length (x :: l))).
  destruct ((k <=? n)%Z && (n <=? 21)%Z) eqn:C1.
  { apply andb_true_iff in C1 as [C1 _]. apply Z.leb_le in C1.
    rewrite <- app_comm_cons, <- (frac_none t), parse_unsigned_gen by (first [done | by left]).
    eexists _, _. split; [done|]. intros neg. unfold mk_number.
    rewrite app_nil_r, app_comm_cons, lval_app, lval_zeros.
    replace (default 0 None - Z.of_nat (length (@nil DecimalFacts.digits)))%Z with 0%Z by done.
    rewrite (proj2 (Z.leb_le 0 (n - k))) by lia. simpl (0 <=? 0)%Z. cbv iota.
    rewrite Z.pow_0_r, N2Z.inj_mul, N2Z.inj_pow, nat_N_Z, Z2Nat.id by lia.
    change (0 <=? 0)%Z with true. cbv iota. f_equal. destruct neg; simpl; ring. }
  destruct ((0 <? n)%Z && (n <=? 21)%Z) eqn:C2.
  { apply andb_true_iff in C2 as [C2 C2']. apply Z.ltb_lt in C2. apply Z.leb_le in C2'.
    apply andb_false_iff in C1 as [C1|C1]; apply Z.leb_gt in C1; [|lia].
    destruct (Z.to_nat n) as [|j] eqn:Ej; [lia|].
    destruct (drop (S j) (x :: l)) as [|y fr] eqn:Ed.
    { exfalso. apply (f_equal length) in Ed. rewrite length_drop in Ed. simpl in *. lia. }
    assert ((lstr (take (S j) (x :: l)) +:+ String "." (lstr (y :: fr))) +:+ t =
            lstr (x :: take j l) +:+ frac_str (y :: fr) +:+ exp_str None +:+ t) as ->
      by (rewrite <- string_app_assoc; done).
    rewrite parse_unsigned_gen by (first [done | by left]).
    eexists _, _. split; [done|]. intros neg.
    rewrite <- Ed. change (x :: take j l) with (take (S j) (x :: l)).
    rewrite take_drop, length_drop. assert (n = Z.of_nat (S j)) by (rewrite <- Ej, Z2Nat.id; lia).
    f_equal. unfold k in *. simpl default. simpl length in *. lia. }
  destruct ((-6 <? n)%Z && (n <=? 0)%Z) eqn:C3.
  { apply andb_true_iff in C3 as [_ C3]. apply Z.leb_le in C3.
    assert (String "0" (String "." (lstr (replicate (Z.to_nat (- n)) DecimalFacts.d0 ++ x :: l))) +:+ t
            = lstr [DecimalFacts.d0] +:+ frac_str (replicate (Z.to_nat (- n)) DecimalFacts.d0 ++ x :: l)
                +:+ exp_str None +:+ t) as ->.
    { by destruct (Z.to_nat (- n)). }
    rewrite parse_unsigned_gen by (first [done | by right]).
    eexists _, _. split; [done|]. intros neg.
    rewrite app_assoc, lval_app, lval_app, lval_zeros, length_app, length_replicate.
    simpl (lval [DecimalFacts.d0] 0). rewrite N.mul_0_l. f_equal. unfold k. simpl default. lia. }
  destruct (k =? 1)%Z eqn:C4.
  { apply Z.eqb_eq in C4. destruct l as [|y l]; [|unfold k in C4; simpl in C4; lia].
    assert ((lstr [x] +:+ exp_string (n - 1)) +:+ t =
            lstr [x] +:+ frac_str [] +:+ exp_str (Some (n - 1)%Z) +:+ t) as ->
      by (rewrite <- string_app_assoc; done).
    rewrite parse_unsigned_gen by (first [done | by left]).
    eexists _, _. split; [done|]. intros neg. rewrite app_nil_r. simpl. f_equal. lia. }
  apply Z.eqb_neq in C4. destruct l as [|y l]; [unfold k in C4; simpl in C4; lia|].
  assert ((lstr (take 1 (x :: y :: l)) +:+ String "." (lstr (drop 1 (x :: y :: l)) +:+
            exp_string (n - 1))) +:+ t =
          lstr [x] +:+ frac_str (y :: l) +:+ exp_str (Some (n - 1)%Z) +:+ t) as ->.
  { simpl. by rewrite <- !string_app_assoc, !string_app_cons, <- !string_app_assoc. }
  rewrite parse_unsigned_gen by (first [done | by left]).
  eexists _, _. split; [done|]. intros neg. simpl. f_equal. unfold k. simpl. lia.
Qed.

Lemma to_uint_norm (n : N) : Decimal.unorm (N.to_uint n) = N.to_uint n.
Proof. by rewrite <- Unsigned.to_of, Unsigned.of_to. Qed.

(** The digits of a number: a first digit other than 0, or 0 alone. *)
Lemma to_uint_head (a : N) :
  ∃ x l, DecimalFacts.to_list (N.to_uint a) = x :: l ∧ (x ≠ DecimalFacts.d0 ∨ l = []) ∧
    (a ≠ 0%N → x ≠ DecimalFacts.d0).
Proof.
  pose proof (to_uint_norm a) as Hn. pose proof (to_uint_not_nil a) as Hnil.
  pose proof (Unsigned.of_to a) as Hof.
  destruct (N.to_uint a) as [|u|u|u|u|u|u|u|u|u|u] eqn:E; try done;
    try (eexists _, _; split; [reflexivity | split; [by left | done]]).
  destruct u as [|u'|u'|u'|u'|u'|u'|u'|u'|u'|u'] eqn:Eu.
  1: { eexists _, _. split; [reflexivity|]. split; [by right|]. intros Ha. exfalso. apply Ha. by rewrite <- Hof. }
  all: exfalso; rewrite DecimalFacts.unorm_D0 in Hn;
      pose proof (DecimalFacts.nb_digits_unorm u) as Hd; subst u;
      rewrite Hn in Hd; specialize (Hd ltac:(done)); simpl in Hd; lia.
Qed.

Lemma lval_to_uint (a : N) : lval (DecimalFacts.to_list (N.to_uint a)) 0 = a.
Proof. by rewrite <- of_uint_lval, Unsigned.of_to. Qed.

Lemma lstr_to_list (u : Decimal.uint) : lstr (DecimalFacts.to_list u) = NilEmpty.string_of_uint u.
Proof. unfold lstr. by rewrite DecimalFacts.of_list_to_list. Qed.

Lemma parse_unsigned_N (a : N) (t : string) :
  no_number_head t → parse_unsigned (string_of_N a +:+ t) = Some (a, 0%Z, t).
Proof.
  intros Ht. destruct (to_uint_head a) as (x & l & E & Hx & _).
  unfold string_of_N. rewrite <- lstr_to_list, E, <- (frac_none t), parse_unsigned_gen by done.
  rewrite app_nil_r, <- E, lval_to_uint. done.
Qed.

Lemma parse_sign_digit (c : ascii) (r : string) :
  is_digit c = true → parse_sign (String c r) = (false, String c r).
Proof. intros H. simpl. destruct c as [[] [] [] [] [] [] [] []]; done. Qed.

Lemma string_of_N_head (a : N) :
  ∃ c r, string_of_N a = String c r ∧ is_digit c = true.
Proof.
  destruct (to_uint_head a) as (x & l & E & _). unfold string_of_N.
  rewrite <- lstr_to_list, E, lstr_cons. eexists _, _. split; [done | apply digit_char_digit].
Qed.

Lemma digits_to_string_head (x : DecimalFacts.digits) (l : list DecimalFacts.digits) (n : Z) :
  ∃ c r, digits_to_string (x :: l) n = String c r ∧ is_digit c = true.
Proof.
  assert (∀ l' r, ∃ c r', lstr (x :: l') +:+ r = String c r' ∧ is_digit c = true) as Hd.
  { intros l' r. rewrite lstr_cons, string_app_cons. eexists _, _. split; [done | apply digit_char_digit]. }
  unfold digits_to_string.
  destruct ((_ <=? n)%Z && (n <=? 21)%Z);
    [simpl app; rewrite <- (string_app_nil_r (lstr _)); apply Hd|].
  destruct ((0 <? n)%Z && (n <=? 21)%Z) eqn:C2.
  { apply andb_true_iff in C2 as [C2 _]. destruct (Z.to_nat n) eqn:Ej; [lia|]. apply Hd. }
  destruct ((-6 <? n)%Z && (n <=? 0)%Z); [by eexists _, _|].
  destruct (_ =? 1)%Z; apply Hd.
Qed.

Lemma strip_zeros_spec (f : nat) (a s : N) (t : nat) :
  strip_zeros f a = (s, t) → a = (s * 10 ^ N.of_nat t)%N ∧ (a ≠ 0 → s ≠ 0)%N.
Proof.
  revert a s t. induction f as [|f IH]; intros a s t; simpl; [intros [= <- <-]; split; lia|].
  destruct ((a =? 0)%N || negb (a mod 10 =? 0)%N) eqn:E; [intros [= <- <-]; split; lia|].
  destruct (strip_zeros f (a / 10)) as [s' t'] eqn:Es. intros [= <- <-].
  apply IH in Es as [Ha Hs]. apply orb_false_iff in E as [E1 E2].
  apply N.eqb_neq in E1. apply negb_false_iff, N.eqb_eq in E2.
  pose proof (N.div_mod a 10) as Hd. rewrite Nat2N.inj_succ, N.pow_succ_r'.
  split; [|intros _; apply Hs; intros Hz; rewrite Hz in Hd; lia]. lia.
Qed.

(** The numbers [JSON.parse] builds: fractions in lowest terms. *)
Definition number_wf (x : number) : Prop :=
  match x with NInt _ => True | NDec m e => (e < 0)%Z ∧ (m mod 10 ≠ 0)%Z end.

Lemma parse_number_string_of_Z (z : Z) (t : string) :
  no_number_head t → parse_number (string_of_Z z +:+ t) = Some (NInt z, t).
Proof.
  intros Ht. unfold string_of_Z, parse_number. destruct (Z.ltb_spec z 0).
  - rewrite string_app_cons. simpl. rewrite parse_unsigned_N by done.
    unfold mk_number. simpl. do 3 f_equal. lia.
  - destruct (string_of_N_head (Z.to_N z)) as (c & r & Hs & Hc).
    rewrite Hs, string_app_cons, parse_sign_digit by done.
    rewrite <- string_app_cons, <- Hs, parse_unsigned_N by done.
    unfold mk_number. simpl. do 3 f_equal. lia.
Qed.

Lemma parse_number_digits (neg : bool) (x : DecimalFacts.digits) (l : list DecimalFacts.digits)
    (n : Z) (t : string) :
  x ≠ DecimalFacts.d0 → no_number_head t →
  parse_number ((if neg then String "-" else id) (digits_to_string (x :: l) n) +:+ t) =
  Some (mk_number (if neg then - Z.of_N (lval (x :: l) 0) else Z.of_N (lval (x :: l) 0))%Z
          (n - Z.of_nat (length (x :: l)))%Z, t).
Proof.
  intros Hx Ht. destruct (parse_unsigned_digits x l n t Hx Ht) as (m & e & Hp & Hm).
  unfold parse_number. destruct neg.
  - rewrite string_app_cons. simpl parse_sign. cbv beta iota. rewrite Hp. exact (f_equal (λ v, Some (v, t)) (Hm true)).
  - destruct (digits_to_string_head x l n) as (c & r & Hs & Hc). simpl id.
    rewrite Hs, string_app_cons, parse_sign_digit by done.
    cbv beta iota. rewrite <- string_app_cons, <- Hs, Hp. exact (f_equal (λ v, Some (v, t)) (Hm false)).
Qed.

(** C10. Round trip: [JSON.parse] reads back every number that
    [Number::toString] writes (an integer, or a fraction in lowest terms),
    in each of the five forms of its output, whatever follows that cannot
    continue a number. *)
Theorem parse_number_to_string (x : number) (t : string) :
  number_wf x → no_number_head t → parse_number (number_to_string x +:+ t) = Some (x, t).
Proof.
  intros Hwf Ht. destruct x as [z|m e]; simpl.
  - destruct (Z.ltb_spec (Z.abs z) (10 ^ 21)); [by apply parse_number_string_of_Z|].
    destruct (strip_zeros _ (Z.abs_N z)) as [s k] eqn:Es.
    apply strip_zeros_spec in Es as [Hz Hs].
    destruct (to_uint_head s) as (x & l & E & _ & Hx). rewrite E.
    assert (Z.abs_N z ≠ 0%N) as Hz0 by lia.
    replace (if (z <? 0)%Z then String "-" else id) with
      (if (z <? 0)%Z then String "-" else @id string) by done.
    rewrite parse_number_digits by (done || by apply Hx, Hs).
    rewrite <- E, lval_to_uint. unfold mk_number.
    replace (Z.of_nat (length (DecimalFacts.to_list (N.to_uint s))) + Z.of_nat k -
             Z.of_nat (length (DecimalFacts.to_list (N.to_uint s))))%Z with (Z.of_nat k) by lia.
    destruct (Z.leb_spec 0 (Z.of_nat k)); [|lia]. do 3 f_equal.
    apply (f_equal Z.of_N) in Hz. rewrite N2Z.inj_mul, N2Z.inj_pow, nat_N_Z, N2Z.inj_abs_N in Hz.
    destruct (Z.ltb_spec z 0); lia.
  - destruct Hwf as [He Hm].
    destruct (to_uint_head (Z.abs_N m)) as (x & l & E & _ & Hx). rewrite E.
    assert (Z.abs_N m ≠ 0%N) as Hm0 by (intros H; apply Hm; assert (m = 0%Z) by lia; by subst).
    rewrite parse_number_digits by (done || by apply Hx).
    rewrite <- E, lval_to_uint. unfold mk_number.
    replace (Z.of_nat (length (DecimalFacts.to_list (N.to_uint (Z.abs_N m)))) + e -
             Z.of_nat (length (DecimalFacts.to_list (N.to_uint (Z.abs_N m)))))%Z with e by lia.
    destruct (Z.leb_spec 0 e); [lia|]. destruct (Z.to_nat (- e)) eqn:Ee; [lia|]. simpl.
    replace (if (m <? 0)%Z then (- Z.of_N (Z.abs_N m))%Z else Z.of_N (Z.abs_N m)) with m
      by (destruct (Z.ltb_spec m 0); lia).
    by destruct (Z.eqb_spec (m mod 10) 0).
Qed.

(** ** The parser consumes its input *)

Lemma digits_length (s : string) :
  String.length (digits s).2 ≤ String.length s ∧
  ((digits s).1 ≠ Decimal.Nil → String.length (digits s).2 < String.length s).
Proof.
  induction s as [|c s IH]; simpl; [done|].
  destruct (is_digit c); [|simpl; split; [lia | done]].
  destruct (digits s) as [d r]. simpl in *. split; [lia|]. intros _. lia.
Qed.

Lemma parse_N_length (s r : string) (n : N) :
  parse_N s = Some (n, r) → String.length r < String.length s.
Proof.
  unfold parse_N. pose proof (digits_length s) as [_ H].
  destruct (digits s) as [d r0]. simpl in *.
  destruct d; try (case_match; intros; simplify_eq; by apply H). done.
Qed.

Lemma parse_frac_length (s r : string) (d : Decimal.uint) :
  parse_frac s = Some (d, r) → String.length r ≤ String.length s.
Proof.
  destruct s as [|c s]; simpl; [by intros [= _ <-]|].
  pose proof (digits_length s) as [H _].
  destruct (Ascii.eqb c "."); [|intros [= _ <-]; done].
  destruct (digits s) as [[] r0]; simpl in *; intros; simplify_eq/=; lia.
Qed.

Lemma parse_exp_length (s r : string) (x : Z) :
  parse_exp s = Some (x, r) → String.length r ≤ String.length s.
Proof.
  destruct s as [|c s]; simpl; [by intros [= _ <-]|].
  destruct (_ || _); [|intros [= _ <-]; done].
  assert (∃ neg r1, (match s with
    | String c' r' => if Ascii.eqb c' "-" then (true, r') else if Ascii.eqb c' "+" then (false, r')
                      else (false, s)
    | EmptyString => (false, s) end) = (neg, r1) ∧ String.length r1 ≤ String.length s)
    as (neg & r1 & -> & Hr1).
  { destruct s as [|c' s']; [by eexists _, _|]. simpl.
    destruct (Ascii.eqb c' "-"); [|destruct (Ascii.eqb c' "+")]; eexists _, _; split; simpl; done || lia. }
  pose proof (digits_length r1) as [H _].
  destruct (digits r1) as [[] r0]; simpl in *; intros; simplify_eq/=; lia.
Qed.

Lemma parse_number_length (s r : string) (x : number) :
  parse_number s = Some (x, r) → String.length r < String.length s.
Proof.
  unfold parse_number, parse_unsigned.
  assert (String.length (parse_sign s).2 ≤ String.length s) as Hs.
  { destruct s as [|c s]; simpl; [lia|]. destruct (Ascii.eqb c "-"); simpl; lia. }
  destruct (parse_sign s) as [neg s1]. simpl in Hs.
  destruct (parse_N s1) as [[i r1]|] eqn:E1; [|done]. apply parse_N_length in E1.
  destruct (parse_frac r1) as [[f r2]|] eqn:E2; [|done]. apply parse_frac_length in E2.
  destruct (parse_exp r2) as [[e r3]|] eqn:E3; [|done]. apply parse_exp_length in E3.
  intros; simplify_eq/=. lia.
Qed.

(** ** JSON.parse builds normalised numbers *)

Lemma norm_dec_wf (f : nat) (m e : Z) : e = (- Z.of_nat f)%Z → number_wf (norm_dec f m e).
Proof.
  revert m e. induction f as [|f IH]; intros m e He; simpl; [done|].
  destruct (Z.eqb_spec (m mod 10) 0); [apply IH; lia | simpl; split; lia].
Qed.

Lemma mk_number_wf (m e : Z) : number_wf (mk_number m e).
Proof. unfold mk_number. destruct (Z.leb_spec 0 e); [done|]. apply norm_dec_wf. lia. Qed.

Lemma parse_number_wf (s r : string) (x : number) :
  parse_number s = Some (x, r) → number_wf x.
Proof.
  unfold parse_number. destruct (parse_sign s) as [neg s1].
  destruct (parse_unsigned s1) as [[[m e] r']|]; [|done]. intros [= <- _]. apply mk_number_wf.
Qed.

(** ** The first character of a printed number *)

Lemma number_to_string_head (x : number) :
  ∃ c r, number_to_string x = String c r ∧ (is_digit c = true ∨ c = "-"%char).
Proof.
  assert (∀ (b : bool) (l : list DecimalFacts.digits) n, l ≠ [] →
    ∃ c r, (if b then String "-" else id) (digits_to_string l n) = String c r ∧
      (is_digit c = true ∨ c = "-"%char)) as Hd.
  { intros [] [|y l] n Hl; try done; [by eexists _, _; split; [|right] |].
    destruct (digits_to_string_head y l n) as (c & r & -> & Hc). eexists _, _. split; [done | by left]. }
  assert (∀ a, DecimalFacts.to_list (N.to_uint a) ≠ []) as Hne.
  { intros a. destruct (to_uint_head a) as (y & l & -> & _). done. }
  destruct x as [z|m e]; simpl; [|by apply Hd].
  destruct (Z.abs z <? 10 ^ 21)%Z; [|destruct (strip_zeros _ _); by apply Hd].
  unfold string_of_Z. destruct (z <? 0)%Z; [by eexists _, _; split; [|right]|].
  destruct (string_of_N_head (Z.to_N z)) as (c & r & -> & Hc). eexists _, _. split; [done | by left].
Qed.

(** The digits of a positive [k] number at most [n] when [k < 10^n]. *)
Lemma to_uint_length (k : N) (n : nat) :
  (Z.of_N k < 10 ^ Z.of_nat n)%Z → (0 < n)%nat →
  (length (DecimalFacts.to_list (N.to_uint k)) ≤ n)%nat.
Proof.
  intros Hk Hn. destruct (to_uint_head k) as (x & l & E & Hx & Hnz).
  rewrite E. destruct (N.eq_dec k 0%N) as [->|Hk0].
  - vm_compute in E. injection E as <- <-. simpl. lia.
  - specialize (Hnz Hk0). pose proof (lval_to_uint k) as Hv. rewrite E in Hv.
    rewrite lval_cons, lval_acc in Hv.
    assert (1 ≤ digit_val x)%N by (destruct x; simpl; done || lia).
    apply (f_equal Z.of_N) in Hv. rewrite N2Z.inj_add, N2Z.inj_mul, N2Z.inj_pow, nat_N_Z in Hv.
    cbn [length]. destruct (Nat.le_gt_cases (S (length l)) n) as [|Hgt]; [done|].
    exfalso. assert (10 ^ Z.of_nat n ≤ 10 ^ Z.of_nat (length l))%Z by (apply Z.pow_le_mono_r; lia).
    assert (0 ≤ Z.of_N (lval l 0))%Z by lia. assert (0 < 10 ^ Z.of_nat (length l))%Z by (apply Z.pow_pos_nonneg; lia). nia.
Qed.

(** ** Where Number::toString uses the exponent form *)

(** The digits of [x] are [s * 10^(n - k)] with [k] digits in [s]: [n]
    is the position of the decimal point (ECMA-262 Number::toString,
    step 5). *)
Definition decimal_point (x : number) : Z :=
  match x with
  | NInt z => Z.of_nat (length (DecimalFacts.to_list (N.to_uint (Z.abs_N z))))
  | NDec m e => (Z.of_nat (length (DecimalFacts.to_list (N.to_uint (Z.abs_N m)))) + e)%Z
  end.

Lemma infix_char_cons (c d : ascii) (s : string) :
  String c "" ⊑ String d s ↔ c = d ∨ String c "" ⊑ s.
Proof.
  split.
  - intros ([|x pre] & suf & H).
    + simpl in H. injection H as -> _. by left.
    + rewrite string_app_cons in H. injection H as -> ->. right. by exists pre, suf.
  - intros [-> | (pre & suf & ->)]; [by exists "", s|].
    exists (String d pre), suf. by rewrite string_app_cons.
Qed.

Lemma infix_char_nil (c : ascii) : ¬ String c "" ⊑ "".
Proof. intros ([|x pre] & suf & H); discriminate. Qed.

Lemma infix_char_app (c : ascii) (a b : string) :
  String c "" ⊑ a +:+ b ↔ String c "" ⊑ a ∨ String c "" ⊑ b.
Proof.
  induction a as [|d a IH].
  - rewrite string_app_nil_l. pose proof (infix_char_nil c). tauto.
  - rewrite string_app_cons, !infix_char_cons, IH. tauto.
Qed.

(** Digits contain no letter. *)
Lemma lstr_no_char (c : ascii) (l : list DecimalFacts.digits) :
  is_digit c = false → ¬ String c "" ⊑ lstr l.
Proof.
  intros Hc. induction l as [|x l IH]; [exact (infix_char_nil c)|].
  rewrite lstr_cons, infix_char_cons. intros [-> | H]; [by rewrite digit_char_digit in Hc | auto].
Qed.

Lemma lval_lt (l : list DecimalFacts.digits) : (lval l 0 < 10 ^ N.of_nat (length l))%N.
Proof.
  induction l as [|x l IH]; [simpl; lia|].
  rewrite lval_cons, lval_acc. cbn [length]. rewrite Nat2N.inj_succ, N.pow_succ_r'.
  assert (digit_val x ≤ 9)%N by (destruct x; simpl; lia). nia.
Qed.

Lemma digits_to_string_exponent (l : list DecimalFacts.digits) (n : Z) :
  l ≠ [] → "e" ⊑ digits_to_string l n ↔ (n ≤ -6 ∨ 21 < n)%Z.
Proof.
  intros Hl. assert (Hk : (1 ≤ Z.of_nat (length l))%Z) by (destruct l; [done | simpl; lia]).
  assert (He : ∀ l', ¬ "e" ⊑ lstr l') by (intros l'; by apply lstr_no_char).
  assert (Hx : ∀ x, "e" ⊑ exp_string x) by (intros x; apply infix_char_cons; by left).
  unfold digits_to_string.
  repeat match goal with |- context [if ?b then _ else _] => destruct b eqn:? end;
    rewrite ?andb_true_iff, ?andb_false_iff, ?Z.leb_le, ?Z.leb_gt, ?Z.ltb_lt, ?Z.ltb_ge in *;
    repeat rewrite ?infix_char_app, ?infix_char_cons.
  all: split; [intros H | intros; try lia].
  all: repeat match goal with H : _ ∨ _ |- _ => destruct H as [H|H] end; try lia.
  all: try discriminate; try (exfalso; by eapply He).
  all: try (by right; apply Hx); try (by right; right; right; apply Hx).
Qed.

Lemma to_list_not_nil (a : N) : DecimalFacts.to_list (N.to_uint a) ≠ [].
Proof. by destruct (to_uint_head a) as (x & l & -> & _). Qed.

Lemma sign_infix_e (b : bool) (s : string) :
  "e" ⊑ (if b then String "-" else id) s ↔ "e" ⊑ s.
Proof.
  destruct b; [|done]. rewrite infix_char_cons. split; [by intros [H|H] | by right].
Qed.

(** A natural number has fewer digits than the power of ten above it. *)
Lemma digits_count_lt (a : N) :
  (Z.of_N a < 10 ^ Z.of_nat (length (DecimalFacts.to_list (N.to_uint a))))%Z.
Proof.
  pose proof (lval_lt (DecimalFacts.to_list (N.to_uint a))) as H.
  rewrite lval_to_uint in H. apply N2Z.inj_lt in H. by rewrite N2Z.inj_pow, nat_N_Z in H.
Qed.

Lemma pow10_above (a k : Z) : (10 ^ 21 ≤ a → a < 10 ^ k → 21 < k)%Z.
Proof.
  intros Ha Hk. destruct (Z.lt_ge_cases 21 k) as [|Hle]; [done|].
  assert (10 ^ k ≤ 10 ^ 21)%Z by (destruct (Z.lt_ge_cases k 0); [rewrite Z.pow_neg_r by lia; lia | apply Z.pow_le_mono_r; lia]).
  lia.
Qed.

(** C31. Number::toString writes the exponent form ([1e+21], [1.5e-7])
    exactly when the decimal point of the number lies more than 21
    digits to the right of its first digit or 6 or more to the left of it
    (ECMA-262 Number::toString, steps 6 to 10): integers below [10^21]
    and fractions down to [0.000001] are written in full. *)
Theorem number_to_string_exponent (x : number) :
  "e" ⊑ number_to_string x ↔ (decimal_point x ≤ -6 ∨ 21 < decimal_point x)%Z.
Proof.
  destruct x as [z|m e]; cbn [number_to_string decimal_point];
    [|by rewrite sign_infix_e, digits_to_string_exponent by apply to_list_not_nil].
  pose proof (digits_count_lt (Z.abs_N z)) as HL. rewrite N2Z.inj_abs_N in HL.
  destruct (Z.ltb_spec (Z.abs z) (10 ^ 21)) as [Hz|Hz].
  - assert (string_of_Z z = (if (z <? 0)%Z then String "-" else id)
              (lstr (DecimalFacts.to_list (N.to_uint (Z.abs_N z))))) as ->.
    { unfold string_of_Z, string_of_N. rewrite lstr_to_list.
      destruct (Z.ltb_spec z 0); [done|]. simpl. by rewrite Zabs2N.abs_N_nonneg by lia. }
    rewrite sign_infix_e. split; [intros H; by apply lstr_no_char in H|].
    pose proof (to_uint_length (Z.abs_N z) 21 ltac:(rewrite N2Z.inj_abs_N; lia) ltac:(lia)).
    pose proof (to_list_not_nil (Z.abs_N z)).
    destruct (DecimalFacts.to_list (N.to_uint (Z.abs_N z))); [done | simpl in *; lia].
  - destruct (strip_zeros _ (Z.abs_N z)) as [s t] eqn:Es.
    rewrite sign_infix_e, digits_to_string_exponent by apply to_list_not_nil.
    apply strip_zeros_spec in Es as [Ha _]. apply (f_equal Z.of_N) in Ha.
    rewrite N2Z.inj_abs_N, N2Z.inj_mul, N2Z.inj_pow, nat_N_Z in Ha.
    pose proof (digits_count_lt s) as Hs.
    split; intros _; right; [by eapply pow10_above|].
    apply (pow10_above (Z.abs z)); [done|]. rewrite Z.pow_add_r by lia. rewrite Ha.
    apply Z.mul_lt_mono_pos_r; [apply Z.pow_pos_nonneg; lia | done].
Qed.

(** ** Witnesses *)

Lemma parse_number_to_string_witness :
  number_wf (NDec (-45) (-1)) ∧ no_number_head "," ∧
  parse_number (number_to_string (NDec (-45) (-1)) +:+ ",") = Some (NDec (-45) (-1), ",").
Proof.
  assert (H1 : number_wf (NDec (-45) (-1))) by (simpl; split; [lia | done]).
  assert (H2 : no_number_head ",") by reflexivity.
  split; [exact H1 | split; [exact H2 | exact (parse_number_to_string _ _ H1 H2)]].
Defined.

(** [Number::toString] at the boundaries of its cases, as
    JavaScript prints them: 21 integer digits in full and 22 in exponent
    form, six leading zeros after the point and seven in exponent form,
    a point inside the digits, a mantissa of several digits; and
    [JSON.parse] reading an exponent, rejecting a leading zero and a
    point without digits. *)
Example number_to_string_cases :
  number_to_string (NInt (10 ^ 20)) = "100000000000000000000" ∧
  number_to_string (NInt (10 ^ 21)) = "1e+21" ∧
  number_to_string (NDec 1 (-6)) = "0.000001" ∧
  number_to_string (NDec 1 (-7)) = "1e-7" ∧
  number_to_string (NDec (-45) (-1)) = "-4.5" ∧
  number_to_string (NInt (123 * 10 ^ 20)) = "1.23e+22" ∧
  parse_number "1.50e1" = Some (NInt 15, "") ∧
  parse_number "01" = None ∧ parse_number "1." = None.
Proof. split_and!; vm_compute; reflexivity. Qed.

End JsNumber.
