(* ===== verification/JsDate.v ===== *)
(** * JsDate: [Date.now()], [new Date().toISOString()] and [new Date(s)]

    A posted review takes its [id] from [Date.now()] and its [date]
    from [new Date().toISOString()] (App.jsx line 300); the review list
    shows [new Date(rv.date).toLocaleString()] (line 316).  This file
    models the ECMAScript Date operations behind them on time values
    (integers of milliseconds since 1970-01-01T00:00:00Z), following
    ECMA-262, 21.4:

    - [Day], [TimeWithinDay], [DaysInYear], [DayFromYear],
      [YearFromTime], [InLeapYear], [DayWithinYear], [MonthFromTime],
      [DateFromTime], [HourFromTime], [MinFromTime], [SecFromTime],
      [msFromTime], [MakeTime], [MakeDay], [MakeDate], [TimeClip].
      [YearFromTime] is specified as the largest [y] with
      [TimeFromYear y <= t]; [year_from_day] computes it from a 400-year
      estimate that is off by at most one ([year_from_day_spec],
      [DayFromYear_le_iff]).
    - [new_Date now]: the time value of [new Date()], [TimeClip] of the
      clock ([None] is NaN).
    - [toISOString]: the Date Time String Format in UTC, [YYYY] or the
      expanded years [+YYYYYY] / [-YYYYYY]; a RangeError for NaN.
    - [Date_parse]: [Date.parse] (and [new Date(s)]) on strings of the
      Date Time String Format: the date forms [YYYY], [YYYY-MM],
      [YYYY-MM-DD], then optionally [THH:mm], [THH:mm:ss] or
      [THH:mm:ss.sss] and an offset [Z] or [+HH:mm] / [-HH:mm]; a
      date-time without offset is local time, through the parameter
      [LocalTZA].  Strings outside the format give [None] here;
      ECMAScript lets an implementation fall back to its own heuristics
      there, which are not modelled.

    The main theorem [Date_parse_toISOString] is the round trip: for
    every time value a Date holds ([|t| <= 8.64e15]), [toISOString]
    succeeds and [Date.parse] reads back [t], in any time zone.
    [toLocaleString] depends on the host's locale and is not modelled. *)

From Stdlib Require Import DecimalString DecimalN.
From Stdlib Require DecimalFacts.
From S2P Require Import Prelude JsNumber.

Module JsDate.

Local Open Scope Z_scope.

(** ** Time values (ECMA-262, 21.4.1) *)

Definition msPerSecond : Z := 1000.
Definition msPerMinute : Z := 60000.
Definition msPerHour : Z := 3600000.
Definition msPerDay : Z := 86400000.

(** The largest time value magnitude a Date holds (TimeClip). *)
Definition maxTime : Z := 8640000000000000.

Definition Day (t : Z) : Z := t / msPerDay.
Definition TimeWithinDay (t : Z) : Z := t mod msPerDay.

Definition DaysInYear (y : Z) : Z :=
  if negb (y mod 4 =? 0) then 365
  else if negb (y mod 100 =? 0) then 366
  else if negb (y mod 400 =? 0) then 365
  else 366.

Definition DayFromYear (y : Z) : Z :=
  365 * (y - 1970) + (y - 1969) / 4 - (y - 1901) / 100 + (y - 1601) / 400.

(** [YearFromTime]: the largest [y] with [DayFromYear y <= Day t],
    computed from the estimate [1970 + 400 d / 146097] (146097 days
    in 400 years), which is off by at most one year. *)
Definition year_from_day (d : Z) : Z :=
  let y := 1970 + (400 * d) / 146097 in
  if DayFromYear (y + 1) <=? d then y + 1
  else if d <? DayFromYear y then y - 1
  else y.

Definition YearFromTime (t : Z) : Z := year_from_day (Day t).

Definition TimeFromYear (y : Z) : Z := msPerDay * DayFromYear y.

Definition InLeapYear (t : Z) : Z := if DaysInYear (YearFromTime t) =? 366 then 1 else 0.

Definition DayWithinYear (t : Z) : Z := Day t - DayFromYear (YearFromTime t).

(** The day within the year on which month [m] starts, [leap] being
    [InLeapYear]: the bounds of the cases of [MonthFromTime]. *)
Definition month_start (m : Z) (leap : Z) : Z :=
  match m with
  | 0 => 0 | 1 => 31 | 2 => 59 + leap | 3 => 90 + leap | 4 => 120 + leap
  | 5 => 151 + leap | 6 => 181 + leap | 7 => 212 + leap | 8 => 243 + leap
  | 9 => 273 + leap | 10 => 304 + leap | 11 => 334 + leap | _ => 365 + leap
  end%Z.

Definition month_of_day (d leap : Z) : Z :=
  if d <? month_start 1 leap then 0
  else if d <? month_start 2 leap then 1
  else if d <? month_start 3 leap then 2
  else if d <? month_start 4 leap then 3
  else if d <? month_start 5 leap then 4
  else if d <? month_start 6 leap then 5
  else if d <? month_start 7 leap then 6
  else if d <? month_start 8 leap then 7
  else if d <? month_start 9 leap then 8
  else if d <? month_start 10 leap then 9
  else if d <? month_start 11 leap then 10
  else 11.

Definition MonthFromTime (t : Z) : Z := month_of_day (DayWithinYear t) (InLeapYear t).

Definition DateFromTime (t : Z) : Z :=
  DayWithinYear t - month_start (MonthFromTime t) (InLeapYear t) + 1.

Definition HourFromTime (t : Z) : Z := (t / msPerHour) mod 24.
Definition MinFromTime (t : Z) : Z := (t / msPerMinute) mod 60.
Definition SecFromTime (t : Z) : Z := (t / msPerSecond) mod 60.
Definition msFromTime (t : Z) : Z := t mod msPerSecond.

Definition leap_of_year (y : Z) : Z := if DaysInYear y =? 366 then 1 else 0.

(** [MakeDay(year, month, date)] on integers, [MakeTime] and [MakeDate]. *)
Definition MakeDay (year month date : Z) : Z :=
  let ym := year + month / 12 in
  let mn := month mod 12 in
  DayFromYear ym + month_start mn (leap_of_year ym) + date - 1.

Definition MakeTime (h m s ms : Z) : Z := h * msPerHour + m * msPerMinute + s * msPerSecond + ms.

Definition MakeDate (day time : Z) : Z := day * msPerDay + time.

Definition TimeClip (t : Z) : option Z := if Z.abs t <=? maxTime then Some t else None.

(** ** Date.prototype.toISOString (21.4.4.36) *)

Fixpoint zeros (k : nat) : string :=
  match k with O => "" | S k' => String "0" (zeros k') end.

(** [ToZeroPaddedDecimalString(n, minLength)]: the decimal digits of
    [n], padded at the start with "0" to [minLength] characters. *)
Definition ToZeroPaddedDecimalString (n : Z) (minLength : nat) : string :=
  let s := JsNumber.string_of_Z n in zeros (minLength - String.length s)%nat +:+ s.

Definition year_string (y : Z) : string :=
  if (0 <=? y) && (y <=? 9999) then ToZeroPaddedDecimalString y 4
  else String (if y <? 0 then "-" else "+") (ToZeroPaddedDecimalString (Z.abs y) 6).

(** [toISOString] of a Date whose time value is [tv] ([None] is NaN,
    for which it throws a RangeError). *)
Definition toISOString (tv : option Z) : option string :=
  match tv with
  | None => None
  | Some t =>
      Some (year_string (YearFromTime t) +:+
            String "-" (ToZeroPaddedDecimalString (MonthFromTime t + 1) 2 +:+
            String "-" (ToZeroPaddedDecimalString (DateFromTime t) 2 +:+
            String "T" (ToZeroPaddedDecimalString (HourFromTime t) 2 +:+
            String ":" (ToZeroPaddedDecimalString (MinFromTime t) 2 +:+
            String ":" (ToZeroPaddedDecimalString (SecFromTime t) 2 +:+
            String "." (ToZeroPaddedDecimalString (msFromTime t) 3 +:+ "Z")))))))
  end.

(** [new Date()] at the clock reading [now] (21.4.2.1). *)
Definition new_Date (now : Z) : option Z := TimeClip now.

(** ** Date.parse on the Date Time String Format (21.4.1.32) *)

(** Exactly [n] decimal digits. *)
Fixpoint read_fixed (n : nat) (acc : Z) (s : string) : option (Z * string) :=
  match n with
  | O => Some (acc, s)
  | S n' =>
      match s with
      | String c r =>
          if JsNumber.is_digit c then read_fixed n' (10 * acc + Z.of_nat (nat_of_ascii c - 48)) r else None
      | EmptyString => None
      end
  end.

(** [YYYY], or the expanded years [+YYYYYY] and [-YYYYYY] ([-000000]
    is not a year). *)
Definition parse_year (s : string) : option (Z * string) :=
  match s with
  | String c r =>
      if Ascii.eqb c "+" then read_fixed 6 0 r
      else if Ascii.eqb c "-" then
        match read_fixed 6 0 r with
        | Some (y, r') => if y =? 0 then None else Some (- y, r')
        | None => None
        end
      else read_fixed 4 0 s
  | EmptyString => None
  end.

(** [-MM] then [-DD], each optional: January, the first, by default. *)
Definition parse_month_day (s : string) : option (Z * Z * string) :=
  match s with
  | String "-" r =>
      '(mo, r1) ← read_fixed 2 0 r;
      if (1 <=? mo) && (mo <=? 12) then
        match r1 with
        | String "-" r2 =>
            '(d, r3) ← read_fixed 2 0 r2;
            if (1 <=? d) && (d <=? 31) then Some (mo, d, r3) else None
        | _ => Some (mo, 1, r1)
        end
      else None
  | _ => Some (1, 1, s)
  end.

(** [:ss] then [.sss], each optional. *)
Definition parse_seconds (s : string) : option (Z * Z * string) :=
  match s with
  | String ":" r =>
      '(sc, r1) ← read_fixed 2 0 r;
      match r1 with
      | String "." r2 => '(ms, r3) ← read_fixed 3 0 r2; Some (sc, ms, r3)
      | _ => Some (sc, 0, r1)
      end
  | _ => Some (0, 0, s)
  end.

(** [HH:mm[:ss[.sss]]], as the time within the day; [24:00] is the
    end of the day. *)
Definition parse_time (s : string) : option (Z * string) :=
  '(h, r1) ← read_fixed 2 0 s;
  match r1 with
  | String ":" r2 =>
      '(mi, r3) ← read_fixed 2 0 r2;
      '(sc, ms, r4) ← parse_seconds r3;
      if (h <=? 23) && (mi <=? 59) && (sc <=? 59) ||
         (h =? 24) && (mi =? 0) && (sc =? 0) && (ms =? 0)
      then Some (MakeTime h mi sc ms, r4) else None
  | _ => None
  end.

(** [Z] or [+HH:mm] / [-HH:mm], as an offset in milliseconds; [None]
    when absent. *)
Definition parse_offset (s : string) : option (option Z * string) :=
  match s with
  | String "Z" r => Some (Some 0, r)
  | String c r =>
      if Ascii.eqb c "+" || Ascii.eqb c "-" then
        '(oh, r1) ← read_fixed 2 0 r;
        match r1 with
        | String ":" r2 =>
            '(om, r3) ← read_fixed 2 0 r2;
            if (oh <=? 23) && (om <=? 59) then
              let off := MakeTime oh om 0 0 in
              Some (Some (if Ascii.eqb c "-" then - off else off), r3)
            else None
        | _ => None
        end
      else Some (None, s)
  | EmptyString => Some (None, s)
  end.

Section Parse.
(** [LocalTZA(t, false)]: the offset of the host's time zone at the
    local time [t]; it applies to a date-time without offset. *)
Variable LocalTZA : Z → Z.

(** [Date.parse(s)] on strings of the Date Time String Format; [None]
    is NaN.  A date alone is UTC; a date-time without an offset is
    local time. *)
Definition Date_parse (s : string) : option Z :=
  '(y, r1) ← parse_year s;
  '(mo, d, r2) ← parse_month_day r1;
  let day := MakeDay y (mo - 1) d in
  match r2 with
  | EmptyString => TimeClip (MakeDate day 0)
  | String "T" r3 =>
      '(tm, r4) ← parse_time r3;
      '(off, r5) ← parse_offset r4;
      if String.eqb r5 "" then
        let local := MakeDate day tm in
        TimeClip (match off with Some o => local - o | None => local - LocalTZA local end)
      else None
  | _ => None
  end.
End Parse.
(** ** The calendar *)

Lemma DayFromYear_bounds (y : Z) :
  146097 * (y - 1970) - 506 ≤ 400 * DayFromYear y ≤ 146097 * (y - 1970) + 589.
Proof. unfold DayFromYear. Z.div_mod_to_equations. lia. Qed.

Lemma DayFromYear_succ (y : Z) : DayFromYear (y + 1) = DayFromYear y + DaysInYear y.
Proof.
  unfold DayFromYear, DaysInYear.
  destruct (Z.eqb_spec (y mod 4) 0), (Z.eqb_spec (y mod 100) 0), (Z.eqb_spec (y mod 400) 0);
    simpl; Z.div_mod_to_equations; lia.
Qed.

(** [year_from_day d] is the year of day [d]. *)
Lemma year_from_day_spec (d : Z) :
  DayFromYear (year_from_day d) ≤ d < DayFromYear (year_from_day d + 1).
Proof.
  unfold year_from_day. set (y := 1970 + 400 * d / 146097).
  assert (146097 * (y - 1970) ≤ 400 * d < 146097 * (y - 1970) + 146097) as Hy
    by (subst y; Z.div_mod_to_equations; lia).
  pose proof (DayFromYear_bounds (y - 1)). pose proof (DayFromYear_bounds (y + 2)).
  assert (DayFromYear (y - 1) ≤ d < DayFromYear (y + 2)) as [H1 H2] by lia.
  destruct (Z.leb_spec (DayFromYear (y + 1)) d); [split; [done | by replace (y + 1 + 1) with (y + 2) by lia]|].
  destruct (Z.ltb_spec d (DayFromYear y)); [by replace (y - 1 + 1) with y by lia | lia].
Qed.

Lemma DaysInYear_range (y : Z) : DaysInYear y = 365 + leap_of_year y ∧ 0 ≤ leap_of_year y ≤ 1.
Proof. unfold leap_of_year, DaysInYear. repeat case_match; simpl in *; lia. Qed.

Lemma DayFromYear_lt (y1 y2 : Z) : y1 < y2 → DayFromYear y1 < DayFromYear y2.
Proof.
  intros H. replace y2 with (y1 + Z.of_nat (S (Z.to_nat (y2 - y1 - 1)))) by lia.
  induction (Z.to_nat (y2 - y1 - 1)) as [|n IH].
  - rewrite DayFromYear_succ. pose proof (DaysInYear_range y1). lia.
  - rewrite Nat2Z.inj_succ, Z.add_succ_r, <- Z.add_1_r, DayFromYear_succ.
    pose proof (DaysInYear_range (y1 + Z.of_nat (S n))). lia.
Qed.

Lemma DayFromYear_le_iff (y1 y2 : Z) : DayFromYear y1 ≤ DayFromYear y2 ↔ y1 ≤ y2.
Proof.
  split; intros H; [|destruct (Z.eq_dec y1 y2); [subst; lia | pose proof (DayFromYear_lt y1 y2); lia]].
  destruct (Z.le_gt_cases y1 y2); [done|]. pose proof (DayFromYear_lt y2 y1). lia.
Qed.

(** C17. [YearFromTime t] is the year ECMA-262 defines: the largest
    [y] with [TimeFromYear y <= t], though it is computed from an
    estimate and one correction. *)
Theorem YearFromTime_largest (t y : Z) : TimeFromYear y ≤ t ↔ y ≤ YearFromTime t.
Proof.
  assert (msPerDay * DayFromYear y ≤ t ↔ DayFromYear y ≤ Day t) as Hfl
    by (unfold Day, msPerDay; split; intros; Z.div_mod_to_equations; lia).
  unfold TimeFromYear, YearFromTime. rewrite Hfl. pose proof (year_from_day_spec (Day t)) as [H1 H2]. split; intros H.
  - destruct (Z.le_gt_cases y (year_from_day (Day t))) as [|Hgt]; [done|].
    assert (DayFromYear (year_from_day (Day t) + 1) ≤ DayFromYear y)
      by (apply DayFromYear_le_iff; lia). lia.
  - etransitivity; [by apply DayFromYear_le_iff | done].
Qed.

(** The months of a year of [365 + leap] days. *)
Lemma month_of_day_spec (d leap : Z) :
  0 ≤ d < 365 + leap → 0 ≤ leap ≤ 1 →
  let m := month_of_day d leap in
  0 ≤ m ≤ 11 ∧ month_start m leap ≤ d < month_start (m + 1) leap ∧
  month_start (m + 1) leap - month_start m leap ≤ 31.
Proof.
  intros Hd Hl. unfold month_of_day.
  repeat match goal with |- context [if ?b then _ else _] => destruct b eqn:? end;
    simpl; repeat match goal with H : (_ <? _) = _ |- _ => apply Z.ltb_lt in H || apply Z.ltb_ge in H end;
    simpl in *; lia.
Qed.

(** The hours, minutes, seconds and milliseconds of [t] make up its
    time within the day. *)
Lemma MakeTime_fields (t : Z) :
  MakeTime (HourFromTime t) (MinFromTime t) (SecFromTime t) (msFromTime t) = TimeWithinDay t.
Proof.
  unfold MakeTime, HourFromTime, MinFromTime, SecFromTime, msFromTime, TimeWithinDay.
  unfold msPerHour, msPerMinute, msPerSecond, msPerDay.
  Z.div_mod_to_equations. lia.
Qed.

Lemma DayWithinYear_range (t : Z) :
  0 ≤ DayWithinYear t < 365 + InLeapYear t ∧ 0 ≤ InLeapYear t ≤ 1.
Proof.
  unfold DayWithinYear, InLeapYear, YearFromTime.
  pose proof (year_from_day_spec (Day t)) as H.
  rewrite DayFromYear_succ in H. pose proof (DaysInYear_range (year_from_day (Day t))) as [E L].
  unfold leap_of_year in *. lia.
Qed.

Lemma MonthFromTime_spec (t : Z) :
  0 ≤ MonthFromTime t ≤ 11 ∧ 1 ≤ DateFromTime t ≤ 31.
Proof.
  destruct (DayWithinYear_range t) as [Hd Hl].
  destruct (month_of_day_spec _ _ Hd Hl) as (Hm & Hs & H31).
  unfold DateFromTime, MonthFromTime. lia.
Qed.

(** The year, month and date of [t] make up its day. *)
Lemma MakeDay_fields (t : Z) :
  MakeDay (YearFromTime t) (MonthFromTime t) (DateFromTime t) = Day t.
Proof.
  destruct (MonthFromTime_spec t) as [Hm _]. unfold MakeDay, DateFromTime.
  rewrite (Z.div_small (MonthFromTime t) 12), (Z.mod_small (MonthFromTime t) 12) by lia.
  rewrite Z.add_0_r. unfold DayWithinYear, InLeapYear, leap_of_year. lia.
Qed.

Lemma MakeDate_fields (t : Z) : MakeDate (Day t) (TimeWithinDay t) = t.
Proof. unfold MakeDate, Day, TimeWithinDay, msPerDay. Z.div_mod_to_equations. lia. Qed.

Lemma field_ranges (t : Z) :
  0 ≤ HourFromTime t ≤ 23 ∧ 0 ≤ MinFromTime t ≤ 59 ∧ 0 ≤ SecFromTime t ≤ 59 ∧
  0 ≤ msFromTime t ≤ 999.
Proof.
  unfold HourFromTime, MinFromTime, SecFromTime, msFromTime.
  pose proof (Z.mod_pos_bound (t / msPerHour) 24). pose proof (Z.mod_pos_bound (t / msPerMinute) 60).
  pose proof (Z.mod_pos_bound (t / msPerSecond) 60). pose proof (Z.mod_pos_bound t msPerSecond).
  unfold msPerSecond in *. lia.
Qed.

(** The years of the time values a Date holds: from -271821 to 275760. *)
Lemma YearFromTime_range (t : Z) : Z.abs t ≤ maxTime → - 999999 ≤ YearFromTime t ≤ 999999.
Proof.
  intros Ht. unfold YearFromTime.
  pose proof (year_from_day_spec (Day t)) as [H1 H2].
  pose proof (DayFromYear_bounds (year_from_day (Day t))).
  pose proof (DayFromYear_bounds (year_from_day (Day t) + 1)).
  assert (- 100000000 ≤ Day t ≤ 100000000) by (unfold Day, msPerDay, maxTime in *; Z.div_mod_to_equations; lia).
  lia.
Qed.

(** ** Fixed-width digits *)

Lemma zeros_lstr (j : nat) : zeros j = JsNumber.lstr (replicate j DecimalFacts.d0).
Proof. induction j as [|j IH]; [done|]. by rewrite replicate_S, JsNumber.lstr_cons, <- IH. Qed.

Lemma lstr_length (l : list DecimalFacts.digits) : String.length (JsNumber.lstr l) = length l.
Proof. induction l as [|x l IH]; [done|]. rewrite JsNumber.lstr_cons. simpl. by rewrite IH. Qed.

Lemma read_fixed_lstr (l : list DecimalFacts.digits) (acc : Z) (t : string) :
  read_fixed (length l) acc (JsNumber.lstr l +:+ t) =
  Some (acc * 10 ^ Z.of_nat (length l) + Z.of_N (JsNumber.lval l 0), t).
Proof.
  revert acc. induction l as [|x l IH]; intros acc; [simpl; f_equal; f_equal; lia|].
  rewrite JsNumber.lstr_cons, string_app_cons. cbn [length read_fixed].
  rewrite JsNumber.digit_char_digit, IH, JsNumber.lval_cons, (JsNumber.lval_acc l (10 * 0 + _)%N).
  assert (Z.of_nat (nat_of_ascii (JsNumber.digit_char x) - 48) = Z.of_N (JsNumber.digit_val x))
    as -> by (by destruct x).
  rewrite Nat2Z.inj_succ, Z.pow_succ_r by lia. do 2 f_equal.
  rewrite N2Z.inj_add, N2Z.inj_mul, N2Z.inj_pow, nat_N_Z. lia.
Qed.

Lemma ToZeroPaddedDecimalString_lstr (k : Z) (n : nat) :
  0 ≤ k < 10 ^ Z.of_nat n → (0 < n)%nat →
  ∃ L, ToZeroPaddedDecimalString k n = JsNumber.lstr L ∧ length L = n ∧ Z.of_N (JsNumber.lval L 0) = k.
Proof.
  intros Hk Hn. unfold ToZeroPaddedDecimalString, JsNumber.string_of_Z.
  destruct (Z.ltb_spec k 0); [lia|].
  unfold JsNumber.string_of_N. rewrite <- JsNumber.lstr_to_list, lstr_length, zeros_lstr, <- JsNumber.lstr_app.
  eexists. split; [done|].
  pose proof (JsNumber.to_uint_length (Z.to_N k) n ltac:(lia) Hn).
  rewrite length_app, length_replicate. split; [lia|].
  rewrite JsNumber.lval_app, JsNumber.lval_zeros, N.mul_0_l, JsNumber.lval_to_uint. lia.
Qed.

Lemma read_padded (k : Z) (n : nat) (acc : Z) (t : string) :
  0 ≤ k < 10 ^ Z.of_nat n → (0 < n)%nat →
  read_fixed n acc (ToZeroPaddedDecimalString k n +:+ t) = Some (acc * 10 ^ Z.of_nat n + k, t).
Proof.
  intros Hk Hn. destruct (ToZeroPaddedDecimalString_lstr k n Hk Hn) as (L & -> & <- & Hv).
  by rewrite read_fixed_lstr, Hv.
Qed.

Lemma ToZeroPaddedDecimalString_head (k : Z) (n : nat) :
  0 ≤ k < 10 ^ Z.of_nat n → (0 < n)%nat →
  ∃ c r, ToZeroPaddedDecimalString k n = String c r ∧ JsNumber.is_digit c = true.
Proof.
  intros Hk Hn. destruct (ToZeroPaddedDecimalString_lstr k n Hk Hn) as ([|x L] & -> & HL & _);
    [simpl in HL; lia|].
  rewrite JsNumber.lstr_cons. eexists _, _. split; [done | apply JsNumber.digit_char_digit].
Qed.

(** ** Reading back what toISOString writes *)

Lemma digit_not_sign (c : ascii) :
  JsNumber.is_digit c = true → Ascii.eqb c "+" = false ∧ Ascii.eqb c "-" = false.
Proof. destruct c as [[] [] [] [] [] [] [] []]; done. Qed.

Lemma range_true (lo hi v : Z) : lo ≤ v ≤ hi → (lo <=? v) && (v <=? hi) = true.
Proof. intros. apply andb_true_iff. rewrite !Z.leb_le. lia. Qed.

Lemma read2 (k : Z) (t : string) :
  0 ≤ k ≤ 99 → read_fixed 2 0 (ToZeroPaddedDecimalString k 2 +:+ t) = Some (k, t).
Proof. intros Hk. by rewrite read_padded by (simpl; lia). Qed.

Lemma parse_year_string (y : Z) (t : string) :
  - 999999 ≤ y ≤ 999999 → parse_year (year_string y +:+ t) = Some (y, t).
Proof.
  intros Hy. unfold year_string.
  destruct ((0 <=? y) && (y <=? 9999)) eqn:Hn.
  - apply andb_true_iff in Hn as [Hl%Z.leb_le Hh%Z.leb_le]. destruct (ToZeroPaddedDecimalString_head y 4) as (c & r & Hs & Hc); [simpl; lia | lia |].
    destruct (digit_not_sign c Hc) as [Hp Hm].
    rewrite Hs, string_app_cons. unfold parse_year. rewrite Hp, Hm, <- string_app_cons, <- Hs.
    by rewrite read_padded by (simpl; lia).
  - rewrite string_app_cons. unfold parse_year.
    destruct (Z.ltb_spec y 0); simpl Ascii.eqb; cbv iota;
      rewrite read_padded by (simpl; lia || (apply andb_false_iff in Hn as [?%Z.leb_gt| ?%Z.leb_gt]; lia)).
    + destruct (Z.eqb_spec (0 * 10 ^ Z.of_nat 6 + Z.abs y) 0); [lia|]. do 3 f_equal. lia.
    + do 3 f_equal. lia.
Qed.

Lemma parse_month_day_fields (mo d : Z) (t : string) :
  1 ≤ mo ≤ 12 → 1 ≤ d ≤ 31 →
  parse_month_day (String "-" (ToZeroPaddedDecimalString mo 2 +:+
                   String "-" (ToZeroPaddedDecimalString d 2 +:+ t))) = Some (mo, d, t).
Proof.
  intros Hm Hd. cbn [parse_month_day]. rewrite read2 by lia. cbn [mbind option_bind].
  rewrite range_true by lia. rewrite read2 by lia. cbn [mbind option_bind].
  by rewrite range_true by lia.
Qed.

Lemma parse_time_fields (h mi sc ms : Z) (t : string) :
  0 ≤ h ≤ 23 → 0 ≤ mi ≤ 59 → 0 ≤ sc ≤ 59 → 0 ≤ ms ≤ 999 →
  parse_time (ToZeroPaddedDecimalString h 2 +:+ String ":" (ToZeroPaddedDecimalString mi 2 +:+
              String ":" (ToZeroPaddedDecimalString sc 2 +:+
              String "." (ToZeroPaddedDecimalString ms 3 +:+ t)))) = Some (MakeTime h mi sc ms, t).
Proof.
  intros Hh Hmi Hsc Hms. unfold parse_time. rewrite read2 by lia. cbn [mbind option_bind].
  rewrite read2 by lia. cbn [mbind option_bind]. cbn [parse_seconds]. rewrite read2 by lia. cbn [mbind option_bind].
  rewrite read_padded by (simpl; lia). cbn [mbind option_bind].
  replace ((h <=? 23) && (mi <=? 59) && (sc <=? 59)) with true; [done|].
  symmetry. repeat rewrite andb_true_iff. rewrite !Z.leb_le. lia.
Qed.

Lemma TimeClip_in (t : Z) : Z.abs t ≤ maxTime → TimeClip t = Some t.
Proof. intros H. unfold TimeClip. by rewrite (proj2 (Z.leb_le _ _) H). Qed.

(** C27. [new Date(d.toISOString())] is [d]: [Date.parse] reads back the
    instant [toISOString] writes, for every time value a Date holds
    and whatever the local time zone. *)
Theorem Date_parse_toISOString (LocalTZA : Z → Z) (now : Z) :
  Z.abs now ≤ maxTime →
  ∃ s, toISOString (new_Date now) = Some s ∧ Date_parse LocalTZA s = Some now.
Proof.
  intros H. unfold new_Date. rewrite TimeClip_in by done. eexists. split; [reflexivity|].
  destruct (MonthFromTime_spec now), (field_ranges now) as (? & ? & ? & ?).
  unfold Date_parse. rewrite parse_year_string by (by apply YearFromTime_range).
  cbn [mbind option_bind]. rewrite parse_month_day_fields by lia. cbn [mbind option_bind].
  rewrite parse_time_fields by lia. cbn [mbind option_bind parse_offset String.eqb].
  rewrite Z.add_simpl_r, MakeDay_fields, MakeTime_fields, MakeDate_fields, Z.sub_0_r.
  by apply TimeClip_in.
Qed.

Lemma ToZeroPaddedDecimalString_length (k : Z) (n : nat) :
  0 ≤ k < 10 ^ Z.of_nat n → (0 < n)%nat → String.length (ToZeroPaddedDecimalString k n) = n.
Proof.
  intros Hk Hn. destruct (ToZeroPaddedDecimalString_lstr k n Hk Hn) as (L & -> & <- & _).
  apply lstr_length.
Qed.

Lemma year_string_length (y : Z) :
  - 999999 ≤ y ≤ 999999 →
  String.length (year_string y) = if (0 <=? y) && (y <=? 9999) then 4%nat else 7%nat.
Proof.
  intros Hy. unfold year_string. destruct ((0 <=? y) && (y <=? 9999)) eqn:E.
  - apply andb_true_iff in E as [?%Z.leb_le ?%Z.leb_le].
    apply ToZeroPaddedDecimalString_length; simpl; lia.
  - cbn [String.length]. rewrite ToZeroPaddedDecimalString_length; simpl; lia.
Qed.

(** C9. [toISOString] of [new Date(clock)] throws (RangeError) exactly
    when the clock is beyond the time range; otherwise it writes 24
    characters for a year from 0 to 9999 ([YYYY-MM-DDTHH:mm:ss.sssZ]) and
    27 for an expanded year ([+YYYYYY] or [-YYYYYY]), every field padded
    to its width. *)
Theorem toISOString_length (clock : Z) :
  match toISOString (new_Date clock) with
  | None => maxTime < Z.abs clock
  | Some s =>
      Z.abs clock ≤ maxTime ∧
      String.length s =
        if (0 <=? YearFromTime clock) && (YearFromTime clock <=? 9999) then 24%nat else 27%nat
  end.
Proof.
  unfold new_Date, TimeClip. destruct (Z.leb_spec (Z.abs clock) maxTime) as [Hc|Hc]; [|done].
  cbn [toISOString]. split; [done|].
  destruct (MonthFromTime_spec clock), (field_ranges clock) as (? & ? & ? & ?).
  pose proof (YearFromTime_range clock Hc).
  repeat (rewrite string_length_app || (progress cbn [String.length])).
  rewrite year_string_length by done.
  rewrite !ToZeroPaddedDecimalString_length by (simpl; lia).
  destruct ((0 <=? YearFromTime clock) && (YearFromTime clock <=? 9999)); reflexivity.
Qed.

(** ** Witnesses *)

Lemma Date_parse_toISOString_witness :
  Z.abs 1700000000000 ≤ maxTime ∧
  ∃ s, toISOString (new_Date 1700000000000) = Some s ∧
    Date_parse (λ _, 21600000) s = Some 1700000000000.
Proof.
  assert (H : Z.abs 1700000000000 ≤ maxTime) by (unfold maxTime; lia).
  split; [exact H | exact (Date_parse_toISOString _ _ H)].
Defined.

(** [toISOString] and [Date.parse] at the boundaries of their cases, as
    JavaScript computes them: a post of November 2023, the millisecond
    before the epoch, the leap day of 2000, the day after February 28 in
    2100 (not a leap year), the expanded years [+010000] and [-000001], a
    clock beyond the time range (RangeError); an offset, a month alone, a
    local time at UTC+6, a month 13 and the year [-000000] (not a date). *)
Example toISOString_cases :
  toISOString (new_Date 1700000000000) = Some "2023-11-14T22:13:20.000Z" ∧
  toISOString (new_Date (-1)) = Some "1969-12-31T23:59:59.999Z" ∧
  toISOString (new_Date 951782400000) = Some "2000-02-29T00:00:00.000Z" ∧
  toISOString (new_Date 4107542400000) = Some "2100-03-01T00:00:00.000Z" ∧
  toISOString (new_Date 253402300800000) = Some "+010000-01-01T00:00:00.000Z" ∧
  toISOString (new_Date (-62198755200000)) = Some "-000001-01-01T00:00:00.000Z" ∧
  toISOString (new_Date 8640000000000001) = None ∧
  Date_parse (λ _, 0) "2023-11-14T22:13+06:00" = Some 1699978380000 ∧
  Date_parse (λ _, 0) "2000-02" = Some 949363200000 ∧
  Date_parse (λ _, 21600000) "2023-11-14T22:13" = Some 1699978380000 ∧
  Date_parse (λ _, 0) "2023-13-01" = None ∧
  Date_parse (λ _, 0) "-000000-01-01" = None.
Proof. split_and!; vm_compute; reflexivity. Qed.

End JsDate.
