(* ===== verification/Details.v ===== *)
(** * Details: the review form of [RestaurantDetails] (App.jsx 253-330)

    The component keeps [text] and [stars] in local state (lines
    254-255).  The five star buttons set [stars] to 1..5 (lines
    281-285); the text area is disabled without a session (line 293);
    "Post review" is disabled when [!user || stars === 0 ||
    text.trim().length < 5] (line 298) and otherwise calls [onAddReview]
    with a new review, then clears the form (lines 299-302).  The
    review's [id] is [Date.now()] and its [date] is
    [new Date().toISOString()]: two readings of the clock, [now] and
    [clock], inputs of the click.

    A handler that the rendered page does not offer (a star outside
    1..5, typing into the disabled text area, clicking the disabled
    button) returns [None]: nothing happens. *)

From S2P Require Import Prelude JsString Session Reviews JsDate.
Import Session Reviews.

Module Details.

Record DetailsForm := mkDetailsForm { form_text : string; form_stars : nat }.

Definition details_init : DetailsForm := mkDetailsForm "" 0.

(** [onClick={() => setStars(i)}] for the buttons [1,2,3,4,5]. *)
Definition setStars (i : nat) (f : DetailsForm) : option DetailsForm :=
  if (1 <=? i) && (i <=? 5) then Some (mkDetailsForm (form_text f) i) else None.

(** [onChange={e => setText(e.target.value)}], [disabled={!user}]. *)
Definition setText (user : option User) (s : string) (f : DetailsForm) : option DetailsForm :=
  match user with
  | Some _ => Some (mkDetailsForm s (form_stars f))
  | None => None
  end.

(** [disabled={!user || stars === 0 || text.trim().length < 5}]. *)
Definition post_disabled (user : option User) (f : DetailsForm) : bool :=
  negb (bool_decide (is_Some user)) || (form_stars f =? 0) ||
  (String.length (JsString.trim (form_text f)) <? 5).

(** The click handler of "Post review": the review handed to
    [onAddReview], and the cleared form.  [toISOString] throws on an
    invalid date, and then nothing happens. *)
Definition post_review (user : option User) (f : DetailsForm) (now clock : Z)
    : option (Review * DetailsForm) :=
  if post_disabled user f then None
  else
    match JsDate.toISOString (JsDate.new_Date clock) with
    | Some date => Some (mkReview now (author_name user) (form_stars f) (form_text f) date, details_init)
    | None => None
    end.

(** ** What the form shows *)

(** [{!user && <p>You need to log in to post a review.</p>}] (line 279). *)
Definition login_hint (user : option User) : bool := negb (bool_decide (is_Some user)).

(** The star buttons [1..5], highlighted when [i <= stars] (lines 281-285). *)
Definition star_buttons (f : DetailsForm) : list bool := (λ i, i <=? form_stars f) <$> seq 1 5.

(** The list under "Recent reviews" (lines 306-319): the empty-list
    message, or one row per review in order with its author, stars and
    text; the date row is [review_instant] below. *)
Inductive ReviewsView := NoReviews | ReviewRows (rows : list (string * nat * string)).

Definition reviews_view (rvs : list Review) : ReviewsView :=
  match rvs with
  | [] => NoReviews
  | _ => ReviewRows ((λ rv, (Reviews.user rv, stars rv, text rv)) <$> rvs)
  end.

(** [new Date(rv.date)] (line 316), whose [toLocaleString] the row
    shows; [None] is an invalid date. *)
Definition review_instant (LocalTZA : Z → Z) (rv : Review) : option Z :=
  JsDate.Date_parse LocalTZA (date rv).

(** The form only ever holds a star count the buttons can set. *)
Definition form_ok (f : DetailsForm) : Prop := form_stars f ≤ 5.

(** ** Properties *)

Lemma post_disabled_false (user : option User) (f : DetailsForm) :
  post_disabled user f = false ↔
  is_Some user ∧ form_stars f ≠ 0 ∧ 5 ≤ String.length (JsString.trim (form_text f)).
Proof.
  unfold post_disabled.
  destruct (bool_decide (is_Some user)) eqn:Hu;
    destruct (form_stars f =? 0) eqn:Hs;
    destruct (String.length (JsString.trim (form_text f)) <? 5) eqn:Ht; simpl;
    bool_to_prop; rewrite ?Nat.eqb_eq, ?Nat.eqb_neq, ?Nat.ltb_lt, ?Nat.ltb_ge in *;
    split; try (intros; simplify_eq; lia || naive_solver).
Qed.

Lemma post_review_Some (user : option User) (f : DetailsForm) (now clock : Z)
    (rv : Review) (f' : DetailsForm) :
  post_review user f now clock = Some (rv, f') ↔
  is_Some user ∧ form_stars f ≠ 0 ∧ 5 ≤ String.length (JsString.trim (form_text f)) ∧
  JsDate.toISOString (JsDate.new_Date clock) = Some (date rv) ∧
  rv = mkReview now (author_name user) (form_stars f) (form_text f) (date rv) ∧
  f' = details_init.
Proof.
  unfold post_review. pose proof (post_disabled_false user f) as Hpd.
  destruct (post_disabled user f); [naive_solver|]. destruct Hpd as [Hpd _]. specialize (Hpd eq_refl).
  destruct (JsDate.toISOString (JsDate.new_Date clock)) as [d|]; [|naive_solver].
  split; [intros [= <- <-]; naive_solver|]. intros (_ & _ & _ & [= Hd] & Hrv & ->). by rewrite Hrv, <- Hd.
Qed.

(** Without a session the button is disabled. *)
Lemma post_review_no_session (f : DetailsForm) (now clock : Z) :
  post_review None f now clock = None.
Proof. reflexivity. Qed.

(** The handlers keep the star count within the buttons' range. *)
Lemma setStars_ok (i : nat) (f f' : DetailsForm) :
  setStars i f = Some f' → form_ok f' ∧ 1 ≤ form_stars f' .
Proof.
  unfold setStars, form_ok. destruct ((1 <=? i) && (i <=? 5))%bool eqn:E; [|done].
  intros [= <-]. bool_to_prop. rewrite Nat.leb_le in *. simpl. lia.
Qed.

Lemma setText_ok (user : option User) (s : string) (f f' : DetailsForm) :
  form_ok f → setText user s f = Some f' → form_ok f'.
Proof. unfold setText, form_ok. destruct user; [intros ? [= <-]; done | done]. Qed.

(** A posted review has 1 to 5 stars and a body of at least five
    characters once trimmed (the body itself is stored untrimmed). *)
Lemma post_review_valid (user : option User) (f : DetailsForm) (now clock : Z)
    (rv : Review) (f' : DetailsForm) :
  form_ok f → post_review user f now clock = Some (rv, f') →
  1 ≤ stars rv ≤ 5 ∧ 5 ≤ String.length (JsString.trim (text rv)) ∧ text rv = form_text f ∧
  f' = details_init.
Proof.
  unfold form_ok. intros Hok (Hu & Hs & Ht & _ & -> & ->)%post_review_Some. simpl.
  split_and!; done || lia.
Qed.

(** The date row of a posted review shows the instant of the click,
    whatever the time zone. *)
Lemma post_review_instant (user : option User) (f : DetailsForm) (now clock : Z)
    (rv : Review) (f' : DetailsForm) (LocalTZA : Z → Z) :
  post_review user f now clock = Some (rv, f') → review_instant LocalTZA rv = Some clock.
Proof.
  intros (_ & _ & _ & Hd & _)%post_review_Some. unfold review_instant.
  unfold JsDate.new_Date, JsDate.TimeClip in Hd.
  destruct (Z.leb_spec (Z.abs clock) JsDate.maxTime) as [H|]; [|done].
  destruct (JsDate.Date_parse_toISOString LocalTZA clock H) as (s & Hs & Hp).
  unfold JsDate.new_Date in Hs. rewrite JsDate.TimeClip_in in Hs by done.
  simpl in Hd, Hs. congruence.
Qed.

(** The guard counts the length of the trimmed text, inner blanks
    included: a body with two visible characters is accepted. *)
Example post_review_inner_blanks :
  post_review (Some (mkUser "Asha" "a@x.com")) (mkDetailsForm "a   b" 3) 0 0 =
  Some (mkReview 0 "Asha" 3 "a   b" "1970-01-01T00:00:00.000Z", details_init).
Proof. reflexivity. Qed.

(** A session whose name is empty signs its reviews "Guest". *)
Example post_review_guest :
  option_map (λ p, Reviews.user p.1)
    (post_review (Some (mkUser "" "a@x.com")) (mkDetailsForm "Great food" 5) 0 0) =
  Some "Guest".
Proof. reflexivity. Qed.

End Details.
