(* ===== verification/Json.v ===== *)
(** * JSON: [JSON.stringify] and [JSON.parse]

    [saveLocal] writes [JSON.stringify(val)] and [loadLocal] reads
    [JSON.parse(text)] (App.jsx lines 63-66).  This file models both on
    every JSON value: null, booleans, numbers ([JsNumber]), strings,
    arrays and objects (insertion-ordered, as [JsObject]).

    - [stringify] follows the serialization of ECMAScript's
      [JSON.stringify] without indentation: no white space; in strings
      the quote, the backslash and the control characters are escaped
      with a backslash (short forms b f n r t, otherwise u00xx in
      lower-case hex); numbers by Number::toString
      ([JsNumber.number_to_string]).
    - [parse_value] is a recursive-descent parser with fuel that accepts
      white space between tokens, every escape (a [\u] escape above 255
      is outside the string model and rejected), the number grammar
      ([JsNumber.parse_number]), and objects with repeated keys (the
      last value wins and the key keeps its first position, as
      [JsObject.set] does).
    - [JSON_parse] gives the parser as much fuel as the text is long and
      requires only white space after the value.

    The main theorems are the round trip [JSON_parse (stringify v) = Some v]
    for every value whose objects have distinct keys and whose numbers
    are normalised, and fuel adequacy:
    every fuel at least the length of the text gives the result
    [JSON_parse] gives, so the fuel never rejects a text. *)

From S2P Require Import Prelude JsObject JsNumber.

Module Json.

#[warnings="-register-all"]
Inductive json : Type :=
| JNull
| JBool (b : bool)
| JNum (n : JsNumber.number)
| JStr (s : string)
| JArr (l : list json)
| JObj (l : list (string * json)).

(** Induction with hypotheses on the elements of arrays and objects. *)
Section json_ind.
Variable P : json → Prop.
Hypothesis HNull : P JNull.
Hypothesis HBool : ∀ b, P (JBool b).
Hypothesis HNum : ∀ n, P (JNum n).
Hypothesis HStr : ∀ s, P (JStr s).
Hypothesis HArr : ∀ l, Forall P l → P (JArr l).
Hypothesis HObj : ∀ l, Forall (λ kv, P kv.2) l → P (JObj l).

Fixpoint json_ind' (v : json) : P v :=
  match v with
  | JNull => HNull
  | JBool b => HBool b
  | JNum n => HNum n
  | JStr s => HStr s
  | JArr l => HArr l ((fix go (l : list json) : Forall P l :=
      match l with
      | [] => @List.Forall_nil _ P
      | x :: l' => @List.Forall_cons _ P x l' (json_ind' x) (go l')
      end) l)
  | JObj l => HObj l ((fix go (l : list (string * json)) : Forall (λ kv, P kv.2) l :=
      match l with
      | [] => @List.Forall_nil _ (λ kv, P kv.2)
      | kv :: l' => @List.Forall_cons _ (λ kv, P kv.2) kv l' (json_ind' kv.2) (go l')
      end) l)
  end.
End json_ind.

(** ** Characters *)

Definition quote_char : ascii := "034"%char.
Definition backslash : ascii := "092"%char.

Definition hex_digit (n : nat) : ascii :=
  ascii_of_nat (if n <? 10 then 48 + n else 87 + n).

Definition hex_val (c : ascii) : option nat :=
  let n := nat_of_ascii c in
  if (48 <=? n) && (n <=? 57) then Some (n - 48)
  else if (97 <=? n) && (n <=? 102) then Some (n - 87)
  else if (65 <=? n) && (n <=? 70) then Some (n - 55)
  else None.

(** ** JSON.stringify *)

(** QuoteJSONString on one code unit. *)
Definition escape_char (c : ascii) : string :=
  let n := nat_of_ascii c in
  if n =? 34 then String backslash (String quote_char "")
  else if n =? 92 then String backslash (String backslash "")
  else if n =? 8 then String backslash "b"
  else if n =? 12 then String backslash "f"
  else if n =? 10 then String backslash "n"
  else if n =? 13 then String backslash "r"
  else if n =? 9 then String backslash "t"
  else if n <? 32 then
    String backslash (String "u" (String "0" (String "0"
      (String (hex_digit (n / 16)) (String (hex_digit (n mod 16)) "")))))
  else String c "".

Fixpoint escape (s : string) : string :=
  match s with
  | EmptyString => ""
  | String c s' => escape_char c +:+ escape s'
  end.

Definition quote (s : string) : string := String quote_char (escape s +:+ String quote_char "").

Fixpoint stringify (v : json) : string :=
  match v with
  | JNull => "null"
  | JBool true => "true"
  | JBool false => "false"
  | JNum n => JsNumber.number_to_string n
  | JStr s => quote s
  | JArr [] => "[]"
  | JArr (x :: l) =>
      String "[" (stringify x +:+
      (fix commas (l : list json) : string :=
         match l with [] => "]" | y :: l' => String "," (stringify y +:+ commas l') end) l)
  | JObj [] => "{}"
  | JObj ((k, x) :: l) =>
      String "{" (quote k +:+ String ":" (stringify x +:+
      (fix members (l : list (string * json)) : string :=
         match l with
         | [] => "}"
         | (k', y) :: l' => String "," (quote k' +:+ String ":" (stringify y +:+ members l'))
         end) l))
  end.

(** The commas and members tails of [stringify], named. *)
Fixpoint stringify_elems (l : list json) : string :=
  match l with [] => "]" | y :: l' => String "," (stringify y +:+ stringify_elems l') end.

Fixpoint stringify_members (l : list (string * json)) : string :=
  match l with
  | [] => "}"
  | (k, y) :: l' => String "," (quote k +:+ String ":" (stringify y +:+ stringify_members l'))
  end.

Lemma stringify_arr (x : json) (l : list json) :
  stringify (JArr (x :: l)) = String "[" (stringify x +:+ stringify_elems l).
Proof. reflexivity. Qed.

Lemma stringify_obj (k : string) (x : json) (l : list (string * json)) :
  stringify (JObj ((k, x) :: l)) =
  String "{" (quote k +:+ String ":" (stringify x +:+ stringify_members l)).
Proof. reflexivity. Qed.

(** ** Parsing pieces: white space, strings, numbers *)

(** JSON white space: tab, line feed, carriage return, space. *)
Definition is_json_ws (c : ascii) : bool :=
  let n := nat_of_ascii c in (n =? 9) || (n =? 10) || (n =? 13) || (n =? 32).

Fixpoint skip_ws (s : string) : string :=
  match s with
  | String c s' => if is_json_ws c then skip_ws s' else s
  | EmptyString => EmptyString
  end.

Definition cons_char (c : ascii) (o : option (string * string)) : option (string * string) :=
  match o with Some (str, r) => Some (String c str, r) | None => None end.

(** The body of a string literal, after its opening quote. *)
Fixpoint parse_str (s : string) : option (string * string) :=
  match s with
  | EmptyString => None
  | String c s1 =>
      if Ascii.eqb c quote_char then Some (EmptyString, s1)
      else if Ascii.eqb c backslash then
        match s1 with
        | EmptyString => None
        | String e s2 =>
            if Ascii.eqb e quote_char || Ascii.eqb e backslash || Ascii.eqb e "/"
            then cons_char e (parse_str s2)
            else if Ascii.eqb e "b" then cons_char (ascii_of_nat 8) (parse_str s2)
            else if Ascii.eqb e "f" then cons_char (ascii_of_nat 12) (parse_str s2)
            else if Ascii.eqb e "n" then cons_char (ascii_of_nat 10) (parse_str s2)
            else if Ascii.eqb e "r" then cons_char (ascii_of_nat 13) (parse_str s2)
            else if Ascii.eqb e "t" then cons_char (ascii_of_nat 9) (parse_str s2)
            else if Ascii.eqb e "u" then
              match s2 with
              | String h1 (String h2 (String h3 (String h4 s3))) =>
                  match hex_val h1, hex_val h2, hex_val h3, hex_val h4 with
                  | Some a, Some b, Some c', Some d =>
                      let n := ((a * 16 + b) * 16 + c') * 16 + d in
                      if n <? 256 then cons_char (ascii_of_nat n) (parse_str s3) else None
                  | _, _, _, _ => None
                  end
              | _ => None
              end
            else None
        end
      else if nat_of_ascii c <? 32 then None
      else cons_char c (parse_str s1)
  end.

(** ** Lemmas on the pieces *)

Lemma parse_str_escape_char (c : ascii) (t : string) :
  parse_str (escape_char c +:+ t) = cons_char c (parse_str t).
Proof. destruct c as [[] [] [] [] [] [] [] []]; reflexivity. Qed.

Lemma parse_str_quote (s t : string) :
  parse_str (escape s +:+ String quote_char t) = Some (s, t).
Proof.
  induction s as [|c s IH]; [reflexivity|].
  simpl. rewrite <- string_app_assoc, parse_str_escape_char, IH. reflexivity.
Qed.

(** ** JSON.parse *)

Fixpoint parse_value (fuel : nat) (s : string) {struct fuel} : option (json * string) :=
  match fuel with
  | O => None
  | S f =>
      match skip_ws s with
      | EmptyString => None
      | String c r =>
          if Ascii.eqb c "[" then
            match skip_ws r with
            | EmptyString => None
            | String c' r' =>
                if Ascii.eqb c' "]" then Some (JArr [], r')
                else
                  match parse_value f r with
                  | Some (x, r1) =>
                      match parse_elems f r1 with
                      | Some (l, r2) => Some (JArr (x :: l), r2)
                      | None => None
                      end
                  | None => None
                  end
            end
          else if Ascii.eqb c "{" then
            match skip_ws r with
            | EmptyString => None
            | String c' r' =>
                if Ascii.eqb c' "}" then Some (JObj [], r')
                else
                  match parse_member f r with
                  | Some (k, x, r1) =>
                      match parse_members f [(k, x)] r1 with
                      | Some (o, r2) => Some (JObj o, r2)
                      | None => None
                      end
                  | None => None
                  end
            end
          else if Ascii.eqb c quote_char then
            match parse_str r with Some (str, r') => Some (JStr str, r') | None => None end
          else if Ascii.eqb c "n" then
            match r with String "u" (String "l" (String "l" r')) => Some (JNull, r') | _ => None end
          else if Ascii.eqb c "t" then
            match r with String "r" (String "u" (String "e" r')) => Some (JBool true, r') | _ => None end
          else if Ascii.eqb c "f" then
            match r with
            | String "a" (String "l" (String "s" (String "e" r'))) => Some (JBool false, r')
            | _ => None
            end
          else
            match JsNumber.parse_number (String c r) with
            | Some (x, r') => Some (JNum x, r')
            | None => None
            end
      end
  end

(** After an element of an array: [, value] and more, or the closing bracket. *)
with parse_elems (fuel : nat) (s : string) {struct fuel} : option (list json * string) :=
  match fuel with
  | O => None
  | S f =>
      match skip_ws s with
      | String c r =>
          if Ascii.eqb c "]" then Some ([], r)
          else if Ascii.eqb c "," then
            match parse_value f r with
            | Some (x, r1) =>
                match parse_elems f r1 with Some (l, r2) => Some (x :: l, r2) | None => None end
            | None => None
            end
          else None
      | EmptyString => None
      end
  end

(** A member [key : value]. *)
with parse_member (fuel : nat) (s : string) {struct fuel} : option (string * json * string) :=
  match fuel with
  | O => None
  | S f =>
      match skip_ws s with
      | String c r =>
          if Ascii.eqb c quote_char then
            match parse_str r with
            | Some (k, r1) =>
                match skip_ws r1 with
                | String ":" r2 =>
                    match parse_value f r2 with Some (x, r3) => Some (k, x, r3) | None => None end
                | _ => None
                end
            | None => None
            end
          else None
      | EmptyString => None
      end
  end

(** After a member of an object: [, member] and more, or the closing
    brace.  A repeated key overwrites the earlier value in place. *)
with parse_members (fuel : nat) (acc : list (string * json)) (s : string) {struct fuel}
    : option (list (string * json) * string) :=
  match fuel with
  | O => None
  | S f =>
      match skip_ws s with
      | String c r =>
          if Ascii.eqb c "}" then Some (acc, r)
          else if Ascii.eqb c "," then
            match parse_member f r with
            | Some (k, x, r1) => parse_members f (JsObject.set acc k x) r1
            | None => None
            end
          else None
      | EmptyString => None
      end
  end.

(** [JSON.parse(text)]: a value, then only white space. *)
Definition JSON_parse (s : string) : option json :=
  match parse_value (String.length s) s with
  | Some (v, r) => if String.eqb (skip_ws r) "" then Some v else None
  | None => None
  end.

(** ** The round trip *)

(** Objects have distinct keys, at every depth. *)
Fixpoint json_wf (v : json) : Prop :=
  match v with
  | JArr l =>
      (fix go (l : list json) : Prop :=
         match l with [] => True | x :: l' => json_wf x ∧ go l' end) l
  | JNum x => JsNumber.number_wf x
  | JObj l =>
      NoDup l.*1 ∧
      (fix go (l : list (string * json)) : Prop :=
         match l with [] => True | kv :: l' => json_wf kv.2 ∧ go l' end) l
  | _ => True
  end.

Lemma json_wf_arr (l : list json) : json_wf (JArr l) ↔ Forall json_wf l.
Proof.
  induction l as [|x l IH]; simpl; [split; [constructor | done]|].
  rewrite Forall_cons. simpl in IH. rewrite IH. done.
Qed.

Lemma json_wf_obj (l : list (string * json)) :
  json_wf (JObj l) ↔ NoDup l.*1 ∧ Forall (λ kv, json_wf kv.2) l.
Proof.
  simpl. apply and_iff_compat_l.
  induction l as [|kv l IH]; [split; [constructor | done]|].
  rewrite Forall_cons, <- IH. done.
Qed.

(** Fuel the parser needs for a printed value. *)
Fixpoint jsize (v : json) : nat :=
  match v with
  | JArr (x :: l) =>
      1 + jsize x +
      (fix esize (l : list json) : nat :=
         match l with [] => 1 | y :: l' => 1 + jsize y + esize l' end) l
  | JObj ((_, x) :: l) =>
      2 + jsize x +
      (fix msize (l : list (string * json)) : nat :=
         match l with [] => 1 | (_, y) :: l' => 2 + jsize y + msize l' end) l
  | _ => 1
  end.

Fixpoint esize (l : list json) : nat :=
  match l with [] => 1 | y :: l' => 1 + jsize y + esize l' end.

Fixpoint msize (l : list (string * json)) : nat :=
  match l with [] => 1 | (_, y) :: l' => 2 + jsize y + msize l' end.

Lemma jsize_arr (x : json) (l : list json) : jsize (JArr (x :: l)) = 1 + jsize x + esize l.
Proof. reflexivity. Qed.

Lemma jsize_obj (k : string) (x : json) (l : list (string * json)) :
  jsize (JObj ((k, x) :: l)) = 2 + jsize x + msize l.
Proof. reflexivity. Qed.

(** The first character of a number is not one the parser dispatches on. *)
Lemma number_head (c : ascii) :
  JsNumber.is_digit c = true ∨ c = "-"%char →
  is_json_ws c = false ∧ Ascii.eqb c "[" = false ∧ Ascii.eqb c "{" = false ∧
  Ascii.eqb c quote_char = false ∧ Ascii.eqb c "n" = false ∧ Ascii.eqb c "t" = false ∧
  Ascii.eqb c "f" = false ∧ Ascii.eqb c "]" = false ∧ Ascii.eqb c "}" = false.
Proof.
  destruct c as [[] [] [] [] [] [] [] []]; intros [H|H];
    (vm_compute in H; discriminate) || (vm_compute; repeat split).
Qed.

Lemma stringify_head (v : json) :
  ∃ c r, stringify v = String c r ∧ is_json_ws c = false ∧
    Ascii.eqb c "]" = false ∧ Ascii.eqb c "}" = false.
Proof.
  destruct v as [| [] | z | s | [|x l] | [|[k x] l]]; try by do 2 eexists.
  destruct (JsNumber.number_to_string_head z) as (c & r & Hs & Hc). apply number_head in Hc.
  exists c, r. simpl. rewrite Hs. naive_solver.
Qed.

Lemma parse_value_number (f : nat) (c : ascii) (r : string) :
  JsNumber.is_digit c = true ∨ c = "-"%char →
  parse_value (S f) (String c r) =
  match JsNumber.parse_number (String c r) with Some (x, r') => Some (JNum x, r') | None => None end.
Proof.
  intros (Hws & H1 & H2 & H3 & H4 & H5 & H6 & _)%number_head.
  cbn [parse_value skip_ws]. rewrite Hws, H1, H2, H3, H4, H5, H6. reflexivity.
Qed.

(** A value followed by a text that does not start with a digit is
    read back, with the text left over. *)
Definition parses_back (v : json) : Prop :=
  ∀ f t, json_wf v → jsize v ≤ f → JsNumber.no_number_head t →
  parse_value f (stringify v +:+ t) = Some (v, t).

Lemma parse_elems_back (l : list json) :
  Forall parses_back l → Forall json_wf l →
  ∀ f t, esize l ≤ f → parse_elems f (stringify_elems l +:+ t) = Some (l, t).
Proof.
  induction l as [|y l IH]; intros Hback Hwf f t Hf; destruct f as [|f]; simpl in Hf; try lia.
  - reflexivity.
  - apply Forall_cons in Hback as [Hy Hl]. apply Forall_cons in Hwf as [Wy Wl].
    simpl stringify_elems. rewrite string_app_cons, <- string_app_assoc.
    cbn [parse_elems skip_ws is_json_ws]. simpl.
    rewrite Hy; [|done|lia|].
    + rewrite IH; [done|done|done|lia].
    + destruct l; simpl; done.
Qed.

Lemma quote_app (k x : string) :
  quote k +:+ x = String quote_char (escape k +:+ String quote_char x).
Proof. unfold quote. rewrite string_app_cons, <- string_app_assoc. reflexivity. Qed.

Lemma parse_member_back (k : string) (y : json) (f : nat) (t : string) :
  parses_back y → json_wf y → 1 + jsize y ≤ f → JsNumber.no_number_head t →
  parse_member f (quote k +:+ String ":" (stringify y +:+ t)) = Some (k, y, t).
Proof.
  intros Hy Wy Hf Ht. destruct f as [|f]; [lia|].
  rewrite quote_app. cbn [parse_member skip_ws is_json_ws]. simpl.
  rewrite parse_str_quote. simpl. rewrite Hy; [done|done|lia|done].
Qed.

Lemma parse_members_back (l : list (string * json)) :
  Forall (λ kv, parses_back kv.2) l → Forall (λ kv, json_wf kv.2) l →
  ∀ acc f t, NoDup (acc.*1 ++ l.*1) → msize l ≤ f →
  parse_members f acc (stringify_members l +:+ t) = Some (acc ++ l, t).
Proof.
  induction l as [|[k y] l IH]; intros Hback Hwf acc f t Hnd Hf;
    destruct f as [|f]; simpl in Hf; try lia.
  - by rewrite app_nil_r.
  - apply Forall_cons in Hback as [Hy Hl]. apply Forall_cons in Hwf as [Wy Wl].
    simpl stringify_members. rewrite string_app_cons, <- !string_app_assoc, string_app_cons.
    rewrite <- !string_app_assoc.
    cbn [parse_members skip_ws is_json_ws]. simpl.
    rewrite parse_member_back; [|done|done|lia|destruct l as [|[]]; done].
    rewrite fmap_cons in Hnd.
    rewrite JsObject.set_fresh.
    + rewrite IH; [by rewrite <- app_assoc|done|done| |lia].
      by rewrite fmap_app, <- app_assoc.
    + intros Hk. apply NoDup_app in Hnd as (_ & Hdis & _).
      apply (Hdis k Hk). by left.
Qed.

Lemma jsize_pos (v : json) : 1 ≤ jsize v.
Proof. destruct v as [| | | | [|? ?] | [|[? ?] ?]]; simpl; lia. Qed.

(** Every value with distinct object keys is parsed back from its
    printed form, whatever follows it (unless it is a digit). *)
Lemma parse_stringify (v : json) : parses_back v.
Proof.
  induction v as [ | b | z | s | l IH | l IH] using json_ind'; intros f t Hwf Hf Ht;
    (destruct f as [|f];
      [match goal with H : jsize ?w ≤ 0 |- _ => pose proof (jsize_pos w); lia end|]).
  - reflexivity.
  - by destruct b.
  - destruct (JsNumber.number_to_string_head z) as (c & r & Hs & Hc).
    simpl stringify. rewrite Hs, string_app_cons, parse_value_number by done.
    rewrite <- string_app_cons, <- Hs, JsNumber.parse_number_to_string by done. done.
  - simpl stringify. rewrite quote_app. cbn [parse_value skip_ws is_json_ws]. simpl.
    by rewrite parse_str_quote.
  - destruct l as [|x l]; [reflexivity|].
    apply json_wf_arr, Forall_cons in Hwf as [Wx Wl]. apply Forall_cons in IH as [Hx Hl].
    rewrite jsize_arr in Hf. rewrite stringify_arr, string_app_cons, <- string_app_assoc.
    destruct (stringify_head x) as (c & r & Hs & Hws & Hc & _).
    cbn [parse_value skip_ws is_json_ws]. simpl.
    rewrite Hs, string_app_cons. simpl. rewrite Hws, Hc.
    rewrite <- string_app_cons, <- Hs, Hx; [|done|lia|destruct l; done].
    rewrite parse_elems_back; [done|done|done|lia].
  - destruct l as [|[k x] l]; [reflexivity|].
    apply json_wf_obj in Hwf as [Hnd Wl]. apply Forall_cons in Wl as [Wx Wl].
    apply Forall_cons in IH as [Hx Hl].
    rewrite jsize_obj in Hf. rewrite stringify_obj, string_app_cons, <- !string_app_assoc.
    rewrite string_app_cons, quote_app.
    cbn [parse_value skip_ws is_json_ws]. simpl.
    rewrite <- string_app_assoc, <- quote_app.
    rewrite parse_member_back; [|done|done|lia|destruct l as [|[]]; done].
    rewrite parse_members_back; [done|done|done| |lia].
    by rewrite fmap_cons in Hnd.
Qed.

(** The printed text is long enough to serve as the parser's fuel. *)
Lemma esize_le (l : list json) :
  Forall (λ v, jsize v ≤ String.length (stringify v)) l →
  esize l ≤ String.length (stringify_elems l).
Proof.
  induction l as [|y l IH]; simpl; [lia|].
  intros [Hy Hl]%Forall_cons. rewrite string_length_app. specialize (IH Hl). lia.
Qed.

Lemma msize_le (l : list (string * json)) :
  Forall (λ kv, jsize kv.2 ≤ String.length (stringify kv.2)) l →
  msize l ≤ String.length (stringify_members l).
Proof.
  induction l as [|[k y] l IH]; simpl; [lia|].
  intros [Hy Hl]%Forall_cons. rewrite !string_length_app. simpl.
  rewrite string_length_app. specialize (IH Hl). simpl in Hy. lia.
Qed.

Lemma jsize_le_length (v : json) : jsize v ≤ String.length (stringify v).
Proof.
  induction v as [ | b | z | s | l IH | l IH] using json_ind'.
  - simpl; lia.
  - destruct b; simpl; lia.
  - destruct (JsNumber.number_to_string_head z) as (c & r & Hs & _). simpl. rewrite Hs. simpl. lia.
  - simpl. lia.
  - destruct l as [|x l]; [simpl; lia|]. apply Forall_cons in IH as [Hx Hl].
    rewrite jsize_arr, stringify_arr. simpl. rewrite string_length_app.
    pose proof (esize_le l Hl). lia.
  - destruct l as [|[k x] l]; [simpl; lia|]. apply Forall_cons in IH as [Hx Hl].
    rewrite jsize_obj, stringify_obj. simpl. rewrite !string_length_app. simpl.
    rewrite string_length_app. pose proof (msize_le l Hl). simpl in Hx. lia.
Qed.

(** C4. Round trip: [JSON.parse(JSON.stringify(v))] gives [v] back for every
    value whose objects have distinct keys and whose numbers are integers
    or fractions in lowest terms. *)
Theorem JSON_parse_stringify (v : json) : json_wf v → JSON_parse (stringify v) = Some v.
Proof.
  intros Hwf. unfold JSON_parse.
  pose proof (parse_stringify v (String.length (stringify v)) "" Hwf (jsize_le_length v) I)
    as H.
  rewrite string_app_nil_r in H. by rewrite H.
Qed.

(** ** What the parser returns has distinct object keys *)

Lemma parse_wf (f : nat) :
  (∀ s v r, parse_value f s = Some (v, r) → json_wf v) ∧
  (∀ s l r, parse_elems f s = Some (l, r) → Forall json_wf l) ∧
  (∀ s k v r, parse_member f s = Some (k, v, r) → json_wf v) ∧
  (∀ acc s o r, NoDup acc.*1 → Forall (λ kv, json_wf kv.2) acc →
     parse_members f acc s = Some (o, r) → NoDup o.*1 ∧ Forall (λ kv, json_wf kv.2) o).
Proof.
  induction f as [|f (IHv & IHe & IHm & IHms)]; [split_and!; done|].
  split_and!.
  - intros s v r H. cbn [parse_value] in H.
    repeat case_match; simplify_eq/=; try done.
    all: try (by eapply JsNumber.parse_number_wf).
    all: try (split; [constructor | done]).
    + split; [by eapply IHv|]. apply (proj2 (json_wf_arr l)). by eapply IHe.
    + apply (proj2 (json_wf_obj _)). eapply IHms; [| |done].
      * apply NoDup_singleton.
      * constructor; [by eapply IHm | constructor].
  - intros s l r H. cbn [parse_elems] in H.
    repeat case_match; simplify_eq/=; try done.
    constructor; [by eapply IHv | by eapply IHe].
  - intros s k v r H. cbn [parse_member] in H.
    repeat case_match; simplify_eq/=; try done. by eapply IHv.
  - intros acc s o r Hnd Hacc H. cbn [parse_members] in H.
    repeat case_match; simplify_eq/=; try done.
    eapply IHms; [| |done].
    + by apply (JsObject.set_wf acc).
    + apply JsObject.set_Forall; [done|]. by eapply IHm.
Qed.

Lemma JSON_parse_wf (s : string) (v : json) : JSON_parse s = Some v → json_wf v.
Proof.
  unfold JSON_parse. destruct (parse_value _ s) as [[v' r]|] eqn:E; [|done].
  case_match; [|done]. intros [= <-]. by eapply (proj1 (parse_wf _)).
Qed.

(** ** Fuel adequacy

    Every parser consumes at least one character before it recurses
    ([parse_length]), so fuel at least the length of the text is never
    exhausted: two such fuels give the same result ([parse_fuel]). *)

Lemma skip_ws_length (s : string) : String.length (skip_ws s) ≤ String.length s.
Proof. induction s as [|c s IH]; simpl; [lia|]. destruct (is_json_ws c); simpl; lia. Qed.

Lemma cons_char_Some (c : ascii) (o : option (string * string)) (str r : string) :
  cons_char c o = Some (str, r) → ∃ str', o = Some (str', r).
Proof. destruct o as [[??]|]; simpl; intros; simplify_eq; eauto. Qed.

Lemma parse_str_length (n : nat) : ∀ s str r,
  String.length s ≤ n → parse_str s = Some (str, r) → String.length r < String.length s.
Proof.
  induction n as [|n IH]; intros [|c s1] str r Hl H; simpl in *; try lia; try done.
  repeat case_match; simplify_eq; simpl in *; try lia;
  match goal with
  | H : cons_char _ _ = Some _ |- _ => apply cons_char_Some in H as [? H]; apply IH in H; simpl in *; lia
  end.
Qed.

Lemma parse_length (f : nat) :
  (∀ s v r, parse_value f s = Some (v, r) → String.length r < String.length s) ∧
  (∀ s l r, parse_elems f s = Some (l, r) → String.length r < String.length s) ∧
  (∀ s k v r, parse_member f s = Some (k, v, r) → String.length r < String.length s) ∧
  (∀ acc s o r, parse_members f acc s = Some (o, r) → String.length r < String.length s).
Proof.
  induction f as [|f (IHv & IHe & IHm & IHms)]; [split_and!; done|].
  split_and!; intros *; cbn [parse_value parse_elems parse_member parse_members]; pose proof (skip_ws_length s) as Hs;
    destruct (skip_ws s) as [|c r0]; try done; simpl in Hs;
    intros H; repeat case_match; simplify_eq;
    repeat match goal with
    | H : parse_value f _ = Some (_, _) |- _ => apply IHv in H
    | H : parse_elems f _ = Some (_, _) |- _ => apply IHe in H
    | H : parse_member f _ = Some (_, _, _) |- _ => apply IHm in H
    | H : parse_members f _ _ = Some (_, _) |- _ => apply IHms in H
    | H : parse_str _ = Some (_, _) |- _ => apply (parse_str_length _ _ _ _ (le_n _)) in H
    | H : JsNumber.parse_number _ = Some (_, _) |- _ => apply JsNumber.parse_number_length in H
    | H : skip_ws ?t = String _ _ |- _ =>
        let Hl := fresh in pose proof (skip_ws_length t) as Hl; rewrite H in Hl; clear H
    end; simpl in *; lia.
Qed.

Ltac length_facts :=
  repeat match goal with
  | H : parse_value _ _ = Some (_, _) |- _ => apply (proj1 (parse_length _)) in H
  | H : parse_elems _ _ = Some (_, _) |- _ => apply (proj1 (proj2 (parse_length _))) in H
  | H : parse_member _ _ = Some (_, _, _) |- _ => apply (proj1 (proj2 (proj2 (parse_length _)))) in H
  | H : parse_members _ _ _ = Some (_, _) |- _ => apply (proj2 (proj2 (proj2 (parse_length _)))) in H
  | H : parse_str _ = Some (_, _) |- _ => apply (parse_str_length _ _ _ _ (le_n _)) in H
  | H : skip_ws ?t = String _ _ |- _ =>
      let Hl := fresh in pose proof (skip_ws_length t) as Hl; rewrite H in Hl; clear H
  end; simpl in *.

Definition fuel_ok {A : Type} (p : nat → string → A) (f1 : nat) : Prop :=
  ∀ f2 s, String.length s ≤ f1 → String.length s ≤ f2 → p f1 s = p f2 s.

Section FuelStep.
Context (f1 f2 : nat).
Hypothesis IHv : fuel_ok parse_value f1.
Hypothesis IHe : fuel_ok parse_elems f1.
Hypothesis IHm : fuel_ok parse_member f1.
Hypothesis IHms : ∀ acc, fuel_ok (λ f, parse_members f acc) f1.

Lemma parse_value_fuel_step (s : string) :
  String.length s ≤ S f1 → String.length s ≤ S f2 → parse_value (S f1) s = parse_value (S f2) s.
Proof.
  intros H1 H2. cbn [parse_value].
  pose proof (skip_ws_length s) as Hs; destruct (skip_ws s) as [|c r0]; try done; simpl in Hs.
  destruct (Ascii.eqb c "[").
  { destruct (skip_ws r0) as [|c' r']; [done|]. destruct (Ascii.eqb c' "]"); [done|].
    rewrite (IHv f2) by lia. destruct (parse_value f2 r0) as [[x r1]|] eqn:E; [|done].
    length_facts. rewrite (IHe f2) by lia. done. }
  destruct (Ascii.eqb c "{"); [|done].
  destruct (skip_ws r0) as [|c' r']; [done|]. destruct (Ascii.eqb c' "}"); [done|].
  rewrite (IHm f2) by lia. destruct (parse_member f2 r0) as [[[k x] r1]|] eqn:E; [|done].
  length_facts. rewrite (IHms _ f2) by lia. done.
Qed.

Lemma parse_elems_fuel_step (s : string) :
  String.length s ≤ S f1 → String.length s ≤ S f2 → parse_elems (S f1) s = parse_elems (S f2) s.
Proof.
  intros H1 H2. cbn [parse_elems].
  pose proof (skip_ws_length s) as Hs; destruct (skip_ws s) as [|c r0]; try done; simpl in Hs.
  destruct (Ascii.eqb c "]"); [done|]. destruct (Ascii.eqb c ","); [|done].
  rewrite (IHv f2) by lia. destruct (parse_value f2 r0) as [[x r1]|] eqn:E; [|done].
  length_facts. rewrite (IHe f2) by lia. done.
Qed.

Lemma parse_member_fuel_step (s : string) :
  String.length s ≤ S f1 → String.length s ≤ S f2 → parse_member (S f1) s = parse_member (S f2) s.
Proof.
  intros H1 H2. cbn [parse_member].
  pose proof (skip_ws_length s) as Hs; destruct (skip_ws s) as [|c r0]; try done; simpl in Hs.
  destruct (Ascii.eqb c quote_char); [|done].
  destruct (parse_str r0) as [[k r1]|] eqn:E; [|done]. length_facts.
  pose proof (skip_ws_length r1) as Hr. destruct (skip_ws r1) as [|c' r2]; [done|]. simpl in Hr.
  destruct (Ascii.eqb c' ":") eqn:Ec.
  - apply Ascii.eqb_eq in Ec as ->. rewrite (IHv f2) by lia. done.
  - destruct c' as [[] [] [] [] [] [] [] []]; done.
Qed.

Lemma parse_members_fuel_step (acc : list (string * json)) (s : string) :
  String.length s ≤ S f1 → String.length s ≤ S f2 →
  parse_members (S f1) acc s = parse_members (S f2) acc s.
Proof.
  intros H1 H2. cbn [parse_members].
  pose proof (skip_ws_length s) as Hs; destruct (skip_ws s) as [|c r0]; try done; simpl in Hs.
  destruct (Ascii.eqb c "}"); [done|]. destruct (Ascii.eqb c ","); [|done].
  rewrite (IHm f2) by lia. destruct (parse_member f2 r0) as [[[k x] r1]|] eqn:E; [|done].
  length_facts. apply (IHms _ f2); lia.
Qed.
End FuelStep.

Lemma fuel_zero {A : Type} (p : nat → string → A) :
  (∀ f, p f "" = p 0 "") → fuel_ok p 0.
Proof. intros Hp f2 [|c s] H1 H2; [by rewrite (Hp f2) | simpl in H1; lia]. Qed.

Lemma parse_fuel (f1 : nat) :
  fuel_ok parse_value f1 ∧ fuel_ok parse_elems f1 ∧ fuel_ok parse_member f1 ∧
  ∀ acc, fuel_ok (λ f, parse_members f acc) f1.
Proof.
  induction f1 as [|f1 (IHv & IHe & IHm & IHms)].
  { split_and!; [..| intros acc]; apply fuel_zero; intros []; reflexivity. }
  split_and!; [..| intros acc]; intros [|f2] s H1 H2;
    try (destruct s; simpl in H2; [done | lia]).
  - by apply parse_value_fuel_step.
  - by apply parse_elems_fuel_step.
  - by apply parse_member_fuel_step.
  - by apply parse_members_fuel_step.
Qed.

(** Fuel adequacy: [JSON_parse] runs the parser with fuel equal to
    the length of the text, and any larger fuel gives the same answer, so
    running out of fuel never rejects a text that more fuel would parse:
    [JSON_parse] is the unbounded recursive descent. *)
Theorem JSON_parse_fuel (s : string) (f : nat) :
  String.length s ≤ f →
  JSON_parse s = match parse_value f s with
                 | Some (v, r) => if String.eqb (skip_ws r) "" then Some v else None
                 | None => None
                 end.
Proof. intros H. unfold JSON_parse. by rewrite ((proj1 (parse_fuel _)) f). Qed.

(** ** Witnesses *)

Definition demo_json : json :=
  JObj [("r1", JArr [JObj [("id", JNum (JsNumber.NInt 1700000000000)); ("user", JStr "Asha");
                          ("stars", JNum (JsNumber.NInt 4)); ("text", JStr (String quote_char "hi"))]]);
        ("n", JArr [JNum (JsNumber.NInt (-3)); JNum (JsNumber.NDec 45 (-1));
                    JNum (JsNumber.NInt (10 ^ 22)); JNull; JBool true])].

Lemma JSON_parse_stringify_witness :
  json_wf demo_json ∧ JSON_parse (stringify demo_json) = Some demo_json.
Proof.
  assert (H : json_wf demo_json).
  { vm_compute. split_and!; try done; apply (bool_decide_unpack _); vm_compute; reflexivity. }
  split; [exact H | exact (JSON_parse_stringify _ H)].
Defined.

Lemma JSON_parse_fuel_witness :
  String.length "[1, {}]" ≤ 100 ∧
  JSON_parse "[1, {}]" = match parse_value 100 "[1, {}]" with
                         | Some (v, r) => if String.eqb (skip_ws r) "" then Some v else None
                         | None => None
                         end.
Proof.
  assert (H : String.length "[1, {}]" ≤ 100) by (simpl; lia).
  split; [exact H | exact (JSON_parse_fuel _ _ H)].
Defined.

End Json.
