(* ===== verification/Storage.v ===== *)
(** * Storage: localStorage, [loadLocal] and [saveLocal] (App.jsx 62-66)

    localStorage maps keys to strings.  [loadLocal(key, fallback)]
    parses the stored text, falling back when the key is absent
    ([getItem] returns [null], which [JSON.parse] reads as [null]), when
    the text is not JSON (the [catch]) or when it is the JSON [null]
    (the [??]).  [saveLocal(key, val)] stores [JSON.stringify(val)].

    The three stores of [App] are persisted through the interface
    [Persisted]: a key, the fallback the code passes to [loadLocal], the
    JSON value [JSON.stringify] sees for a store value, and how [App]
    reads a JSON value back as a store value.  The code itself does not
    check the shape of what it loads; [p_decode] returning [None] marks
    the data the model does not cover (see the finding on corrupt data).
    [PersistedLaws] states what the instances promise, and
    [load_save] (a restart after a save gives the value back) is proved
    once against it. *)

From S2P Require Import Prelude JsObject JsNumber Json Session Reviews.
Import Json Session Reviews.

Module Storage.

Abbreviation LocalStorage := (gmap string string) (only parsing).

(** [localStorage.getItem(key)] and [localStorage.setItem(key, text)]. *)
Definition getItem (ls : LocalStorage) (key : string) : option string := ls !! key.
Definition setItem (ls : LocalStorage) (key text : string) : LocalStorage := <[key := text]> ls.

(** [try { return JSON.parse(localStorage.getItem(key)) ?? fallback }
     catch { return fallback }] *)
Definition loadLocal (ls : LocalStorage) (key : string) (fallback : json) : json :=
  let text := match getItem ls key with Some t => t | None => "null" end in
  match JSON_parse text with
  | None => fallback
  | Some JNull => fallback
  | Some v => v
  end.

(** [localStorage.setItem(key, JSON.stringify(val))] *)
Definition saveLocal (ls : LocalStorage) (key : string) (val : json) : LocalStorage :=
  setItem ls key (stringify val).

(** ** The persisted stores *)

Class Persisted (A : Type) := {
  p_key : string;
  p_fallback : json;
  p_encode : A → json;
  p_decode : json → option A
}.

Class PersistedLaws (A : Type) `{Persisted A} := {
  p_valid : A → Prop;
  p_decode_encode a : p_decode (p_encode a) = Some a;
  p_encode_wf a : p_valid a → json_wf (p_encode a);
  p_null a : p_encode a = JNull → p_fallback = JNull
}.

(** Decoding every element of an array. *)
Fixpoint decode_all {A} (d : json → option A) (l : list json) : option (list A) :=
  match l with
  | [] => Some []
  | x :: l' =>
      match d x, decode_all d l' with
      | Some a, Some la => Some (a :: la)
      | _, _ => None
      end
  end.

Lemma decode_all_map {A} (d : json → option A) (e : A → json) (l : list A) :
  (∀ a, d (e a) = Some a) → decode_all d (e <$> l) = Some l.
Proof. intros He. induction l as [|a l IH]; [done|]. rewrite fmap_cons. cbn [decode_all]. by rewrite He, IH. Qed.

(** The bookmarks: an array of strings under [nom_bookmarks]. *)
Definition decode_string (v : json) : option string :=
  match v with JStr s => Some s | _ => None end.

#[export] Instance bookmarks_persisted : Persisted (list string) := {|
  p_key := "nom_bookmarks";
  p_fallback := JArr [];
  p_encode l := JArr (JStr <$> l);
  p_decode v := match v with JArr l => decode_all decode_string l | _ => None end
|}.

(** The session: [null] or [{ name, email }] under [nom_user]. *)
Definition encode_user (u : option User) : json :=
  match u with
  | None => JNull
  | Some u => JObj [("name", JStr (name u)); ("email", JStr (email u))]
  end.

Definition decode_user (v : json) : option (option User) :=
  match v with
  | JNull => Some None
  | JObj o =>
      match JsObject.get o "name", JsObject.get o "email" with
      | Some (JStr n), Some (JStr e) => Some (Some (mkUser n e))
      | _, _ => None
      end
  | _ => None
  end.

#[export] Instance user_persisted : Persisted (option User) := {|
  p_key := "nom_user";
  p_fallback := JNull;
  p_encode := encode_user;
  p_decode := decode_user
|}.

(** The reviews: an object of arrays of review objects under
    [nom_reviews]; the fields in the order of the literal at line 300. *)
Definition encode_review (rv : Review) : json :=
  JObj [("id", JNum (JsNumber.NInt (Reviews.id rv))); ("user", JStr (user rv));
        ("stars", JNum (JsNumber.NInt (Z.of_nat (stars rv)))); ("text", JStr (text rv));
        ("date", JStr (date rv))].

Definition decode_review (v : json) : option Review :=
  match v with
  | JObj o =>
      match JsObject.get o "id", JsObject.get o "user", JsObject.get o "stars",
            JsObject.get o "text", JsObject.get o "date" with
      | Some (JNum (JsNumber.NInt i)), Some (JStr u), Some (JNum (JsNumber.NInt st)), Some (JStr tx), Some (JStr d) =>
          if (0 <=? st)%Z then Some (mkReview i u (Z.to_nat st) tx d) else None
      | _, _, _, _, _ => None
      end
  | _ => None
  end.

Definition encode_reviews (m : ReviewMap) : json :=
  JObj ((λ kv : string * list Review, (kv.1, JArr (encode_review <$> kv.2))) <$> m).

Fixpoint decode_entries (o : list (string * json)) : option ReviewMap :=
  match o with
  | [] => Some []
  | (k, JArr l) :: o' =>
      match decode_all decode_review l, decode_entries o' with
      | Some rs, Some m => Some ((k, rs) :: m)
      | _, _ => None
      end
  | _ :: _ => None
  end.

#[export] Instance reviews_persisted : Persisted ReviewMap := {|
  p_key := "nom_reviews";
  p_fallback := JObj [];
  p_encode := encode_reviews;
  p_decode v := match v with JObj o => decode_entries o | _ => None end
|}.

(** ** loadLocal and saveLocal *)

(** An entry holding the text [JSON.stringify] wrote for [v]. *)
Lemma loadLocal_stringify (ls : LocalStorage) (key : string) (v fallback : json) :
  json_wf v → ls !! key = Some (stringify v) →
  loadLocal ls key fallback = match v with JNull => fallback | _ => v end.
Proof.
  intros Hwf Hk. unfold loadLocal, getItem, JSON_parse. rewrite Hk. cbn zeta.
  pose proof (parse_stringify v (String.length (stringify v)) "" Hwf (jsize_le_length v) I)
    as Hp.
  rewrite string_app_nil_r in Hp. rewrite Hp. by destruct v.
Qed.

(** C15. [loadLocal] reads back every JSON value [saveLocal] stored, of
    whatever shape: only a stored [null] gives the fallback ([??]), so
    an entry of the wrong shape (a number where an array is expected)
    reaches the state unchecked, and falsy values ([0], [""], [false])
    are kept. *)
Lemma loadLocal_saveLocal (ls : LocalStorage) (key : string) (v fallback : json) :
  json_wf v →
  loadLocal (saveLocal ls key v) key fallback = match v with JNull => fallback | _ => v end.
Proof.
  intros Hwf. apply loadLocal_stringify; [done|].
  unfold saveLocal, setItem. apply lookup_insert_eq.
Qed.

(** An absent key gives the fallback ([JSON.parse(null)] is [null]). *)
Lemma loadLocal_absent (ls : LocalStorage) (key : string) (fallback : json) :
  ls !! key = None → loadLocal ls key fallback = fallback.
Proof. intros H. unfold loadLocal, getItem. by rewrite H. Qed.

(** Text that is not JSON gives the fallback ([JSON.parse] throws). *)
Lemma loadLocal_corrupt (ls : LocalStorage) (key t : string) (fallback : json) :
  ls !! key = Some t → JSON_parse t = None → loadLocal ls key fallback = fallback.
Proof. intros H Ht. unfold loadLocal, getItem. by rewrite H, Ht. Qed.

Lemma loadLocal_other (ls : LocalStorage) (key key' : string) (v fallback : json) :
  key ≠ key' → loadLocal (saveLocal ls key v) key' fallback = loadLocal ls key' fallback.
Proof.
  intros Hne. unfold loadLocal, saveLocal, getItem, setItem. by rewrite lookup_insert_ne.
Qed.

(** What [loadLocal] returns has distinct object keys. *)
Lemma loadLocal_wf (ls : LocalStorage) (key : string) (fallback : json) :
  json_wf fallback → json_wf (loadLocal ls key fallback).
Proof.
  intros Hf. unfold loadLocal. destruct (JSON_parse _) as [v|] eqn:E; [|done].
  pose proof (JSON_parse_wf _ _ E). by destruct v.
Qed.

(** An entry that is absent or does not parse. *)
Definition unreadable (ls : LocalStorage) (key : string) : Prop :=
  match getItem ls key with Some t => JSON_parse t = None | None => True end.

Lemma loadLocal_unreadable (ls : LocalStorage) (key : string) (fallback : json) :
  unreadable ls key → loadLocal ls key fallback = fallback.
Proof.
  unfold unreadable, loadLocal. destruct (getItem ls key) as [t|]; [by intros -> | done].
Qed.

Section Laws.
Context {A : Type} `{PersistedLaws A}.

(** A restart after saving a store reads the same store back. *)
Lemma load_save (ls : LocalStorage) (a : A) :
  p_valid a → p_decode (loadLocal (saveLocal ls p_key (p_encode a)) p_key p_fallback) = Some a.
Proof.
  intros Hv. rewrite (loadLocal_stringify _ _ (p_encode a)) by
    (by apply p_encode_wf) || (unfold saveLocal, setItem; apply lookup_insert_eq).
  destruct (p_encode a) eqn:E; rewrite <- ?E, ?p_decode_encode; try done.
  rewrite (p_null a E), <- E. apply p_decode_encode.
Qed.
End Laws.

(** ** The laws of the three stores *)

#[export] Instance bookmarks_laws : PersistedLaws (list string).
Proof.
  refine {| p_valid _ := True |}; simpl.
  - intros l. apply decode_all_map. done.
  - intros l _. apply json_wf_arr, Forall_fmap, Forall_true. done.
  - done.
Defined.

#[export] Instance user_laws : PersistedLaws (option User).
Proof.
  refine {| p_valid _ := True |}; simpl.
  - by intros [[n e]|].
  - intros [u|] _; simpl; [|done]. split; [|done].
    apply NoDup_cons. split; [set_solver | apply NoDup_singleton].
  - done.
Defined.

Lemma decode_review_encode (rv : Review) : decode_review (encode_review rv) = Some rv.
Proof.
  destruct rv as [i u st tx d]. simpl.
  destruct (Z.leb_spec 0 (Z.of_nat st)); [|lia]. by rewrite Nat2Z.id.
Qed.

Lemma encode_review_wf (rv : Review) : json_wf (encode_review rv).
Proof. simpl. split; [|done]. apply (bool_decide_unpack _). vm_compute. done. Qed.

#[export] Instance reviews_laws : PersistedLaws ReviewMap.
Proof.
  refine {| p_valid := JsObject.wf |}; simpl.
  - intros m. induction m as [|[k rs] m IH]; [done|].
    rewrite fmap_cons. cbn [decode_entries]. simpl.
    rewrite decode_all_map by apply decode_review_encode. by rewrite IH.
  - intros m Hwf. unfold encode_reviews. apply json_wf_obj. split.
    + rewrite <- list_fmap_compose. apply Hwf.
    + apply Forall_fmap, Forall_forall. intros [k rs] _. simpl.
      apply json_wf_arr, Forall_fmap, Forall_forall. intros rv _. apply encode_review_wf.
  - done.
Defined.

Lemma decode_entries_keys (o : list (string * json)) (m : ReviewMap) :
  decode_entries o = Some m → m.*1 = o.*1.
Proof.
  revert m. induction o as [|[k v] o IH]; intros m H; simpl in H; [by simplify_eq|].
  destruct v; try done. repeat case_match; simplify_eq. rewrite !fmap_cons. f_equal. by apply IH.
Qed.

(** A review map read from localStorage is a well-formed object. *)
Lemma hydrated_reviews_wf (ls : LocalStorage) (m : ReviewMap) :
  p_decode (A := ReviewMap) (loadLocal ls "nom_reviews" (JObj [])) = Some m → JsObject.wf m.
Proof.
  intros H. pose proof (loadLocal_wf ls "nom_reviews" (JObj [])) as Hwf.
  simpl in H. destruct (loadLocal ls "nom_reviews" (JObj [])); try done.
  destruct Hwf as [Hnd _]; [split; [constructor | done]|].
  unfold JsObject.wf. by rewrite (decode_entries_keys _ _ H).
Qed.

(** ** Witnesses *)

Lemma loadLocal_saveLocal_witness :
  json_wf (JNum (JsNumber.NInt 5)) ∧
  loadLocal (saveLocal ∅ "nom_bookmarks" (JNum (JsNumber.NInt 5))) "nom_bookmarks" (JArr []) =
    JNum (JsNumber.NInt 5).
Proof.
  assert (H : json_wf (JNum (JsNumber.NInt 5))) by exact I.
  split; [exact H | exact (loadLocal_saveLocal ∅ _ _ (JArr []) H)].
Defined.

End Storage.
