(* ===== verification/Components.v ===== *)
(** * Components: the JSX components of App.jsx and how [App] renders them

    [State] holds the hooks of [App] (tab, query, filtersOpen, active,
    user, reviews, bookmarks), the local state of the two components
    that have one ([RestaurantDetails] and [Login], [None] while they are
    not mounted), and localStorage.  [Event] has one constructor per
    handler of the JSX.

    Each component is a definition with the props of its JSX function:
    the callbacks [App] hands down are [Callback]s (the state after
    their setters and the persisted stores whose setter they called),
    and the component is an [Element]: for an event of one of its
    handlers, the callback that handler runs.  [Header] (lines
    168-193), [Hero] (195-212), [RestaurantCard] (223-251),
    [RestaurantDetails] (253-330), [Login] (332-348), [Modal] (350-362)
    and [TabBar] (364-375) are the components; [OpenFilters] and
    [FiltersPanel] are the buttons [App] writes inline (lines 121-124,
    150-159).  [elements] is the render of [App] (lines 99-165): the
    elements mounted in a state, each with the props [App] passes.
    [handle] delivers an event to the element that has a handler for
    it ([dispatch]); an event no mounted element handles does nothing.

    [handle_eq] states, event by event, what the composition does. *)

From S2P Require Import Prelude JsString Catalog Search Bookmarks JsObject Reviews Session JsDate Details Json Storage.
Import Session Details Json Storage.

Module Components.

(** The [tab] strings "home", "search", "details" and "login". *)
Inductive Tab := Home | SearchTab | DetailsTab | LoginTab.

#[export] Instance Tab_eq_dec : EqDecision Tab.
Proof. solve_decision. Defined.

Record State := mkState {
  tab : Tab;
  query : string;
  filtersOpen : bool;
  active : option string;
  user : option User;
  reviews : Reviews.ReviewMap;
  bookmarks : list string;
  details_form : option DetailsForm;
  login_form : option LoginForm;
  storage : LocalStorage
}.

(** The three persisted stores, as the effects name them. *)
Inductive Store := UserStore | ReviewsStore | BookmarksStore.

#[export] Instance Store_eq_dec : EqDecision Store.
Proof. solve_decision. Defined.

Inductive Event :=
(** Header (lines 168-193), always rendered *)
| HeaderQueryChange (q : string)
| HeaderQueryFocus
| HeaderFilters
| HeaderLogin
(** Hero "Explore now" (line 105), on the home tab *)
| HeroExplore
(** RestaurantCard "View details" and "Save" (lines 109-111, 127-129) *)
| CardOpen (rid : string)
| CardToggle (rid : string)
(** "Open filters" on the search tab (line 123) *)
| SearchOpenFilters
(** RestaurantDetails (lines 253-330) *)
| DetailsBack
| DetailsStar (i : nat)
| DetailsText (t : string)
| DetailsPost (now clock : Z)
(** Login (lines 332-348) *)
| LoginName (n : string)
| LoginEmail (e : string)
| LoginContinue
| LoginCancel
(** Modal backdrop and close button (lines 350-362) *)
| ModalClose
(** Cancel and Apply of the filters panel (lines 155-158) *)
| FiltersCancel
| FiltersApply
(** TabBar (lines 364-375), always rendered *)
| TabHome
| TabDiscover
| TabReview
| TabLogin.

(** ** Setters *)

Definition set_tab (t : Tab) (s : State) : State :=
  mkState t (query s) (filtersOpen s) (active s) (user s) (reviews s) (bookmarks s)
    (details_form s) (login_form s) (storage s).
Definition set_query (q : string) (s : State) : State :=
  mkState (tab s) q (filtersOpen s) (active s) (user s) (reviews s) (bookmarks s)
    (details_form s) (login_form s) (storage s).
Definition set_filtersOpen (b : bool) (s : State) : State :=
  mkState (tab s) (query s) b (active s) (user s) (reviews s) (bookmarks s)
    (details_form s) (login_form s) (storage s).
Definition set_active (a : option string) (s : State) : State :=
  mkState (tab s) (query s) (filtersOpen s) a (user s) (reviews s) (bookmarks s)
    (details_form s) (login_form s) (storage s).
Definition set_user (u : option User) (s : State) : State :=
  mkState (tab s) (query s) (filtersOpen s) (active s) u (reviews s) (bookmarks s)
    (details_form s) (login_form s) (storage s).
Definition set_reviews (m : Reviews.ReviewMap) (s : State) : State :=
  mkState (tab s) (query s) (filtersOpen s) (active s) (user s) m (bookmarks s)
    (details_form s) (login_form s) (storage s).
Definition set_bookmarks (b : list string) (s : State) : State :=
  mkState (tab s) (query s) (filtersOpen s) (active s) (user s) (reviews s) b
    (details_form s) (login_form s) (storage s).
Definition set_details_form (f : option DetailsForm) (s : State) : State :=
  mkState (tab s) (query s) (filtersOpen s) (active s) (user s) (reviews s) (bookmarks s)
    f (login_form s) (storage s).
Definition set_login_form (f : option LoginForm) (s : State) : State :=
  mkState (tab s) (query s) (filtersOpen s) (active s) (user s) (reviews s) (bookmarks s)
    (details_form s) f (storage s).
Definition set_storage (ls : LocalStorage) (s : State) : State :=
  mkState (tab s) (query s) (filtersOpen s) (active s) (user s) (reviews s) (bookmarks s)
    (details_form s) (login_form s) ls.

(** ** What is rendered *)

(** [{tab === "details" && active && ...}]: the empty id is falsy. *)
Definition details_rendered (s : State) : bool :=
  bool_decide (tab s = DetailsTab) &&
  match active s with Some a => negb (String.eqb a "") | None => false end.

Definition login_rendered (s : State) : bool := bool_decide (tab s = LoginTab).

(** The cards of the home and search tabs are those of [restaurants]. *)
Definition card_rendered (s : State) (rid : string) : bool :=
  bool_decide (tab s = Home ∨ tab s = SearchTab) &&
  bool_decide (rid ∈ Catalog.catalog_ids (Search.restaurants (query s))).

(** [openDetails] (lines 94-97). *)
Definition openDetails (rid : string) (s : State) : State :=
  set_tab DetailsTab (set_active (Some rid) s).

(** ** The components *)

(** A callback of [App] passed down as a prop: the state after its
    setters, and the persisted stores whose setter it called. *)
Definition Callback : Type := State → State * list Store.

(** A mounted element: the callback its handler for the event runs, if
    it has one. *)
Definition Element : Type := Event → option Callback.

(** [f(); g()]: two callbacks one after the other. *)
Definition then_cb (f g : Callback) : Callback :=
  λ s, let '(s1, d1) := f s in let '(s2, d2) := g s1 in (s2, d1 ++ d2).

(** The setters of [App]'s hooks (lines 69-75). *)
Definition setTab (t : Tab) : Callback := λ s, (set_tab t s, []).
Definition setQuery (q : string) : Callback := λ s, (set_query q s, []).
Definition setFiltersOpen (b : bool) : Callback := λ s, (set_filtersOpen b s, []).
Definition setUser (u : option User) : Callback := λ s, (set_user u s, [UserStore]).
Definition setReviews (f : Reviews.ReviewMap → Reviews.ReviewMap) : Callback :=
  λ s, (set_reviews (f (reviews s)) s, [ReviewsStore]).
Definition setBookmarks (f : list string → list string) : Callback :=
  λ s, (set_bookmarks (f (bookmarks s)) s, [BookmarksStore]).

(** [Header({ query, setQuery, setTab, setFiltersOpen })]. *)
Definition Header (setQuery : string → Callback) (setTab : Tab → Callback)
    (setFiltersOpen : bool → Callback) : Element :=
  λ e, match e with
       | HeaderQueryChange q => Some (setQuery q)
       | HeaderQueryFocus => Some (setTab SearchTab)
       | HeaderFilters => Some (setFiltersOpen true)
       | HeaderLogin => Some (setTab LoginTab)
       | _ => None
       end.

(** [Hero({ onExplore })]: "Explore now"; "Add a review" has no handler. *)
Definition Hero (onExplore : Callback) : Element :=
  λ e, match e with HeroExplore => Some onExplore | _ => None end.

(** [RestaurantCard({ r, onOpen, bookmarked, toggleBookmark })]: "View
    details" and "Save"; "Add photo" has no handler. *)
Definition RestaurantCard (r : Catalog.Restaurant) (onOpen : Callback) (bookmarked : bool)
    (toggleBookmark : Callback) : Element :=
  λ e, match e with
       | CardOpen rid => if String.eqb rid (Catalog.id r) then Some onOpen else None
       | CardToggle rid => if String.eqb rid (Catalog.id r) then Some toggleBookmark else None
       | _ => None
       end.

(** [RestaurantDetails({ r, onBack, user, reviews, onAddReview })] with
    its local state [f] ([text], [stars]) and its setter. *)
Definition RestaurantDetails (onBack : Callback) (user : option User)
    (onAddReview : Reviews.Review → Callback) (f : DetailsForm)
    (setForm : DetailsForm → Callback) : Element :=
  λ e, match e with
       | DetailsBack => Some onBack
       | DetailsStar i => setForm <$> setStars i f
       | DetailsText t => setForm <$> setText user t f
       | DetailsPost now clock =>
           match post_review user f now clock with
           | Some (rv, f') => Some (then_cb (onAddReview rv) (setForm f'))
           | None => None
           end
       | _ => None
       end.

(** [Login({ onLogin, onCancel })] with its local state [f] ([name],
    [email]) and its setter. *)
Definition Login (onLogin : User → Callback) (onCancel : Callback) (f : LoginForm)
    (setForm : LoginForm → Callback) : Element :=
  λ e, match e with
       | LoginName n => Some (setForm (setName n f))
       | LoginEmail em => Some (setForm (setEmail em f))
       | LoginContinue => Some (onLogin (login_user f))
       | LoginCancel => Some onCancel
       | _ => None
       end.

(** [Modal({ children, onClose })]: the backdrop and the close button. *)
Definition Modal (onClose : Callback) : Element :=
  λ e, match e with ModalClose => Some onClose | _ => None end.

(** The content of the filters modal: Cancel and Apply both close it. *)
Definition FiltersPanel (setFiltersOpen : bool → Callback) : Element :=
  λ e, match e with
       | FiltersCancel | FiltersApply => Some (setFiltersOpen false)
       | _ => None
       end.

(** "Open filters" on the search tab. *)
Definition OpenFilters (setFiltersOpen : bool → Callback) : Element :=
  λ e, match e with SearchOpenFilters => Some (setFiltersOpen true) | _ => None end.

(** [TabBar({ setTab })]: the four [TabButton]s. *)
Definition TabBar (setTab : Tab → Callback) : Element :=
  λ e, match e with
       | TabHome => Some (setTab Home)
       | TabDiscover => Some (setTab SearchTab)
       | TabReview => Some (setTab DetailsTab)
       | TabLogin => Some (setTab LoginTab)
       | _ => None
       end.

(** ** The render of [App] *)

(** [restaurants.map(r => <RestaurantCard ... />)] (lines 108-113, 126-131). *)
Definition cards (s : State) : list Element :=
  (λ r, RestaurantCard r (λ s', (openDetails (Catalog.id r) s', []))
          (Bookmarks.bookmarked (bookmarks s) (Catalog.id r))
          (setBookmarks (Bookmarks.toggleBookmark (Catalog.id r))))
    <$> Search.restaurants (query s).

(** The screen of the active tab (lines 103-148): [{tab === "home" &&
    ...}], [{tab === "search" && ...}], [{tab === "details" && active &&
    ...}] and [{tab === "login" && ...}]. *)
Definition page (s : State) : list Element :=
  match tab s with
  | Home => Hero (setTab SearchTab) :: cards s
  | SearchTab => OpenFilters setFiltersOpen :: cards s
  | DetailsTab =>
      match active s, details_form s with
      | Some a, Some f =>
          if details_rendered s then
            [RestaurantDetails (setTab Home) (user s)
               (λ rev, setReviews (Reviews.addReview a rev)) f
               (λ f' s', (set_details_form (Some f') s', []))]
          else []
      | _, _ => []
      end
  | LoginTab =>
      match login_form s with
      | Some f =>
          [Login (λ u, then_cb (setUser (Some u)) (setTab Home)) (setTab Home) f
             (λ f' s', (set_login_form (Some f') s', []))]
      | None => []
      end
  end.

(** [{filtersOpen && <Modal ...>}] (lines 150-161). *)
Definition overlay (s : State) : list Element :=
  if filtersOpen s then [Modal (setFiltersOpen false); FiltersPanel setFiltersOpen] else [].

(** The elements [App] renders in [s] (lines 99-165), with the props it
    passes. *)
Definition elements (s : State) : list Element :=
  Header setQuery setTab setFiltersOpen :: page s ++ overlay s ++ [TabBar setTab].

(** The events of the screens and of the overlay. *)
Definition page_event (e : Event) : bool :=
  match e with
  | HeroExplore | CardOpen _ | CardToggle _ | SearchOpenFilters | DetailsBack | DetailsStar _
  | DetailsText _ | DetailsPost _ _ | LoginName _ | LoginEmail _ | LoginContinue | LoginCancel => true
  | _ => false
  end.

Definition overlay_event (e : Event) : bool :=
  match e with ModalClose | FiltersCancel | FiltersApply => true | _ => false end.

(** The handler of the first mounted element that has one for [e]. *)
Fixpoint dispatch (e : Event) (els : list Element) : option Callback :=
  match els with
  | [] => None
  | el :: els' => match el e with Some cb => Some cb | None => dispatch e els' end
  end.

(** The state after the handler's setters, and the persisted stores it
    set; [None] when no mounted element handles the event (it is not
    rendered, or disabled). *)
Definition handle (s : State) (e : Event) : option (State * list Store) :=
  match dispatch e (elements s) with Some cb => Some (cb s) | None => None end.

(** ** What the composition does, event by event *)

Lemma dispatch_app (e : Event) (l1 l2 : list Element) :
  dispatch e (l1 ++ l2) = match dispatch e l1 with Some cb => Some cb | None => dispatch e l2 end.
Proof. induction l1 as [|el l1 IH]; simpl; [done|]. by destruct (el e). Qed.

(** The card of [rid], if [restaurants] has it, handles its two buttons. *)
Lemma dispatch_cards_card (s : State) (e : Event) (rid : string) (cb : Callback) :
  (e = CardOpen rid ∧ cb = (λ s', (openDetails rid s', [])) ∨
   e = CardToggle rid ∧ cb = setBookmarks (Bookmarks.toggleBookmark rid)) →
  dispatch e (cards s) =
  if bool_decide (rid ∈ Catalog.catalog_ids (Search.restaurants (query s))) then Some cb else None.
Proof.
  intros He. unfold cards, Catalog.catalog_ids.
  induction (Search.restaurants (query s)) as [|r l IH].
  - rewrite !fmap_nil. cbn [dispatch]. rewrite bool_decide_false; [done | apply not_elem_of_nil].
  - rewrite !fmap_cons. cbn [dispatch]. rewrite IH. destruct He as [[-> ->]|[-> ->]]; simpl;
      destruct (String.eqb rid (Catalog.id r)) eqn:Ee;
      [apply String.eqb_eq in Ee as ->| apply String.eqb_neq in Ee|
       apply String.eqb_eq in Ee as ->| apply String.eqb_neq in Ee];
      repeat case_bool_decide; try done; set_solver.
Qed.

Lemma dispatch_cards_other (s : State) (e : Event) :
  (∀ rid, e ≠ CardOpen rid) → (∀ rid, e ≠ CardToggle rid) → dispatch e (cards s) = None.
Proof.
  intros H1 H2. unfold cards. induction (Search.restaurants (query s)) as [|r l IH]; [done|].
  simpl. destruct e; simpl; try exact IH; [destruct (H1 rid) | destruct (H2 rid)]; done.
Qed.

Lemma dispatch_page_none (s : State) (e : Event) :
  page_event e = false → dispatch e (page s) = None.
Proof.
  intros He. unfold page.
  destruct (tab s); repeat case_match; cbn [dispatch Hero OpenFilters RestaurantDetails Login];
    rewrite ?dispatch_cards_other; destruct e; done.
Qed.

Lemma dispatch_overlay_none (s : State) (e : Event) :
  overlay_event e = false → dispatch e (overlay s) = None.
Proof. intros He. unfold overlay. destruct (filtersOpen s); [destruct e|]; done. Qed.

(** The handler each event runs, and when it is mounted. *)
Lemma handle_eq (s : State) (e : Event) :
  handle s e =
  match e with
  | HeaderQueryChange q => Some (set_query q s, [])
  | HeaderQueryFocus => Some (set_tab SearchTab s, [])
  | HeaderFilters => Some (set_filtersOpen true s, [])
  | HeaderLogin => Some (set_tab LoginTab s, [])
  | HeroExplore => if bool_decide (tab s = Home) then Some (set_tab SearchTab s, []) else None
  | CardOpen rid => if card_rendered s rid then Some (openDetails rid s, []) else None
  | CardToggle rid =>
      if card_rendered s rid
      then Some (set_bookmarks (Bookmarks.toggleBookmark rid (bookmarks s)) s, [BookmarksStore])
      else None
  | SearchOpenFilters =>
      if bool_decide (tab s = SearchTab) then Some (set_filtersOpen true s, []) else None
  | DetailsBack =>
      match active s, details_form s with
      | Some _, Some _ => if details_rendered s then Some (set_tab Home s, []) else None
      | _, _ => None
      end
  | DetailsStar i =>
      match active s, details_form s with
      | Some _, Some f =>
          if details_rendered s then
            match setStars i f with
            | Some f' => Some (set_details_form (Some f') s, [])
            | None => None
            end
          else None
      | _, _ => None
      end
  | DetailsText t =>
      match active s, details_form s with
      | Some _, Some f =>
          if details_rendered s then
            match setText (user s) t f with
            | Some f' => Some (set_details_form (Some f') s, [])
            | None => None
            end
          else None
      | _, _ => None
      end
  | DetailsPost now clock =>
      match active s, details_form s with
      | Some a, Some f =>
          if details_rendered s then
            match post_review (user s) f now clock with
            | Some (rv, f') =>
                Some (set_details_form (Some f')
                        (set_reviews (Reviews.addReview a rv (reviews s)) s), [ReviewsStore])
            | None => None
            end
          else None
      | _, _ => None
      end
  | LoginName n =>
      match login_form s with
      | Some f => if login_rendered s then Some (set_login_form (Some (setName n f)) s, []) else None
      | None => None
      end
  | LoginEmail em =>
      match login_form s with
      | Some f => if login_rendered s then Some (set_login_form (Some (setEmail em f)) s, []) else None
      | None => None
      end
  | LoginContinue =>
      match login_form s with
      | Some f =>
          if login_rendered s
          then Some (set_tab Home (set_user (Some (login_user f)) s), [UserStore])
          else None
      | None => None
      end
  | LoginCancel =>
      match login_form s with
      | Some _ => if login_rendered s then Some (set_tab Home s, []) else None
      | None => None
      end
  | ModalClose | FiltersCancel | FiltersApply =>
      if filtersOpen s then Some (set_filtersOpen false s, []) else None
  | TabHome => Some (set_tab Home s, [])
  | TabDiscover => Some (set_tab SearchTab s, [])
  | TabReview => Some (set_tab DetailsTab s, [])
  | TabLogin => Some (set_tab LoginTab s, [])
  end.
Proof.
  unfold handle, elements. destruct e; cbn [dispatch Header]; try done; rewrite !dispatch_app;
    rewrite ?(dispatch_page_none s) by done; rewrite ?(dispatch_overlay_none s) by done;
    cbn [dispatch TabBar]; try done.
  (* the overlay *)
  all: try (unfold overlay; destruct (filtersOpen s); done).
  (* the screens *)
  all: unfold page, card_rendered, login_rendered; destruct (tab s) eqn:Et;
    cbn [dispatch Hero OpenFilters];
    repeat match goal with
    | |- context [dispatch (CardOpen ?rid) (cards ?st)] =>
        rewrite (dispatch_cards_card st _ rid (λ s', (openDetails rid s', []))) by by left
    | |- context [dispatch (CardToggle ?rid) (cards ?st)] =>
        rewrite (dispatch_cards_card st _ rid (setBookmarks (Bookmarks.toggleBookmark rid))) by by right
    | |- context [dispatch ?e (cards ?st)] => rewrite (dispatch_cards_other st e) by done
    end;
    destruct (active s), (details_form s), (details_rendered s) eqn:Edr, (login_form s);
    cbn [dispatch RestaurantDetails Login fmap option_fmap option_map then_cb];
    repeat (case_match; simplify_eq/=); try done;
    try (unfold details_rendered in Edr; rewrite Et in Edr; discriminate);
    repeat case_bool_decide; naive_solver.
Qed.

End Components.
