(* ===== verification/App.v ===== *)
(** * App: the state machine of App.jsx (lines 68-166)

    The state, the events and the components are in [Components]; this
    file runs them.  [step] delivers an event to the mounted element
    that handles it ([Components.handle]); [commit] then mounts or
    unmounts the forms and runs the [useEffect]s of lines 77-79, which
    save exactly the stores whose setter was called.  [mount] is the
    first render: [useState] initializers hydrating from localStorage
    (lines 73-75), then every effect once.  [reachable] is the least
    set of states closed under [mount] and [step].

    The theorems: frame lemmas say what each handler, [commit] and the
    effects change; [inv] is the invariant of reachable states (active
    ids in the catalog, review objects with distinct keys, drafts with
    at most five stars, every persisted store readable back from
    localStorage), proved by rule induction on [reachable].  On top of
    it: the safety of the details view, that reviews need a session and
    have the data model's type, the restart round trip, the fallback on
    corrupt storage, the order-independence of the effects, the liveness
    of posting and of logging in, and the scenarios of the specification.

    The overlay of the filter modal is not modelled as blocking clicks:
    the model offers every rendered handler, a superset of what a user
    can click, so the invariants hold a fortiori. *)

From S2P Require Import Prelude JsString Catalog Search Bookmarks JsObject Reviews Session JsDate Details Json Storage Components.
Import Session Details Json Storage Components.

Module App.

(** ** Commit: mount/unmount the forms, run the effects *)

Definition sync_forms (s : State) : State :=
  set_login_form (if login_rendered s then Some (default login_init (login_form s)) else None)
    (set_details_form
       (if details_rendered s then Some (default details_init (details_form s)) else None) s).

(** [useEffect(() => saveLocal(key, store), [store])] for one store. *)
Definition save_store (st : Store) (s : State) : State :=
  match st with
  | UserStore => set_storage (saveLocal (storage s) "nom_user" (encode_user (user s))) s
  | ReviewsStore => set_storage (saveLocal (storage s) "nom_reviews" (encode_reviews (reviews s))) s
  | BookmarksStore =>
      set_storage (saveLocal (storage s) "nom_bookmarks" (JArr (JStr <$> bookmarks s))) s
  end.

Definition run_effects (dirty : list Store) (s : State) : State :=
  foldl (λ s st, save_store st s) s dirty.

Definition commit (s : State) (dirty : list Store) : State :=
  run_effects dirty (sync_forms s).

Definition step (s : State) (e : Event) : option State :=
  match handle s e with
  | Some (s', dirty) => Some (commit s' dirty)
  | None => None
  end.

(** ** Mounting *)

(** The [useState] initializers (lines 69-75).  A stored value that
    does not have the shape of its store is outside the model. *)
Definition hydrate (ls : LocalStorage) : option State :=
  match decode_user (loadLocal ls "nom_user" JNull),
        p_decode (A := Reviews.ReviewMap) (loadLocal ls "nom_reviews" (JObj [])),
        p_decode (A := list string) (loadLocal ls "nom_bookmarks" (JArr [])) with
  | Some u, Some m, Some b => Some (mkState Home "" false None u m b None None ls)
  | _, _, _ => None
  end.

(** The first render, then every effect once (in declaration order). *)
Definition mount (ls : LocalStorage) : option State :=
  match hydrate ls with
  | Some s => Some (commit s [ReviewsStore; BookmarksStore; UserStore])
  | None => None
  end.

(** A run of events from a state; [None] if one of them is not offered. *)
Fixpoint run (s : State) (es : list Event) : option State :=
  match es with
  | [] => Some s
  | e :: es' => match step s e with Some s' => run s' es' | None => None end
  end.

(** ** Demonstration states (the scenarios of the specification) *)

(** The app started on an empty localStorage. *)
Definition fresh_start : State :=
  default (mkState Home "" false None None [] [] None None ∅) (mount ∅).

(** The details of BunBun Banh Mi with 5 stars chosen, logged out. *)
Definition demo_logged_out : State :=
  default fresh_start (run fresh_start [CardOpen "r1"; DetailsStar 5]).

(** Asha logged in, on the details of BunBun Banh Mi, 4 stars and a text. *)
Definition demo_draft_events : list Event :=
  [TabLogin; LoginName "Asha"; LoginEmail "a@x.com"; LoginContinue;
   CardOpen "r1"; DetailsStar 4; DetailsText "Loved it here"].

Definition demo_draft : State := default fresh_start (run fresh_start demo_draft_events).

(** The same after "Post review" at time 1700000000000. *)
Definition demo_posted : State :=
  default demo_draft (step demo_draft (DetailsPost 1700000000000 1700000000000)).

(** The fresh app after saving BunBun Banh Mi from the home tab. *)
Definition demo_saved : State := default fresh_start (step fresh_start (CardToggle "r1")).

Inductive reachable : State → Prop :=
| reach_mount ls s : mount ls = Some s → reachable s
| reach_step s e s' : reachable s → step s e = Some s' → reachable s'.


(** ** Frame lemmas *)

Ltac handle_cases H :=
  rewrite handle_eq in H; repeat case_match; simplify_eq/=; try done.

Lemma handle_storage (s s' : State) (e : Event) (d : list Store) :
  handle s e = Some (s', d) → storage s' = storage s.
Proof. destruct e; intros H; handle_cases H. Qed.

(** A handler changes a persisted store only if it calls its setter. *)
Lemma handle_stores (s s' : State) (e : Event) (d : list Store) :
  handle s e = Some (s', d) →
  (user s' = user s ∨ UserStore ∈ d) ∧ (reviews s' = reviews s ∨ ReviewsStore ∈ d) ∧
  (bookmarks s' = bookmarks s ∨ BookmarksStore ∈ d).
Proof. destruct e; intros H; handle_cases H; set_solver. Qed.

Lemma handle_active (s s' : State) (e : Event) (d : list Store) :
  handle s e = Some (s', d) →
  active s' = active s ∨ ∃ rid, e = CardOpen rid ∧ card_rendered s rid = true ∧ active s' = Some rid.
Proof. destruct e; intros H; handle_cases H; eauto. Qed.

(** Neither mounting forms nor running effects touches the hooks. *)
Lemma sync_forms_fields (s : State) :
  tab (sync_forms s) = tab s ∧ active (sync_forms s) = active s ∧ user (sync_forms s) = user s ∧
  reviews (sync_forms s) = reviews s ∧ bookmarks (sync_forms s) = bookmarks s ∧
  storage (sync_forms s) = storage s.
Proof. done. Qed.

Lemma run_effects_fields (d : list Store) (s : State) :
  tab (run_effects d s) = tab s ∧ active (run_effects d s) = active s ∧
  user (run_effects d s) = user s ∧ reviews (run_effects d s) = reviews s ∧
  bookmarks (run_effects d s) = bookmarks s ∧ details_form (run_effects d s) = details_form s ∧
  login_form (run_effects d s) = login_form s.
Proof.
  enough (run_effects d s = set_storage (storage (run_effects d s)) s) as -> by done.
  revert s. induction d as [|st d IH]; intros s; [by destruct s|].
  simpl. rewrite IH. by destruct st, s.
Qed.

(** ** Persistence *)

(** Reading the store [st] back from localStorage gives the state's value. *)
Definition loaded_ok (st : Store) (s : State) : Prop :=
  match st with
  | UserStore => decode_user (loadLocal (storage s) "nom_user" JNull) = Some (user s)
  | ReviewsStore =>
      p_decode (A := Reviews.ReviewMap) (loadLocal (storage s) "nom_reviews" (JObj [])) =
      Some (reviews s)
  | BookmarksStore =>
      p_decode (A := list string) (loadLocal (storage s) "nom_bookmarks" (JArr [])) =
      Some (bookmarks s)
  end.

Definition store_key (st : Store) : string :=
  match st with
  | UserStore => "nom_user" | ReviewsStore => "nom_reviews" | BookmarksStore => "nom_bookmarks"
  end.

Lemma save_store_same (st : Store) (s : State) :
  JsObject.wf (reviews s) → loaded_ok st (save_store st s).
Proof.
  intros Hwf. destruct st; simpl.
  - exact (load_save (A := option User) (storage s) (user s) I).
  - exact (load_save (A := Reviews.ReviewMap) (storage s) (reviews s) Hwf).
  - exact (load_save (A := list string) (storage s) (bookmarks s) I).
Qed.

Lemma save_store_other (st st' : Store) (s : State) :
  st ≠ st' → loaded_ok st' (save_store st s) ↔ loaded_ok st' s.
Proof.
  intros Hne. destruct st, st'; try done; simpl; rewrite loadLocal_other; done.
Qed.

Lemma run_effects_ok (d : list Store) (s : State) :
  JsObject.wf (reviews s) → (∀ st, st ∈ d ∨ loaded_ok st s) →
  ∀ st, loaded_ok st (run_effects d s).
Proof.
  revert s. induction d as [|st0 d IH]; intros s Hwf Hok st; simpl.
  - destruct (Hok st) as [?%elem_of_nil|]; done.
  - apply IH.
    + by destruct st0.
    + intros st'. destruct (decide (st' ∈ d)) as [|Hnot]; [by left|right].
      destruct (decide (st0 = st')) as [<-|Hne].
      * by apply save_store_same.
      * apply save_store_other; [done|].
        destruct (Hok st') as [[-> | ?]%elem_of_cons|]; done.
Qed.

(** The text an effect writes for a store. *)
Definition saved_text (st : Store) (s : State) : string :=
  stringify (match st with
             | UserStore => encode_user (user s)
             | ReviewsStore => encode_reviews (reviews s)
             | BookmarksStore => JArr (JStr <$> bookmarks s)
             end).

Lemma store_key_inj (st st' : Store) : store_key st = store_key st' → st = st'.
Proof. by destruct st, st'. Qed.

Lemma run_effects_set_storage (d : list Store) (s : State) :
  run_effects d s = set_storage (storage (run_effects d s)) s.
Proof.
  revert s. induction d as [|st d IH]; intros s; [by destruct s|].
  simpl. rewrite IH. by destruct st, s.
Qed.

Lemma save_store_storage (st : Store) (s : State) :
  storage (save_store st s) = <[store_key st := saved_text st s]> (storage s).
Proof. by destruct st. Qed.

Lemma saved_text_save (st st0 : Store) (s : State) :
  saved_text st (save_store st0 s) = saved_text st s.
Proof. by destruct st0. Qed.

(** After the effects, a store's key holds its text if its setter was
    called, and what it held before otherwise. *)
Lemma run_effects_lookup (d : list Store) (s : State) (st : Store) :
  storage (run_effects d s) !! store_key st =
  if decide (st ∈ d) then Some (saved_text st s) else storage s !! store_key st.
Proof.
  revert s. induction d as [|st0 d IH]; intros s; [done|]. simpl. rewrite IH, saved_text_save.
  rewrite save_store_storage. destruct (decide (st0 = st)) as [->|Hne].
  - rewrite lookup_insert_eq. by repeat case_decide; set_solver.
  - rewrite lookup_insert_ne by (by intros ?%store_key_inj).
    by repeat case_decide; set_solver.
Qed.

Lemma run_effects_lookup_other (d : list Store) (s : State) (k : string) :
  (∀ st, store_key st ≠ k) → storage (run_effects d s) !! k = storage s !! k.
Proof.
  intros Hk. revert s. induction d as [|st0 d IH]; intros s; [done|]. simpl.
  rewrite IH, save_store_storage, lookup_insert_ne; [done | apply Hk].
Qed.

(** ** What a handler does to the reviews and to the form *)

Lemma handle_reviews (s s' : State) (e : Event) (d : list Store) :
  handle s e = Some (s', d) →
  reviews s' = reviews s ∨
  ∃ a f now clock rv f', e = DetailsPost now clock ∧ active s = Some a ∧
    details_form s = Some f ∧ details_rendered s = true ∧
    post_review (user s) f now clock = Some (rv, f') ∧
    reviews s' = Reviews.addReview a rv (reviews s).
Proof. destruct e; intros H; handle_cases H; eauto 20. Qed.

Lemma handle_form (s s' : State) (e : Event) (d : list Store) :
  handle s e = Some (s', d) → (∀ f, details_form s = Some f → form_ok f) →
  ∀ f, details_form s' = Some f → form_ok f.
Proof.
  destruct e; intros H Hok; handle_cases H; intros f0 Hf0; simplify_eq; eauto.
  - by eapply setStars_ok.
  - eapply setText_ok; [by apply Hok | done].
  - match goal with H : post_review _ _ _ _ = Some _ |- _ =>
      apply post_review_Some in H as (_ & _ & _ & _ & _ & ->) end.
    unfold form_ok. simpl. lia.
Qed.

Lemma handle_user (s s' : State) (e : Event) (d : list Store) :
  handle s e = Some (s', d) → user s' = user s ∨ ∃ f, user s' = Some (login_user f).
Proof. destruct e; intros H; handle_cases H; eauto. Qed.

(** What [commit] keeps and what it sets. *)
Lemma commit_fields (s : State) (d : list Store) :
  tab (commit s d) = tab s ∧ active (commit s d) = active s ∧ user (commit s d) = user s ∧
  reviews (commit s d) = reviews s ∧ bookmarks (commit s d) = bookmarks s ∧
  details_form (commit s d) =
    (if details_rendered s then Some (default details_init (details_form s)) else None) ∧
  login_form (commit s d) =
    (if login_rendered s then Some (default login_init (login_form s)) else None).
Proof. unfold commit. pose proof (run_effects_fields d (sync_forms s)). naive_solver. Qed.

Lemma details_rendered_commit (s : State) (d : list Store) :
  details_rendered (commit s d) = details_rendered s.
Proof.
  unfold details_rendered. destruct (commit_fields s d) as (-> & -> & _). done.
Qed.

Lemma card_rendered_catalog (s : State) (rid : string) :
  card_rendered s rid = true → rid ∈ Catalog.catalog_ids Catalog.MOCK_RESTAURANTS.
Proof.
  unfold card_rendered, Catalog.catalog_ids. intros H. bool_to_prop.
  apply list_elem_of_fmap in H0 as (r & -> & Hr).
  apply list_elem_of_fmap. exists r. split; [done|].
  by apply Search.search_elem in Hr as [? _].
Qed.

(** ** Runs of the login form *)

Lemma run_step (s s' : State) (e : Event) (es : list Event) :
  step s e = Some s' → run s (e :: es) = run s' es.
Proof. intros H. simpl. by rewrite H. Qed.

Lemma step_tab_login (s : State) : step s TabLogin = Some (commit (set_tab LoginTab s) []).
Proof. unfold step. by rewrite handle_eq. Qed.

Lemma step_login_name (s : State) (f : LoginForm) (n : string) :
  login_form s = Some f → tab s = LoginTab →
  step s (LoginName n) = Some (commit (set_login_form (Some (setName n f)) s) []).
Proof. intros H1 H2. unfold step. rewrite handle_eq. unfold login_rendered. rewrite H1, H2. reflexivity. Qed.

Lemma step_login_email (s : State) (f : LoginForm) (em : string) :
  login_form s = Some f → tab s = LoginTab →
  step s (LoginEmail em) = Some (commit (set_login_form (Some (setEmail em f)) s) []).
Proof. intros H1 H2. unfold step. rewrite handle_eq. unfold login_rendered. rewrite H1, H2. reflexivity. Qed.

Lemma step_login_continue (s : State) (f : LoginForm) :
  login_form s = Some f → tab s = LoginTab →
  step s LoginContinue =
  Some (commit (set_tab Home (set_user (Some (login_user f)) s)) [UserStore]).
Proof. intros H1 H2. unfold step. rewrite handle_eq. unfold login_rendered. rewrite H1, H2. reflexivity. Qed.

Lemma commit_user_loaded (s : State) :
  decode_user (loadLocal (storage (commit s [UserStore])) "nom_user" JNull) = Some (user s).
Proof. exact (load_save (A := option User) (storage (sync_forms s)) (user s) I). Qed.

(** On the login page with a form mounted, typing a name and an email
    and pressing Continue installs and saves that session. *)
Lemma login_form_run (s : State) (f : LoginForm) (n em : string) :
  tab s = LoginTab → login_form s = Some f →
  ∃ s', run s [LoginName n; LoginEmail em; LoginContinue] = Some s' ∧
    user s' = Some (mkUser n em) ∧ tab s' = Home ∧
    decode_user (loadLocal (storage s') "nom_user" JNull) = Some (Some (mkUser n em)).
Proof.
  intros Ht Hf. rewrite (run_step _ _ _ _ (step_login_name s f n Hf Ht)).
  destruct (commit_fields (set_login_form (Some (setName n f)) s) [])
    as (Ht2 & _ & _ & _ & _ & _ & Hf2).
  revert Ht2 Hf2. generalize (commit (set_login_form (Some (setName n f)) s) []) as s2.
  intros s2 Ht2 Hf2. unfold login_rendered in Hf2. simpl in Ht2, Hf2. rewrite Ht in Ht2, Hf2.
  rewrite (run_step _ _ _ _ (step_login_email s2 _ em Hf2 Ht2)).
  destruct (commit_fields (set_login_form (Some (setEmail em (setName n f))) s2) [])
    as (Ht3 & _ & _ & _ & _ & _ & Hf3).
  revert Ht3 Hf3. generalize (commit (set_login_form (Some (setEmail em (setName n f))) s2) []) as s3.
  intros s3 Ht3 Hf3. unfold login_rendered in Hf3. simpl in Ht3, Hf3. rewrite Ht2 in Ht3, Hf3.
  rewrite (run_step _ _ _ _ (step_login_continue s3 _ Hf3 Ht3)).
  eexists. split; [reflexivity|]. rewrite commit_user_loaded.
  destruct (commit_fields (set_tab Home (set_user (Some (login_user (setEmail em (setName n f)))) s3))
    [UserStore]) as (-> & _ & -> & _).
  done.
Qed.

(** ** The invariant of reachable states *)

Record inv (s : State) : Prop := {
  inv_active : ∀ a, active s = Some a → a ∈ Catalog.catalog_ids Catalog.MOCK_RESTAURANTS;
  inv_reviews : JsObject.wf (reviews s);
  inv_form : ∀ f, details_form s = Some f → form_ok f;
  inv_persisted : ∀ st, loaded_ok st s
}.

Lemma form_ok_default (o : option DetailsForm) :
  (∀ f, o = Some f → form_ok f) → form_ok (default details_init o).
Proof. destruct o; simpl; [eauto | unfold form_ok; simpl; lia]. Qed.

Lemma commit_form_ok (s : State) (d : list Store) :
  (∀ f, details_form s = Some f → form_ok f) →
  ∀ f, details_form (commit s d) = Some f → form_ok f.
Proof.
  intros Hok f. destruct (commit_fields s d) as (_ & _ & _ & _ & _ & -> & _).
  destruct (details_rendered s); [intros [= <-]; by apply form_ok_default | done].
Qed.

Lemma mount_inv (ls : LocalStorage) (s : State) : mount ls = Some s → inv s.
Proof.
  unfold mount, hydrate. intros H. repeat case_match; simplify_eq.
  match goal with |- inv (commit ?s0 ?d) => destruct (commit_fields s0 d) as (_ & Ha & Hu & Hr & Hb & Hf & _) end.
  split.
  - rewrite Ha. done.
  - rewrite Hr. by eapply hydrated_reviews_wf.
  - apply commit_form_ok. done.
  - apply run_effects_ok; [by eapply hydrated_reviews_wf|]. intros st. left. destruct st; set_solver.
Qed.

Lemma step_inv (s s' : State) (e : Event) : inv s → step s e = Some s' → inv s'.
Proof.
  intros Hinv. unfold step. destruct (handle s e) as [[s1 d]|] eqn:Hh; [|done]. intros [= <-].
  destruct (commit_fields s1 d) as (_ & Ha & Hu & Hr & Hb & _ & _).
  pose proof (handle_stores _ _ _ _ Hh) as (Hus & Hrs & Hbs).
  assert (JsObject.wf (reviews s1)) as Hwf.
  { destruct (handle_reviews _ _ _ _ Hh) as [-> | (? & ? & ? & ? & ? & ? & _ & _ & _ & _ & _ & ->)].
    - apply Hinv.
    - apply Reviews.addReview_wf, Hinv. }
  split.
  - rewrite Ha. destruct (handle_active _ _ _ _ Hh) as [-> | (rid & -> & Hc & ->)].
    + apply Hinv.
    + intros a [= <-]. by eapply card_rendered_catalog.
  - by rewrite Hr.
  - apply commit_form_ok. eapply handle_form; [done | apply Hinv].
  - apply run_effects_ok; [done|]. intros st.
    destruct (decide (st ∈ d)) as [|Hnot]; [by left | right].
    pose proof (inv_persisted _ Hinv st) as Hl. pose proof (handle_storage _ _ _ _ Hh) as Hst.
    destruct st; simpl in *; rewrite Hst.
    + destruct Hus as [-> | ?]; [done | set_solver].
    + destruct Hrs as [-> | ?]; [done | set_solver].
    + destruct Hbs as [-> | ?]; [done | set_solver].
Qed.

Lemma reachable_inv (s : State) : reachable s → inv s.
Proof.
  induction 1 as [ls s Hm | s e s' _ IH Hs].
  - by eapply mount_inv.
  - by eapply step_inv.
Qed.

Lemma run_reachable (s s' : State) (es : list Event) :
  reachable s → run s es = Some s' → reachable s'.
Proof.
  revert s. induction es as [|e es IH]; intros s Hr Hrun; simpl in Hrun; [by simplify_eq|].
  destruct (step s e) as [s1|] eqn:Hs; [|done]. eapply IH; [|done]. by eapply reach_step.
Qed.

Lemma fresh_start_mount : mount ∅ = Some fresh_start.
Proof. vm_compute. reflexivity. Qed.

(** A review as the data model of the specification has it: 1 to 5
    stars, a body of at least 5 characters once trimmed, and a date
    that [new Date] reads as a valid instant in every time zone. *)
Definition review_ok (rv : Reviews.Review) : Prop :=
  1 ≤ Reviews.stars rv ≤ 5 ∧ 5 ≤ String.length (JsString.trim (Reviews.text rv)) ∧
  ∀ LocalTZA, is_Some (review_instant LocalTZA rv).

Definition reviews_ok (m : Reviews.ReviewMap) : Prop :=
  Forall (λ kv : string * list Reviews.Review, Forall review_ok kv.2) m.

Lemma reviews_ok_addReview (a : string) (rv : Reviews.Review) (m : Reviews.ReviewMap) :
  reviews_ok m → review_ok rv → reviews_ok (Reviews.addReview a rv m).
Proof.
  intros Hm Hrv. unfold Reviews.addReview. apply JsObject.set_Forall; [done|].
  simpl. constructor; [done|]. unfold Reviews.reviews_for.
  destruct (JsObject.get m a) as [l|] eqn:E; simpl; [|done].
  exact (JsObject.get_Forall _ _ _ _ Hm E).
Qed.

Lemma step_reviews_ok (s s' : State) (e : Event) :
  inv s → reviews_ok (reviews s) → step s e = Some s' → reviews_ok (reviews s').
Proof.
  intros Hinv Hok. unfold step. destruct (handle s e) as [[s1 d]|] eqn:Hh; [|done].
  intros [= <-]. destruct (commit_fields s1 d) as (_ & _ & _ & -> & _).
  destruct (handle_reviews _ _ _ _ Hh)
    as [-> | (a & f & now & clock & rv & f' & _ & _ & Hf & _ & Hp & ->)]; [done|].
  apply reviews_ok_addReview; [done|].
  pose proof (λ tza, post_review_instant _ _ _ _ _ _ tza Hp) as Hi.
  apply post_review_valid in Hp as (? & ? & _); [|by apply (inv_form _ Hinv)].
  split; [done | split; [done | intros tza; by rewrite Hi]].
Qed.

(** ** The active restaurant *)

(** "View details" selects the restaurant of its card. *)
Lemma step_open (s s' : State) (rid : string) :
  step s (CardOpen rid) = Some s' → rid ∈ Catalog.catalog_ids Catalog.MOCK_RESTAURANTS ∧ active s' = Some rid.
Proof.
  unfold step. rewrite handle_eq. destruct (card_rendered s rid) eqn:Hc; [|done]. intros [= <-].
  split; [by eapply card_rendered_catalog|]. by destruct (commit_fields (openDetails rid s) []) as (_ & -> & _).
Qed.

(** No other event changes [active]. *)
Lemma run_keeps_active (s s' : State) (es : list Event) :
  run s es = Some s' → Forall (λ e, ∀ r, e ≠ CardOpen r) es → active s' = active s.
Proof.
  revert s. induction es as [|e es IH]; intros s Hrun Hes; simpl in Hrun; [by simplify_eq|].
  destruct (step s e) as [s1|] eqn:Hs; [|done]. apply Forall_cons in Hes as [He Hes].
  rewrite (IH s1 Hrun Hes). revert Hs. unfold step. destruct (handle s e) as [[s2 d]|] eqn:Hh; [|done].
  intros [= <-]. destruct (commit_fields s2 d) as (_ & -> & _).
  destruct (handle_active _ _ _ _ Hh) as [-> | (r & -> & _)]; [done|]. by destruct (He r).
Qed.

Lemma catalog_id_nonempty (rid : string) :
  rid ∈ Catalog.catalog_ids Catalog.MOCK_RESTAURANTS → String.eqb rid "" = false.
Proof. vm_compute. intros Hin. repeat (apply elem_of_cons in Hin as [->|Hin]; [done|]). set_solver. Qed.

(** A committed state has no review draft unless the details view is rendered. *)
Lemma commit_form_unmounted (s : State) (d : list Store) :
  details_rendered (commit s d) = false → details_form (commit s d) = None.
Proof.
  rewrite details_rendered_commit. intros Hd.
  destruct (commit_fields s d) as (_ & _ & _ & _ & _ & -> & _). by rewrite Hd.
Qed.

Lemma reachable_form_unmounted (s : State) :
  reachable s → details_rendered s = false → details_form s = None.
Proof.
  intros [ls s0 Hm | s0 e s1 _ Hs].
  - revert Hm. unfold mount. destruct (hydrate ls); [|done]. intros [= <-]. apply commit_form_unmounted.
  - revert Hs. unfold step. destruct (handle s0 e) as [[? ?]|]; [|done]. intros [= <-].
    apply commit_form_unmounted.
Qed.

Lemma commit_form_mounted (s : State) (d : list Store) :
  details_rendered (commit s d) = true → is_Some (details_form (commit s d)).
Proof.
  rewrite details_rendered_commit. intros Hd.
  destruct (commit_fields s d) as (_ & _ & _ & _ & _ & -> & _). rewrite Hd. by eexists.
Qed.

(** In a reachable state the review draft exists while the details view is shown. *)
Lemma reachable_form_mounted (s : State) :
  reachable s → details_rendered s = true → is_Some (details_form s).
Proof.
  intros [ls s0 Hm | s0 e s1 _ Hs].
  - revert Hm. unfold mount. destruct (hydrate ls); [|done]. intros [= <-]. apply commit_form_mounted.
  - revert Hs. unfold step. destruct (handle s0 e) as [[? ?]|]; [|done]. intros [= <-].
    apply commit_form_mounted.
Qed.

Lemma details_rendered_active (s : State) : details_rendered s = true → is_Some (active s).
Proof. unfold details_rendered. destruct (active s); [by eexists | by rewrite andb_false_r]. Qed.

(** A card listed on the home or search tab is rendered with its handlers. *)
Lemma card_rendered_listed (s : State) (r : Catalog.Restaurant) :
  (tab s = Home ∨ tab s = SearchTab) → r ∈ Search.restaurants (query s) →
  card_rendered s (Catalog.id r) = true.
Proof.
  intros Ht Hin. unfold card_rendered. rewrite !bool_decide_eq_true_2; [done| |done].
  apply list_elem_of_fmap. by exists r.
Qed.

(** ** Properties of the application *)

(** C3. The details view is only shown for a restaurant of the catalog:
    [MOCK_RESTAURANTS.find] never gives [undefined] to
    [RestaurantDetails], whose first access [r.img] would throw. *)
Theorem details_view_safe (s : State) :
  reachable s → details_rendered s = true →
  ∃ a r, active s = Some a ∧ Catalog.find_restaurant Catalog.MOCK_RESTAURANTS a = Some r.
Proof.
  intros Hr Hd. pose proof (reachable_inv s Hr) as Hinv.
  unfold details_rendered in Hd. destruct (active s) as [a|] eqn:Ha; [|by rewrite andb_false_r in Hd].
  destruct (proj2 (Catalog.find_restaurant_is_Some Catalog.MOCK_RESTAURANTS a)) as [r Hr'].
  { by apply (inv_active _ Hinv). }
  by exists a, r.
Qed.

(** C1. A step changes the reviews only by the post of a logged-in user: the
    new review, signed with the session's name (or "Guest" for an empty
    name), with 1 to 5 stars and a body of at least 5 characters once
    trimmed, goes first in the active restaurant's list. *)
Theorem review_requires_session (s s' : State) (e : Event) :
  reachable s → step s e = Some s' →
  reviews s' = reviews s ∨
  ∃ u a rv, user s = Some u ∧ active s = Some a ∧
    reviews s' = Reviews.addReview a rv (reviews s) ∧
    Reviews.user rv = author_name (Some u) ∧ 1 ≤ Reviews.stars rv ≤ 5 ∧
    5 ≤ String.length (JsString.trim (Reviews.text rv)).
Proof.
  intros Hr Hs. pose proof (reachable_inv s Hr) as Hinv.
  unfold step in Hs. destruct (handle s e) as [[s1 d]|] eqn:Hh; [|done]. injection Hs as <-.
  destruct (commit_fields s1 d) as (_ & _ & _ & -> & _).
  destruct (handle_reviews _ _ _ _ Hh)
    as [-> | (a & f & now & date & rv & f' & -> & Ha & Hf & _ & Hp & ->)]; [by left | right].
  pose proof Hp as Hp'. apply post_review_Some in Hp as (Hu & _ & _ & _ & Hrv & _).
  destruct (user s) as [u|] eqn:Hus; [|by destruct Hu].
  apply post_review_valid in Hp' as (Hst & Htx & _); [|by apply (inv_form _ Hinv)].
  exists u, a, rv. rewrite Hrv in *. done.
Qed.

(** C14. Once logged in, a session is never cleared (there is no logout). *)
Theorem session_kept (s s' : State) (e : Event) :
  step s e = Some s' → is_Some (user s) → is_Some (user s').
Proof.
  unfold step. destruct (handle s e) as [[s1 d]|] eqn:Hh; [|done]. intros [= <-] Hu.
  destruct (commit_fields s1 d) as (_ & _ & -> & _).
  destruct (handle_user _ _ _ _ Hh) as [-> | [f ->]]; [done | by eexists].
Qed.

(** C2. A restart after any run reads back the same session, reviews and
    bookmarks, on the home tab with nothing selected. *)
Theorem restart_restores (s : State) :
  reachable s →
  ∃ s0, mount (storage s) = Some s0 ∧ user s0 = user s ∧ reviews s0 = reviews s ∧
    bookmarks s0 = bookmarks s ∧ tab s0 = Home ∧ active s0 = None.
Proof.
  intros Hr. pose proof (inv_persisted _ (reachable_inv s Hr)) as Hl.
  pose proof (Hl UserStore) as Hu. pose proof (Hl ReviewsStore) as Hrv.
  pose proof (Hl BookmarksStore) as Hb. cbn [loaded_ok] in Hu, Hrv, Hb.
  unfold mount, hydrate. rewrite Hu, Hrv, Hb.
  eexists. split; [reflexivity|].
  match goal with |- context [commit ?s0 ?d] => destruct (commit_fields s0 d) as (Ht & Ha & -> & -> & -> & _) end.
  by rewrite Ht, Ha.
Qed.

(** C13. The "Save" button of a card flips the "Saved" label of that card. *)
Theorem card_toggle_flips (s s' : State) (rid : string) :
  step s (CardToggle rid) = Some s' →
  Bookmarks.bookmarked (bookmarks s') rid = negb (Bookmarks.bookmarked (bookmarks s) rid) ∧
  Bookmarks.card_label (Bookmarks.bookmarked (bookmarks s') rid) =
    (if Bookmarks.bookmarked (bookmarks s) rid then "Save" else "Saved").
Proof.
  unfold step. rewrite handle_eq. destruct (card_rendered s rid); [|done]. intros [= <-].
  destruct (commit_fields (set_bookmarks (Bookmarks.toggleBookmark rid (bookmarks s)) s)
    [BookmarksStore]) as (_ & _ & _ & _ & -> & _).
  simpl. rewrite Bookmarks.toggleBookmark_flips.
  by destruct (Bookmarks.bookmarked (bookmarks s) rid).
Qed.

(** C8. Logging in from any state, whatever was typed into the form
    before: the session becomes the name and email typed, the page goes
    home, and localStorage holds the session for the next start. *)
Theorem login_sets_session (s : State) (n em : string) :
  ∃ s', run s [TabLogin; LoginName n; LoginEmail em; LoginContinue] = Some s' ∧
    user s' = Some (mkUser n em) ∧ tab s' = Home ∧
    decode_user (loadLocal (storage s') "nom_user" JNull) = Some (Some (mkUser n em)).
Proof.
  rewrite (run_step _ _ _ _ (step_tab_login s)).
  destruct (commit_fields (set_tab LoginTab s) []) as (Ht & _ & _ & _ & _ & _ & Hf).
  apply (login_form_run _ (default login_init (login_form s))); [done | by rewrite Hf].
Qed.

(** C7. A complete draft can always be posted: in a reachable state
    showing the details of [a] to a logged-in user, with stars chosen and
    a body of at least five characters once trimmed, "Post review" is
    enabled, puts the review first in [a]'s list, dated with an ISO
    string that [new Date] reads back as the instant of the click, and
    clears the form. *)
Theorem post_enabled (s : State) (u : User) (a : string) (f : DetailsForm) (now clock : Z)
    (LocalTZA : Z → Z) :
  reachable s → details_rendered s = true → user s = Some u → active s = Some a →
  details_form s = Some f → form_stars f ≠ 0 →
  5 ≤ String.length (JsString.trim (form_text f)) → (Z.abs clock ≤ JsDate.maxTime)%Z →
  ∃ s' date, step s (DetailsPost now clock) = Some s' ∧
    Reviews.reviews_for (reviews s') a =
      Reviews.mkReview now (author_name (Some u)) (form_stars f) (form_text f) date ::
      Reviews.reviews_for (reviews s) a ∧
    JsDate.Date_parse LocalTZA date = Some clock ∧
    details_form s' = Some details_init.
Proof.
  intros Hr Hd Hu Ha Hf Hs Ht Hc. pose proof (reachable_inv s Hr) as Hinv.
  destruct (JsDate.Date_parse_toISOString LocalTZA clock Hc) as (date & Hdate & Hparse).
  assert (post_review (user s) f now clock =
          Some (Reviews.mkReview now (author_name (Some u)) (form_stars f) (form_text f) date,
                details_init)) as Hp.
  { apply post_review_Some. rewrite Hu. split_and!; done || eexists; done. }
  unfold step. rewrite handle_eq, Ha, Hf, Hd, Hp. eexists. exists date. split; [reflexivity|].
  match goal with |- context [commit ?s0 ?d] =>
    destruct (commit_fields s0 d) as (_ & _ & _ & -> & _ & -> & _) end.
  split_and!.
  - simpl. rewrite Reviews.reviews_for_addReview, String.eqb_refl; [done | apply Hinv].
  - done.
  - unfold details_rendered in *. simpl. by rewrite Hd.
Qed.

(** C6. Absent or unparseable stored data falls back to the documented
    defaults: no session, no reviews, no bookmarks, on the home tab. *)
Theorem mount_fallback (ls : LocalStorage) :
  unreadable ls "nom_user" → unreadable ls "nom_reviews" → unreadable ls "nom_bookmarks" →
  ∃ s, mount ls = Some s ∧ user s = None ∧ reviews s = [] ∧ bookmarks s = [] ∧ tab s = Home.
Proof.
  intros Hu Hr Hb. unfold mount, hydrate. rewrite !loadLocal_unreadable by done.
  eexists. split; [reflexivity|].
  match goal with |- context [commit ?s0 ?d] =>
    destruct (commit_fields s0 d) as (-> & _ & -> & -> & -> & _) end.
  done.
Qed.

(** The order and the repetition of the effects do not matter: the
    effects of a commit give the same state for any two lists naming the
    same stores (each a subset of the other), as React runs one effect
    per changed dependency. *)
Theorem effects_order_irrelevant (d d' : list Store) (s : State) :
  d ⊆ d' → d' ⊆ d → run_effects d s = run_effects d' s.
Proof.
  intros Hd1 Hd2. assert (Hd : ∀ st, st ∈ d ↔ st ∈ d') by set_solver. rewrite (run_effects_set_storage d), (run_effects_set_storage d'). f_equal.
  apply map_eq. intros k.
  destruct (decide (k = store_key UserStore)) as [->|H1];
    [|destruct (decide (k = store_key ReviewsStore)) as [->|H2];
      [|destruct (decide (k = store_key BookmarksStore)) as [->|H3]]];
    try (rewrite !run_effects_lookup; by repeat case_decide; set_solver).
  rewrite !run_effects_lookup_other; [done | |]; intros []; congruence.
Qed.

(** C5. Every review the app holds after a run from a fresh start is a
    review of the data model: 1 to 5 stars, a body of at least five
    characters once trimmed, and a date that [new Date] reads as a valid
    instant (the row never shows "Invalid Date"). *)
Theorem reviews_typed (es : list Event) (s : State) :
  run fresh_start es = Some s → reviews_ok (reviews s).
Proof.
  assert (∀ s0, reachable s0 → reviews_ok (reviews s0) → run s0 es = Some s →
            reviews_ok (reviews s)) as Hgen.
  { induction es as [|e es IH]; intros s0 Hr Hok Hrun; simpl in Hrun; [by simplify_eq|].
    destruct (step s0 e) as [s1|] eqn:Hs; [|done].
    eapply IH; [by eapply reach_step | | done].
    by eapply step_reviews_ok; [apply reachable_inv|..]. }
  apply Hgen; [exact (reach_mount ∅ fresh_start fresh_start_mount)|].
  assert (reviews fresh_start = []) as -> by (vm_compute; reflexivity). constructor.
Qed.

(** C26. The "Review" tab shows the restaurant opened last, whatever
    happened since: after "View details" on a card, any events that open
    no other restaurant ("Back", the other tabs, a search, a login, a
    post) leave [active] set, so the Review tab renders its details
    again ([active] is never cleared). *)
Theorem review_tab_stale_active (s s' : State) (rid : string) (es : list Event) :
  run s (CardOpen rid :: es) = Some s' → Forall (λ e, ∀ r, e ≠ CardOpen r) es →
  ∃ s'', step s' TabReview = Some s'' ∧ details_rendered s'' = true ∧ active s'' = Some rid.
Proof.
  intros Hrun Hes. simpl in Hrun. destruct (step s (CardOpen rid)) as [s1|] eqn:Hs1; [|done].
  destruct (step_open _ _ _ Hs1) as [Hid Ha1]. pose proof (run_keeps_active _ _ _ Hrun Hes) as Ha.
  unfold step. rewrite handle_eq. eexists. split; [reflexivity|].
  rewrite details_rendered_commit. destruct (commit_fields (set_tab DetailsTab s') []) as (_ & -> & _).
  unfold details_rendered. simpl. by rewrite Ha, Ha1, catalog_id_nonempty.
Qed.

(** C18. Hydration does not check what it reads: every review object
    stored in the shape of the reviews, whatever its stars (0 or 9), its
    texts or its dates, is the review state after mounting. *)
Theorem hydrate_unchecked (m : Reviews.ReviewMap) :
  JsObject.wf m →
  ∃ s, mount (saveLocal ∅ "nom_reviews" (encode_reviews m)) = Some s ∧ reviews s = m.
Proof.
  intros Hwf.
  assert (p_decode (A := Reviews.ReviewMap)
            (loadLocal (saveLocal ∅ "nom_reviews" (encode_reviews m)) "nom_reviews" (JObj [])) = Some m)
    as Hm by exact (load_save ∅ m Hwf).
  unfold mount, hydrate. rewrite Hm, !loadLocal_other by done. rewrite !loadLocal_absent by done.
  eexists. split; [reflexivity|].
  match goal with |- context [commit ?s0 ?d] => by destruct (commit_fields s0 d) as (_ & _ & _ & -> & _) end.
Qed.

(** C30. "View details" works on every card listed: from a reachable state
    on the home or search tab, the button of any restaurant the search
    lists opens the details of that very restaurant
    ([MOCK_RESTAURANTS.find] returns it), with an empty review form. *)
Theorem card_open_details (s : State) (r : Catalog.Restaurant) :
  reachable s → (tab s = Home ∨ tab s = SearchTab) → r ∈ Search.restaurants (query s) →
  ∃ s', step s (CardOpen (Catalog.id r)) = Some s' ∧ details_rendered s' = true ∧
    active s' = Some (Catalog.id r) ∧
    Catalog.find_restaurant Catalog.MOCK_RESTAURANTS (Catalog.id r) = Some r ∧
    details_form s' = Some details_init.
Proof.
  intros Hr Ht Hin. pose proof (card_rendered_listed s r Ht Hin) as Hc.
  assert (Hf : details_form s = None).
  { apply reachable_form_unmounted; [done|]. unfold details_rendered. by destruct Ht as [-> | ->]. }
  assert (Hne : String.eqb (Catalog.id r) "" = false) by (by eapply catalog_id_nonempty, card_rendered_catalog).
  assert (Hfind : Catalog.find_restaurant Catalog.MOCK_RESTAURANTS (Catalog.id r) = Some r).
  { apply Catalog.find_restaurant_in; [apply Catalog.MOCK_RESTAURANTS_ids_unique|].
    by apply Search.search_elem in Hin as [? _]. }
  unfold step. rewrite handle_eq, Hc. eexists. split; [reflexivity|].
  rewrite details_rendered_commit, Hfind.
  destruct (commit_fields (openDetails (Catalog.id r) s) []) as (_ & -> & _ & _ & _ & -> & _).
  unfold details_rendered. simpl. by rewrite Hne, Hf.
Qed.

(** C32. The filters modal: its backdrop, close button, Cancel and Apply
    are offered exactly while it is open, and each closes it and changes
    nothing else (tab, query, selection, session, stores, localStorage). *)
Theorem filters_modal_close (s : State) (e : Event) :
  e = ModalClose ∨ e = FiltersCancel ∨ e = FiltersApply →
  match step s e with
  | Some s' =>
      filtersOpen s = true ∧ filtersOpen s' = false ∧ tab s' = tab s ∧ query s' = query s ∧
      active s' = active s ∧ user s' = user s ∧ reviews s' = reviews s ∧
      bookmarks s' = bookmarks s ∧ storage s' = storage s
  | None => filtersOpen s = false
  end.
Proof.
  intros He. unfold step. rewrite handle_eq.
  destruct He as [-> | [-> | ->]]; destruct (filtersOpen s) eqn:E; done.
Qed.

(** C33. The review form responds as rendered: on the details view of a
    reachable state, each star button [1..5] sets the star count to its
    number and keeps the text, and typing into the text area replaces
    the text exactly when a session exists (it is disabled otherwise). *)
Theorem details_form_edit (s : State) (i : nat) (t : string) :
  reachable s → details_rendered s = true →
  (1 ≤ i ≤ 5 → ∃ s' f f', step s (DetailsStar i) = Some s' ∧ details_form s = Some f ∧
     details_form s' = Some f' ∧ form_stars f' = i ∧ form_text f' = form_text f) ∧
  ((∃ s', step s (DetailsText t) = Some s' ∧ option_map form_text (details_form s') = Some t) ↔
     is_Some (user s)).
Proof.
  intros Hr Hd. destruct (reachable_form_mounted s Hr Hd) as [f Hf].
  destruct (details_rendered_active s Hd) as [a Ha].
  unfold step. rewrite !handle_eq, Ha, Hf, Hd. split.
  - intros Hi. unfold setStars. rewrite (proj2 (andb_true_iff _ _)) by (rewrite !Nat.leb_le; lia).
    eexists _, f, (mkDetailsForm (form_text f) i). split_and!; [reflexivity | done | | done | done].
    destruct (commit_fields (set_details_form (Some (mkDetailsForm (form_text f) i)) s) [])
      as (_ & _ & _ & _ & _ & -> & _).
    unfold details_rendered in *. simpl. by rewrite Hd.
  - unfold setText. destruct (user s) as [u|]; [|split; [by intros (? & ? & _) | by intros []]].
    split; [by eexists|]. intros _. eexists. split; [reflexivity|].
    destruct (commit_fields (set_details_form (Some (mkDetailsForm t (form_stars f))) s) [])
      as (_ & _ & _ & _ & _ & -> & _).
    unfold details_rendered in *. simpl. by rewrite Hd.
Qed.

(** ** The scenarios of the specification *)

(** Logged out, the text area and the post button are disabled: the
    review list of r1 stays empty: the page shows the login hint, five
    highlighted stars and the empty-list message. *)
Example scenario_no_session :
  run fresh_start [CardOpen "r1"; DetailsStar 5] = Some demo_logged_out ∧
  step demo_logged_out (DetailsText "Great food") = None ∧
  step demo_logged_out (DetailsPost 1700000000000 1700000000000) = None ∧
  Reviews.reviews_for (reviews demo_logged_out) "r1" = [] ∧
  login_hint (user demo_logged_out) = true ∧
  option_map star_buttons (details_form demo_logged_out) = Some [true; true; true; true; true] ∧
  reviews_view (Reviews.reviews_for (reviews demo_logged_out) "r1") = NoReviews.
Proof. vm_compute. repeat split. Qed.

(** Logged in as Asha, a 4-star post on r1 gives a list of one review
    by Asha, shown as one row, the stars are cleared, and a restart reads
    the reviews back. *)
Example scenario_login_post :
  match step demo_draft (DetailsPost 1700000000000 1700000000000) with
  | Some s =>
      Reviews.reviews_for (reviews s) "r1" =
        [Reviews.mkReview 1700000000000 "Asha" 4 "Loved it here" "2023-11-14T22:13:20.000Z"] ∧
      review_instant (λ _, 0%Z) <$> Reviews.reviews_for (reviews s) "r1" = [Some 1700000000000%Z] ∧
      option_map reviews (mount (storage s)) = Some (reviews s) ∧
      reviews_view (Reviews.reviews_for (reviews s) "r1") =
        ReviewRows [("Asha", 4, "Loved it here")] ∧
      option_map star_buttons (details_form s) = Some [false; false; false; false; false]
  | None => False
  end.
Proof. vm_compute. split_and!; reflexivity. Qed.

(** ** Witnesses *)

Lemma demo_draft_reachable : reachable demo_draft.
Proof.
  apply (run_reachable fresh_start demo_draft demo_draft_events).
  - exact (reach_mount ∅ fresh_start fresh_start_mount).
  - vm_compute. reflexivity.
Qed.

Lemma demo_posted_step :
  step demo_draft (DetailsPost 1700000000000 1700000000000) = Some demo_posted.
Proof. vm_compute. reflexivity. Qed.

Lemma details_view_safe_witness :
  reachable demo_draft ∧ details_rendered demo_draft = true ∧
  ∃ a r, active demo_draft = Some a ∧ Catalog.find_restaurant Catalog.MOCK_RESTAURANTS a = Some r.
Proof.
  assert (Hd : details_rendered demo_draft = true) by (vm_compute; reflexivity).
  split; [exact demo_draft_reachable|]. split; [exact Hd|].
  exact (details_view_safe demo_draft demo_draft_reachable Hd).
Defined.

Lemma review_requires_session_witness :
  reachable demo_draft ∧
  step demo_draft (DetailsPost 1700000000000 1700000000000) = Some demo_posted ∧
  (reviews demo_posted = reviews demo_draft ∨
   ∃ u a rv, user demo_draft = Some u ∧ active demo_draft = Some a ∧
     reviews demo_posted = Reviews.addReview a rv (reviews demo_draft) ∧
     Reviews.user rv = author_name (Some u) ∧ 1 ≤ Reviews.stars rv ≤ 5 ∧
     5 ≤ String.length (JsString.trim (Reviews.text rv))).
Proof.
  split; [exact demo_draft_reachable|]. split; [exact demo_posted_step|].
  exact (review_requires_session _ _ _ demo_draft_reachable demo_posted_step).
Defined.

Lemma session_kept_witness :
  step demo_draft (DetailsPost 1700000000000 1700000000000) = Some demo_posted ∧
  is_Some (user demo_draft) ∧ is_Some (user demo_posted).
Proof.
  assert (Hu : is_Some (user demo_draft)) by (vm_compute; eexists; reflexivity).
  split; [exact demo_posted_step|]. split; [exact Hu|].
  exact (session_kept _ _ _ demo_posted_step Hu).
Defined.

Lemma restart_restores_witness :
  reachable demo_draft ∧
  ∃ s0, mount (storage demo_draft) = Some s0 ∧ user s0 = user demo_draft ∧
    reviews s0 = reviews demo_draft ∧ bookmarks s0 = bookmarks demo_draft ∧
    tab s0 = Home ∧ active s0 = None.
Proof.
  split; [exact demo_draft_reachable|]. exact (restart_restores _ demo_draft_reachable).
Defined.

Lemma card_toggle_flips_witness :
  step fresh_start (CardToggle "r1") = Some demo_saved ∧
  Bookmarks.bookmarked (bookmarks demo_saved) "r1" =
    negb (Bookmarks.bookmarked (bookmarks fresh_start) "r1") ∧
  Bookmarks.card_label (Bookmarks.bookmarked (bookmarks demo_saved) "r1") =
    (if Bookmarks.bookmarked (bookmarks fresh_start) "r1" then "Save" else "Saved").
Proof.
  assert (Hs : step fresh_start (CardToggle "r1") = Some demo_saved) by (vm_compute; reflexivity).
  split; [exact Hs|]. exact (card_toggle_flips _ _ _ Hs).
Defined.

Lemma post_enabled_witness :
  reachable demo_draft ∧ details_rendered demo_draft = true ∧
  user demo_draft = Some (mkUser "Asha" "a@x.com") ∧ active demo_draft = Some "r1" ∧
  details_form demo_draft = Some (mkDetailsForm "Loved it here" 4) ∧
  form_stars (mkDetailsForm "Loved it here" 4) ≠ 0 ∧
  5 ≤ String.length (JsString.trim (form_text (mkDetailsForm "Loved it here" 4))) ∧
  (Z.abs 7 ≤ JsDate.maxTime)%Z ∧
  ∃ s' date, step demo_draft (DetailsPost 7 7) = Some s' ∧
    Reviews.reviews_for (reviews s') "r1" =
      Reviews.mkReview 7 (author_name (Some (mkUser "Asha" "a@x.com"))) 4 "Loved it here" date ::
      Reviews.reviews_for (reviews demo_draft) "r1" ∧
    JsDate.Date_parse (λ _, 0%Z) date = Some 7%Z ∧
    details_form s' = Some details_init.
Proof.
  assert (Hd : details_rendered demo_draft = true) by (vm_compute; reflexivity).
  assert (Hu : user demo_draft = Some (mkUser "Asha" "a@x.com")) by (vm_compute; reflexivity).
  assert (Ha : active demo_draft = Some "r1") by (vm_compute; reflexivity).
  assert (Hf : details_form demo_draft = Some (mkDetailsForm "Loved it here" 4))
    by (vm_compute; reflexivity).
  assert (Hs : form_stars (mkDetailsForm "Loved it here" 4) ≠ 0) by (simpl; lia).
  assert (Ht : 5 ≤ String.length (JsString.trim (form_text (mkDetailsForm "Loved it here" 4))))
    by (vm_compute; lia).
  assert (Hc : (Z.abs 7 ≤ JsDate.maxTime)%Z) by (unfold JsDate.maxTime; lia).
  split_and!; try assumption; [exact demo_draft_reachable|].
  exact (post_enabled demo_draft _ _ _ 7 7 (λ _, 0%Z) demo_draft_reachable Hd Hu Ha Hf Hs Ht Hc).
Defined.

Lemma mount_fallback_witness :
  unreadable (<["nom_user" := "{oops"]> ∅) "nom_user" ∧
  unreadable (<["nom_user" := "{oops"]> ∅) "nom_reviews" ∧
  unreadable (<["nom_user" := "{oops"]> ∅) "nom_bookmarks" ∧
  ∃ s, mount (<["nom_user" := "{oops"]> ∅) = Some s ∧ user s = None ∧ reviews s = [] ∧
    bookmarks s = [] ∧ tab s = Home.
Proof.
  assert (H1 : unreadable (<["nom_user" := "{oops"]> ∅) "nom_user") by (vm_compute; reflexivity).
  assert (H2 : unreadable (<["nom_user" := "{oops"]> ∅) "nom_reviews") by (vm_compute; exact I).
  assert (H3 : unreadable (<["nom_user" := "{oops"]> ∅) "nom_bookmarks") by (vm_compute; exact I).
  split_and!; [exact H1 | exact H2 | exact H3 |].
  exact (mount_fallback _ H1 H2 H3).
Defined.

Lemma reviews_typed_witness :
  run fresh_start (demo_draft_events ++ [DetailsPost 1700000000000 1700000000000]) =
    Some demo_posted ∧ reviews_ok (reviews demo_posted).
Proof.
  assert (H : run fresh_start
    (demo_draft_events ++ [DetailsPost 1700000000000 1700000000000]) =
    Some demo_posted) by (vm_compute; reflexivity).
  split; [exact H | exact (reviews_typed _ _ H)].
Defined.

Lemma review_tab_stale_active_witness :
  run fresh_start [CardOpen "r1"; DetailsBack; HeaderQueryChange "chaa"; TabHome] =
    Some (default fresh_start (run fresh_start [CardOpen "r1"; DetailsBack; HeaderQueryChange "chaa"; TabHome])) ∧
  Forall (λ e, ∀ r, e ≠ CardOpen r) [DetailsBack; HeaderQueryChange "chaa"; TabHome] ∧
  ∃ s'', step (default fresh_start (run fresh_start [CardOpen "r1"; DetailsBack; HeaderQueryChange "chaa"; TabHome])) TabReview = Some s'' ∧
    details_rendered s'' = true ∧ active s'' = Some "r1".
Proof.
  assert (H1 : run fresh_start [CardOpen "r1"; DetailsBack; HeaderQueryChange "chaa"; TabHome] =
    Some (default fresh_start (run fresh_start [CardOpen "r1"; DetailsBack; HeaderQueryChange "chaa"; TabHome])))
    by (vm_compute; reflexivity).
  assert (H2 : Forall (λ e, ∀ r, e ≠ CardOpen r) [DetailsBack; HeaderQueryChange "chaa"; TabHome])
    by (repeat constructor; discriminate).
  split_and!; [exact H1 | exact H2 |]. exact (review_tab_stale_active _ _ _ _ H1 H2).
Defined.

Lemma hydrate_unchecked_witness :
  JsObject.wf [("r1", [Reviews.mkReview 1 "Mallory" 9 "Best place ever" "d"])] ∧
  ∃ s, mount (saveLocal ∅ "nom_reviews"
         (encode_reviews [("r1", [Reviews.mkReview 1 "Mallory" 9 "Best place ever" "d"])])) = Some s ∧
    reviews s = [("r1", [Reviews.mkReview 1 "Mallory" 9 "Best place ever" "d"])].
Proof.
  assert (H : JsObject.wf [("r1", [Reviews.mkReview 1 "Mallory" 9 "Best place ever" "d"])])
    by (apply NoDup_singleton).
  split; [exact H | exact (hydrate_unchecked _ H)].
Defined.

Lemma card_open_details_witness :
  reachable fresh_start ∧ (tab fresh_start = Home ∨ tab fresh_start = SearchTab) ∧
  Catalog.chaa_club ∈ Search.restaurants (query fresh_start) ∧
  ∃ s', step fresh_start (CardOpen (Catalog.id Catalog.chaa_club)) = Some s' ∧
    details_rendered s' = true ∧ active s' = Some (Catalog.id Catalog.chaa_club) ∧
    Catalog.find_restaurant Catalog.MOCK_RESTAURANTS (Catalog.id Catalog.chaa_club) = Some Catalog.chaa_club ∧
    details_form s' = Some details_init.
Proof.
  assert (H1 : reachable fresh_start) by exact (reach_mount ∅ fresh_start fresh_start_mount).
  assert (H2 : tab fresh_start = Home ∨ tab fresh_start = SearchTab) by (left; vm_compute; reflexivity).
  assert (H3 : Catalog.chaa_club ∈ Search.restaurants (query fresh_start))
    by (vm_compute; apply list_elem_of_In; simpl; auto).
  split_and!; [exact H1 | exact H2 | exact H3 |]. exact (card_open_details _ _ H1 H2 H3).
Defined.

Lemma filters_modal_close_witness :
  (FiltersApply = ModalClose ∨ FiltersApply = FiltersCancel ∨ FiltersApply = FiltersApply) ∧
  match step (set_filtersOpen true fresh_start) FiltersApply with
  | Some s' =>
      filtersOpen (set_filtersOpen true fresh_start) = true ∧ filtersOpen s' = false ∧
      tab s' = tab (set_filtersOpen true fresh_start) ∧ query s' = query (set_filtersOpen true fresh_start) ∧
      active s' = active (set_filtersOpen true fresh_start) ∧ user s' = user (set_filtersOpen true fresh_start) ∧
      reviews s' = reviews (set_filtersOpen true fresh_start) ∧
      bookmarks s' = bookmarks (set_filtersOpen true fresh_start) ∧
      storage s' = storage (set_filtersOpen true fresh_start)
  | None => filtersOpen (set_filtersOpen true fresh_start) = false
  end.
Proof.
  assert (H : FiltersApply = ModalClose ∨ FiltersApply = FiltersCancel ∨ FiltersApply = FiltersApply)
    by (right; right; reflexivity).
  split; [exact H | exact (filters_modal_close (set_filtersOpen true fresh_start) FiltersApply H)].
Defined.

Lemma details_form_edit_witness :
  reachable demo_draft ∧ details_rendered demo_draft = true ∧
  ((1 ≤ 3 ≤ 5 → ∃ s' f f', step demo_draft (DetailsStar 3) = Some s' ∧ details_form demo_draft = Some f ∧
     details_form s' = Some f' ∧ form_stars f' = 3 ∧ form_text f' = form_text f) ∧
   ((∃ s', step demo_draft (DetailsText "Nice!") = Some s' ∧
       option_map form_text (details_form s') = Some "Nice!") ↔ is_Some (user demo_draft))).
Proof.
  assert (Hd : details_rendered demo_draft = true) by (vm_compute; reflexivity).
  split; [exact demo_draft_reachable|]. split; [exact Hd|].
  exact (details_form_edit demo_draft 3 "Nice!" demo_draft_reachable Hd).
Defined.

End App.
