(* ===== verification/AppSpec.v ===== *)
(** * AppSpec: the specification's state machine, and the refinement of App by it

    The specification describes the application by its stores and their
    operations (sections 3, 4 and 6): the view router ([navigate],
    [openDetails], [goBack]), the search query, the filter panel, the
    bookmark set ([toggle]), the session ([login]) and the review store
    ([addReview], guarded by a session, 1 to 5 stars and a body of at
    least 5 characters once trimmed, signed with the session's name or
    "Guest", prepended to the restaurant's list).  [AState] is that
    state, with the review store and the bookmark set as the gmap and
    gset the specification speaks of; [aop] is one operation.

    [abs] maps a state of the application to it: the JSON object of
    review lists by [JsObject.to_map], the bookmark array by
    [Bookmarks.abs].  The local form state and localStorage have no
    counterpart: typing into a form is a stuttering step.

    [step_refines]: every step of the application from a reachable
    state is zero, one or two operations of the specification (Continue
    on the login page is [login] then [navigate home]).  [run_refines]
    lifts it to runs, as a simulation diagram is lifted to sequences of
    steps. *)

From S2P Require Import Prelude JsString Catalog Search Bookmarks JsObject Reviews Session JsDate Details Json Storage Components App.
Import Session Details Components App.

Module AppSpec.

Record AState := mkAState {
  a_tab : Tab;
  a_active : option string;
  a_query : string;
  a_filters : bool;
  a_session : option User;
  a_reviews : gmap string (list Reviews.Review);
  a_bookmarks : gset string
}.

(** One operation of the specification. *)
Inductive aop : AState → AState → Prop :=
| a_navigate σ t :
    aop σ (mkAState t (a_active σ) (a_query σ) (a_filters σ) (a_session σ) (a_reviews σ) (a_bookmarks σ))
| a_openDetails σ rid :
    aop σ (mkAState DetailsTab (Some rid) (a_query σ) (a_filters σ) (a_session σ) (a_reviews σ)
             (a_bookmarks σ))
| a_search σ q :
    aop σ (mkAState (a_tab σ) (a_active σ) q (a_filters σ) (a_session σ) (a_reviews σ) (a_bookmarks σ))
| a_filter_panel σ b :
    aop σ (mkAState (a_tab σ) (a_active σ) (a_query σ) b (a_session σ) (a_reviews σ) (a_bookmarks σ))
| a_toggle σ rid :
    aop σ (mkAState (a_tab σ) (a_active σ) (a_query σ) (a_filters σ) (a_session σ) (a_reviews σ)
             (Bookmarks.gset_toggle rid (a_bookmarks σ)))
| a_login σ u :
    aop σ (mkAState (a_tab σ) (a_active σ) (a_query σ) (a_filters σ) (Some u) (a_reviews σ)
             (a_bookmarks σ))
| a_addReview σ rid u rv :
    a_session σ = Some u → 1 ≤ Reviews.stars rv ≤ 5 →
    5 ≤ String.length (JsString.trim (Reviews.text rv)) →
    Reviews.user rv = author_name (Some u) →
    aop σ (mkAState (a_tab σ) (a_active σ) (a_query σ) (a_filters σ) (a_session σ)
             (<[rid := rv :: default [] (a_reviews σ !! rid)]> (a_reviews σ)) (a_bookmarks σ)).

Definition abs (s : State) : AState :=
  mkAState (tab s) (active s) (query s) (filtersOpen s) (user s)
    (JsObject.to_map (reviews s)) (Bookmarks.abs (bookmarks s)).

(** ** Lemmas *)

Lemma run_effects_view (d : list Store) (s : State) :
  query (run_effects d s) = query s ∧ filtersOpen (run_effects d s) = filtersOpen s.
Proof.
  unfold run_effects. revert s. induction d as [|st d IH]; intros s; [done|].
  simpl. destruct (IH (save_store st s)) as [-> ->]. by destruct st.
Qed.

(** [commit] changes nothing the specification sees. *)
Lemma abs_commit (s : State) (d : list Store) : abs (commit s d) = abs s.
Proof.
  destruct (commit_fields s d) as (Ht & Ha & Hu & Hr & Hb & _).
  destruct (run_effects_view d (sync_forms s)) as [Hq Hf].
  unfold abs, commit in *. rewrite Ht, Ha, Hu, Hr, Hb, Hq, Hf. done.
Qed.

Lemma aop_one (σ σ' : AState) : aop σ σ' → rtc aop σ σ'.
Proof. intros H. by apply rtc_once. Qed.

#[local] Hint Resolve aop_one rtc_refl : core.

(** ** Refinement *)

Lemma handle_refines (s s' : State) (e : Event) (d : list Store) :
  inv s → handle s e = Some (s', d) → rtc aop (abs s) (abs s').
Proof.
  intros Hinv H. rewrite handle_eq in H.
  destruct e; repeat case_match; simplify_eq/=; try done; unfold abs; simpl.
  all: try by (apply aop_one; constructor).
  - (* Save on a card *)
    rewrite Bookmarks.abs_toggle. apply aop_one. constructor.
  - (* Post review *)
    match goal with H : post_review _ _ _ _ = Some _ |- _ =>
      pose proof H as Hv; apply post_review_Some in H as (Hu & _ & _ & _ & Hrv & _) end.
    apply post_review_valid in Hv as (Hst & Htx & _); [|by apply (inv_form _ Hinv)].
    destruct (user s) as [u|] eqn:Hus; [|by destruct Hu].
    unfold Reviews.addReview, Reviews.reviews_for.
    rewrite JsObject.set_to_map, JsObject.get_to_map by apply Hinv.
    apply aop_one. eapply a_addReview; [done | done | done |]. by rewrite Hrv.
  - (* Continue on the login page *)
    match goal with |- rtc aop _ (mkAState _ _ _ _ (Some ?u) _ _) =>
      eapply rtc_l; [apply (a_login (abs s) u)|] end.
    apply aop_one. match goal with |- aop ?x _ => apply (a_navigate x Home) end.
Qed.

Theorem step_refines (s s' : State) (e : Event) :
  reachable s → step s e = Some s' → rtc aop (abs s) (abs s').
Proof.
  intros Hr. unfold step. destruct (handle s e) as [[s1 d]|] eqn:Hh; [|done].
  intros [= <-]. rewrite abs_commit. exact (handle_refines _ _ _ _ (reachable_inv _ Hr) Hh).
Qed.

(** C25. Refinement: every run of the application from a reachable
    state is a sequence of operations of the specification on the
    abstract stores: navigation, search, the filter panel, a bookmark
    toggle on the set, a login, or a review added with a session, 1 to
    5 stars and a trimmed body of 5 characters at the head of its
    restaurant's list. *)
Theorem run_refines (s s' : State) (es : list Event) :
  reachable s → run s es = Some s' → rtc aop (abs s) (abs s').
Proof.
  revert s. induction es as [|e es IH]; intros s Hr H; simpl in H; [by simplify_eq|].
  destruct (step s e) as [s1|] eqn:Hs; [|done].
  eapply rtc_trans; [exact (step_refines _ _ _ Hr Hs)|].
  apply IH; [by eapply reach_step | done].
Qed.

(** ** Witnesses *)

Lemma run_refines_witness :
  reachable fresh_start ∧ run fresh_start demo_draft_events = Some demo_draft ∧
  rtc aop (abs fresh_start) (abs demo_draft).
Proof.
  assert (Hr : reachable fresh_start) by exact (reach_mount ∅ fresh_start fresh_start_mount).
  assert (Hs : run fresh_start demo_draft_events = Some demo_draft) by (vm_compute; reflexivity).
  split; [exact Hr | split; [exact Hs | exact (run_refines _ _ _ Hr Hs)]].
Defined.

End AppSpec.
