(* ===== verification/Featured.v ===== *)
(** * Featured: the v1.1 homepage of NomNomApp.jsx

    [featuredReviewers] (lines 11-32) is a constant list of four
    reviewers with a rating each, and [StarRating] (lines 34-45) draws
    five stars, star [i] (from 0) filled when [i < rating].  The page
    ([NomNomApp], lines 47-74) only maps the list to cards: it has no
    state and no handler.  A star is modelled by whether it is filled.
    The em dash of the second review (U+2014) is outside the Latin-1
    string model and is written as two hyphens. *)

From S2P Require Import Prelude.

Module Featured.

Record Reviewer := mkReviewer { name : string; review : string; rating : nat }.

Definition featuredReviewers : list Reviewer := [
  mkReviewer "Koumi Mahzabin" "Amazing food and ambiance. Hidden gem!" 4;
  mkReviewer "Al Mamun" "Tried their beef nihari -- no need to go to Karachi!" 5;
  mkReviewer "Sarah Habib" "Family-friendly place with a clean interior." 4;
  mkReviewer "Palash Hossain" "Service can be slow, but food is top notch." 3
].

(** [[...Array(5)].map((_, i) => i < rating ? filled : empty)] *)
Definition StarRating (rating : nat) : list bool :=
  (λ i, i <? rating) <$> seq 0 5.

(** The rendered cards: one per reviewer, in order, with its stars. *)
Definition NomNomApp : list (string * string * list bool) :=
  (λ r, (name r, review r, StarRating (rating r))) <$> featuredReviewers.

(** A widget has five stars, the first [min rating 5] of them filled. *)
Lemma StarRating_spec (rating : nat) :
  StarRating rating = replicate (min rating 5) true ++ replicate (5 - min rating 5) false.
Proof.
  unfold StarRating.
  destruct rating as [|[|[|[|[|[|n]]]]]]; reflexivity.
Qed.

(** C29. A widget draws five stars, the first [min rating 5] of them filled. *)
Lemma StarRating_filled (rating : nat) :
  length (filter (λ b : bool, b = true) (StarRating rating)) = min rating 5 ∧
  length (StarRating rating) = 5.
Proof. destruct rating as [|[|[|[|[|[|n]]]]]]; split; reflexivity. Qed.

(** The homepage draws four cards with 4, 5, 4 and 3 filled stars. *)
Example NomNomApp_cards :
  (λ c, length (filter (λ b : bool, b = true) c.2)) <$> NomNomApp = [4; 5; 4; 3].
Proof. reflexivity. Qed.

End Featured.
